(** * search-linkedin-mcp: the stdio JSON-RPC client and the verification workflow

    A shallow embedding of [src/main.py]: the class [MCPServerStdio] (the
    line-delimited JSON-RPC client of the tool process), the class
    [CompanyVerificationWorkflow] (search -> extract -> crawl -> verify) and,
    of the class [OpenAIAgentWithMCP], what does not talk to the OpenAI
    service: the conversion of the tool list, the loop over the tool calls of
    a run, and the methods that start, use and close the client.  Of
    [src/test_mcp_agent.py] it holds [test_workflow].

    Conventions of the embedding.
    - A Python object that the code receives from [json.loads] is a [value];
      a dict is an association list read by its first binding.
    - A Python [str] is the [string] of the bytes of its UTF-8 text.
    - A method of a class is a computation in the monad [M St] over the
      object's fields: it returns ([Ok]), it raises ([Raise]), or it awaits
      something that never comes ([Blocked]); the fields keep every assignment
      made before an exception or before the await that blocks.
    - [json.loads], Python's [str()] of a value ([py_str]) and [str.lower]
      ([lower]) are parameters of the development.  A small decoder for a
      subset of JSON and the lowering of the ASCII letters instantiate them in
      the closed examples, whose texts are ASCII.
    - The calls of [logging] are left out, except that the arguments of their
      f-strings are evaluated where that can raise ([len] of a value, the
      decoding of what was read from the child's stderr).
    - The child process is a script of what [readline] on its stdout yields, a
      line being given as the text it decodes to, and a script of what [read]
      on its stderr yields.  The spawn of the child can raise. *)

From Stdlib Require Import ZArith List String Ascii Bool Lia Sorted DecimalString.
From Stdlib Require Import Floats.SpecFloat.
Import ListNotations.

Set Warnings "-register-all".
Local Open Scope list_scope.
Local Open Scope string_scope.
Local Open Scope Z_scope.

(** ** Python values *)

Inductive value : Type :=
| VNone
| VBool (b : bool)
| VInt (n : Z)
| VFloat (x : spec_float)
| VStr (s : string)
| VList (items : list value)
| VDict (entries : list (string * value)).

(** The exceptions the modelled code can raise.  [Exception msg] is
    [raise Exception(msg)]; the others are raised by the interpreter or by
    [json.loads]. *)
Inductive exn : Type :=
| Exception (msg : string)
| RuntimeError (msg : string)
| JSONDecodeError (msg : string)
| TimeoutError
| TypeError
| AttributeError
| KeyError (key : string)
| UnicodeDecodeError
| FileNotFoundError.

(** What running a piece of code does: it returns a value, it raises, or it
    awaits something that never comes and so neither returns nor raises.
    [Blocked] takes a token of type [W]: code that awaits nothing has no such
    token ([W] is empty) and cannot block. *)
Inductive completion (W A : Type) : Type :=
| Ok (a : A)
| Raise (e : exn)
| Blocked (w : W).

Arguments Ok {W A} a.
Arguments Raise {W A} e.
Arguments Blocked {W A} w.

(** The outcome of a step that awaits nothing, and of a coroutine. *)
Abbreviation outcome := (completion Empty_set).
Abbreviation awaited := (completion unit).

(** A step that awaits nothing, as a step of a coroutine. *)
Definition step {A : Type} (o : outcome A) : awaited A :=
  match o with
  | Ok a => Ok a
  | Raise e => Raise e
  | Blocked w => match w with end
  end.

(** [bool(v)] *)
Definition truthy (v : value) : bool :=
  match v with
  | VNone => false
  | VBool b => b
  | VInt n => negb (n =? 0)
  | VFloat (S754_zero _) => false
  | VFloat _ => true
  | VStr s => negb (s =? "")%string
  | VList items => match items with [] => false | _ => true end
  | VDict entries => match entries with [] => false | _ => true end
  end.

(** *** dict *)

Fixpoint dict_get (d : list (string * value)) (k : string) : option value :=
  match d with
  | [] => None
  | (k', v) :: rest => if (k' =? k)%string then Some v else dict_get rest k
  end.

(** [k in d] *)
Definition dict_mem (d : list (string * value)) (k : string) : bool :=
  match dict_get d k with Some _ => true | None => false end.

(** [d.get(k, default)] *)
Definition dict_get_default (d : list (string * value)) (k : string) (default : value) : value :=
  match dict_get d k with Some v => v | None => default end.

(** [d[k] = v]: the binding is replaced in place, or appended. *)
Fixpoint dict_set (d : list (string * value)) (k : string) (v : value) : list (string * value) :=
  match d with
  | [] => [(k, v)]
  | (k', v') :: rest =>
      if (k' =? k)%string then (k, v) :: rest else (k', v') :: dict_set rest k v
  end.

(** *** str *)

Definition ascii_lower (c : ascii) : ascii :=
  let n := nat_of_ascii c in
  if (65 <=? n)%nat && (n <=? 90)%nat then ascii_of_nat (n + 32) else c.

(** The text with its letters A to Z lowered: what [s.lower()] is when [s]
    is ASCII text.  On other text [str.lower] follows the Unicode tables,
    which are not written out here: [str.lower] is a parameter ([lower]) of
    the definitions that use it. *)
Fixpoint lower_ascii (s : string) : string :=
  match s with
  | EmptyString => EmptyString
  | String c rest => String (ascii_lower c) (lower_ascii rest)
  end.

(** The text is ASCII: every byte is below 128. *)
Fixpoint is_ascii (s : string) : bool :=
  match s with
  | EmptyString => true
  | String c rest => (nat_of_ascii c <? 128)%nat && is_ascii rest
  end.

(** [needle in hay] for two strings *)
Fixpoint str_contains (needle hay : string) : bool :=
  if String.prefix needle hay then true
  else match hay with
       | EmptyString => false
       | String _ rest => str_contains needle rest
       end.

(** *** Operations of the interpreter that can raise *)

(** [v.get(k, default)]: only a dict has the method. *)
Definition py_get (v : value) (k : string) (default : value) : outcome value :=
  match v with
  | VDict d => Ok (dict_get_default d k default)
  | _ => Raise AttributeError
  end.

Definition is_str (k : string) (v : value) : bool :=
  match v with VStr s => (s =? k)%string | _ => false end.

(** [k in v] for a string [k] *)
Definition py_in (k : string) (v : value) : outcome bool :=
  match v with
  | VDict d => Ok (dict_mem d k)
  | VList items => Ok (existsb (is_str k) items)
  | VStr s => Ok (str_contains k s)
  | _ => Raise TypeError
  end.

(** [v[k]] for a string [k] *)
Definition py_getitem (v : value) (k : string) : outcome value :=
  match v with
  | VDict d => match dict_get d k with Some x => Ok x | None => Raise (KeyError k) end
  | _ => Raise TypeError
  end.

(** [len(v)] *)
Definition py_len (v : value) : outcome Z :=
  match v with
  | VStr s => Ok (Z.of_nat (String.length s))
  | VList items => Ok (Z.of_nat (List.length items))
  | VDict d => Ok (Z.of_nat (List.length d))
  | _ => Raise TypeError
  end.

Fixpoint chars (s : string) : list value :=
  match s with
  | EmptyString => []
  | String c rest => VStr (String c EmptyString) :: chars rest
  end.

(** [iter(v)], as the list a [for] loop runs over *)
Definition py_iter (v : value) : outcome (list value) :=
  match v with
  | VList items => Ok items
  | VStr s => Ok (chars s)
  | VDict d => Ok (map (fun kv => VStr (fst kv)) d)
  | _ => Raise TypeError
  end.

(** [v.lower()], given [str.lower] *)
Definition py_lower (lower : string -> string) (v : value) : outcome string :=
  match v with
  | VStr s => Ok (lower s)
  | _ => Raise AttributeError
  end.

Definition float_positive (x : spec_float) : bool :=
  match x with
  | S754_infinity false => true
  | S754_finite false _ _ => true
  | _ => false
  end.

(** [v > 0] *)
Definition py_gt0 (v : value) : outcome value :=
  match v with
  | VBool b => Ok (VBool b)
  | VInt n => Ok (VBool (0 <? n))
  | VFloat x => Ok (VBool (float_positive x))
  | _ => Raise TypeError
  end.

(** ** The monad of a method: state, exceptions and awaits *)

Definition M (St A : Type) : Type := St -> awaited A * St.

Definition ret {St A : Type} (a : A) : M St A := fun s => (Ok a, s).

Definition bind {St A B : Type} (m : M St A) (k : A -> M St B) : M St B :=
  fun s =>
    match m s with
    | (Ok a, s') => k a s'
    | (Raise e, s') => (Raise e, s')
    | (Blocked w, s') => (Blocked w, s')
    end.

Definition raise {St A : Type} (e : exn) : M St A := fun s => (Raise e, s).

(** An await that never completes. *)
Definition block {St A : Type} : M St A := fun s => (Blocked tt, s).

Definition lift {St A : Type} (o : outcome A) : M St A := fun s => (step o, s).

Definition get {St : Type} : M St St := fun s => (Ok s, s).

Definition modify {St : Type} (f : St -> St) : M St unit := fun s => (Ok tt, f s).

(** The run of a method comes to an end: it returns or raises. *)
Definition completes {St A : Type} (run : awaited A * St) : Prop :=
  match fst run with
  | Blocked _ => False
  | _ => True
  end.

(** [try: body except <handles>: handler] *)
Definition try_except {St A : Type} (body : M St A) (handles : exn -> bool)
  (handler : exn -> M St A) : M St A :=
  fun s =>
    match body s with
    | (Raise e, s') => if handles e then handler e s' else (Raise e, s')
    | r => r
    end.

(** [except Exception] *)
Definition any_exception (e : exn) : bool := true.

(** [except json.JSONDecodeError] *)
Definition is_JSONDecodeError (e : exn) : bool :=
  match e with JSONDecodeError _ => true | _ => false end.

Declare Scope py_scope.
Delimit Scope py_scope with py.
Notation "x <- c ;; k" := (bind c (fun x => k))
  (at level 61, c at next level, right associativity) : py_scope.
Notation "c ;; k" := (bind c (fun _ => k))
  (at level 61, right associativity) : py_scope.
Local Open Scope py_scope.

(** [for x in xs: acc = body(acc, x)] *)
Fixpoint for_each {St A B : Type} (xs : list A) (acc : B) (body : B -> A -> M St B) : M St B :=
  match xs with
  | [] => ret acc
  | x :: rest => acc' <- body acc x ;; for_each rest acc' body
  end.

(** ** MCPServerStdio: the JSON-RPC client over the child's stdio *)

Module MCPServerStdio.

(** What [asyncio.wait_for(self.process.stdout.readline(), 30)] yields: a line
    (the empty line at the end of the stream), or nothing within the window. *)
Inductive read_event : Type :=
| Line (text : string)
| ReadTimeout.

(** What [await self.process.stderr.read(1024)] will yield, read after read.
    At [Closed] the stream is at its end and every read returns [b''].  At
    [Silent] the stream is open and the child writes nothing more to it: the
    read never returns.  Otherwise the read returns some bytes, which decode
    as UTF-8 or not. *)
Inductive stderr_stream : Type :=
| Closed
| Silent
| Diagnostic (decodes : bool) (rest : stderr_stream).

(** The child process: the requests written to its stdin, oldest first, what
    its stdout will yield, and what its stderr will.  A child whose stdout
    script is used up stays silent on it. *)
Record subprocess : Type := {
  stdin : list value;
  stdout : list read_event;
  stderr : stderr_stream
}.

(** What [asyncio.create_subprocess_exec] gives [__aenter__]: an exception,
    or a child that has been written nothing, given by its two scripts. *)
Definition spawn : Type := outcome (list read_event * stderr_stream).

Definition attach (child : list read_event * stderr_stream) : subprocess :=
  {| stdin := []; stdout := fst child; stderr := snd child |}.

(** The fields of the client ([command], [args] and [env] only feed the spawn). *)
Record t : Type := {
  process : option subprocess;
  cache_tools_list : bool;
  _tools_cache : value;
  _next_request_id : Z;
  _initialized : bool
}.

Definition set_process (p : option subprocess) (self : t) : t :=
  {| process := p;
     cache_tools_list := cache_tools_list self;
     _tools_cache := _tools_cache self;
     _next_request_id := _next_request_id self;
     _initialized := _initialized self |}.

Definition set_tools_cache (v : value) (self : t) : t :=
  {| process := process self;
     cache_tools_list := cache_tools_list self;
     _tools_cache := v;
     _next_request_id := _next_request_id self;
     _initialized := _initialized self |}.

Definition set_next_request_id (n : Z) (self : t) : t :=
  {| process := process self;
     cache_tools_list := cache_tools_list self;
     _tools_cache := _tools_cache self;
     _next_request_id := n;
     _initialized := _initialized self |}.

Definition set_initialized (b : bool) (self : t) : t :=
  {| process := process self;
     cache_tools_list := cache_tools_list self;
     _tools_cache := _tools_cache self;
     _next_request_id := _next_request_id self;
     _initialized := b |}.

(** [__init__] *)
Definition init (cache_tools_list : bool) : t :=
  {| process := None;
     cache_tools_list := cache_tools_list;
     _tools_cache := VNone;
     _next_request_id := 1;
     _initialized := false |}.

Definition is_TimeoutError (e : exn) : bool :=
  match e with TimeoutError => true | _ => false end.

(** [str(e)] of a caught exception, as an f-string renders it; the
    interpreter's own texts for the argument-less classes are not modelled. *)
Definition exn_str (e : exn) : string :=
  match e with
  | Exception msg => msg
  | RuntimeError msg => msg
  | JSONDecodeError msg => msg
  | KeyError key => key
  | _ => ""
  end.

(** The texts of the exceptions [_send_request] raises. *)
Definition not_started_message : string := "MCP服务器未启动".
Definition empty_response_message : string := "空响应，可能是Node.js子进程没有输出".
Definition decode_error_prefix : string := "无法解析JSON响应: ".
Definition server_error_prefix : string := "MCP服务器错误: ".
Definition timeout_message : string := "等待MCP服务器响应超时".

(** The requests of [list_tools] and [call_tool]. *)
Definition tools_list_request (id : Z) : value :=
  VDict [("jsonrpc", VStr "2.0");
         ("id", VInt id);
         ("method", VStr "tools/list")].

Definition tools_call_request (id : Z) (tool_name : string) (arguments : value) : value :=
  VDict [("jsonrpc", VStr "2.0");
         ("id", VInt id);
         ("method", VStr "tools/call");
         ("params", VDict [("name", VStr tool_name); ("arguments", arguments)])].

(** An entry of a content list that [call_tool] reads the payload from: a
    dict of type "text" whose text is not empty. *)
Definition text_part (item text : value) : Prop :=
  exists entry,
    item = VDict entry /\
    dict_get entry "type" = Some (VStr "text") /\
    dict_get_default entry "text" (VStr "") = text /\
    truthy text = true.

(** [self.process.stdin.write(...)] and [drain()] *)
Definition write_request (request : value) : M t unit :=
  self <- get ;;
  match process self with
  | Some p =>
      modify (set_process (Some {| stdin := (stdin p ++ [request])%list;
                                   stdout := stdout p;
                                   stderr := stderr p |}))
  | None => raise AttributeError
  end.

(** [await asyncio.wait_for(self.process.stdout.readline(), timeout)] *)
Definition readline : M t string :=
  self <- get ;;
  match process self with
  | Some p =>
      match stdout p with
      | Line text :: rest =>
          modify (set_process (Some {| stdin := stdin p; stdout := rest;
                                       stderr := stderr p |})) ;;
          ret text
      | ReadTimeout :: rest =>
          modify (set_process (Some {| stdin := stdin p; stdout := rest;
                                       stderr := stderr p |})) ;;
          raise TimeoutError
      | [] => raise TimeoutError
      end
  | None => raise AttributeError
  end.

(** [stderr_data = await self.process.stderr.read(1024)] and, when there is
    data, the [logging.error] whose f-string decodes it.  The read has no time
    limit. *)
Definition read_stderr : M t unit :=
  self <- get ;;
  match process self with
  | Some p =>
      match stderr p with
      | Closed => ret tt
      | Silent => block
      | Diagnostic decodes rest =>
          modify (set_process (Some {| stdin := stdin p; stdout := stdout p;
                                       stderr := rest |})) ;;
          if decodes then ret tt else raise UnicodeDecodeError
      end
  | None => raise AttributeError
  end.

(** The requests written to the child so far, the [id] of a request, and the
    number of requests written between two states of the client. *)
Definition sent (self : t) : list value :=
  match process self with
  | Some p => stdin p
  | None => []
  end.

Definition request_id (request : value) : option Z :=
  match request with
  | VDict d => match dict_get d "id" with Some (VInt n) => Some n | _ => None end
  | _ => None
  end.

Definition round_trips (before after : t) : Z :=
  Z.of_nat (List.length (sent after)) - Z.of_nat (List.length (sent before)).

(** The ids 1, ..., n. *)
Definition ids_upto (n : nat) : list Z := map Z.of_nat (seq 1 n).

(** The requests written so far carry the ids 1, 2, ..., and the next id is
    one more than their number. *)
Definition ids_invariant (self : t) : Prop :=
  exists p,
    process self = Some p /\
    map request_id (stdin p) = map Some (ids_upto (List.length (stdin p))) /\
    _next_request_id self = Z.of_nat (List.length (stdin p)) + 1.

(** The client right after [create_subprocess_exec] in [__aenter__]. *)
Definition spawned (cache_tools_list : bool) (child : list read_event * stderr_stream) : t :=
  set_process (Some (attach child)) (init cache_tools_list).

(** The client after a handshake that succeeded, and after one that failed. *)
Definition after_handshake (ok cache_tools_list : bool) (rest : list read_event)
  (diagnostics : stderr_stream) : t :=
  {| process := Some {| stdin := [VDict [("jsonrpc", VStr "2.0");
                                         ("id", VInt 1);
                                         ("method", VStr "initialize");
                                         ("params",
                                          VDict [("protocolVersion", VStr "0.5.0");
                                                 ("clientInfo",
                                                  VDict [("name", VStr "OpenAI Agent MCP Client");
                                                         ("version", VStr "1.0.0")]);
                                                 ("capabilities", VDict [("tools", VDict [])])])]];
                        stdout := rest;
                        stderr := diagnostics |};
     cache_tools_list := cache_tools_list;
     _tools_cache := VNone;
     _next_request_id := 2;
     _initialized := ok |}.

(** The first read of the stream returns, with nothing or with bytes that
    decode; and the stream that read leaves. *)
Definition readable (diagnostics : stderr_stream) : bool :=
  match diagnostics with
  | Closed => true
  | Silent => false
  | Diagnostic decodes _ => decodes
  end.

Definition after_read (diagnostics : stderr_stream) : stderr_stream :=
  match diagnostics with
  | Diagnostic _ rest => rest
  | _ => diagnostics
  end.

(** The stream never falls silent: every read of it returns. *)
Fixpoint never_silent (diagnostics : stderr_stream) : bool :=
  match diagnostics with
  | Closed => true
  | Silent => false
  | Diagnostic _ rest => never_silent rest
  end.

(** The client has no child, or a child whose stderr never falls silent. *)
Definition responsive (self : t) : Prop :=
  forall p, process self = Some p -> never_silent (stderr p) = true.

(** The spawn raises, or gives a child whose stderr never falls silent. *)
Definition spawn_responsive (spawning : spawn) : Prop :=
  forall child, spawning = Ok child -> never_silent (snd child) = true.

(** The calls a caller can make on the client, in any order. *)
Inductive op : Type :=
| OpInitialize
| OpListTools
| OpCallTool (tool_name : string) (arguments : value)
| OpInvalidate.

Section WithJson.

(** [json.loads] on a string, and [str()] of a value. *)
Variable json_loads : string -> outcome value.
Variable py_str : value -> string.

(** [json.loads(v)]: anything but a string is refused with [TypeError]. *)
Definition json_loads_value (v : value) : outcome value :=
  match v with
  | VStr s => json_loads s
  | _ => Raise TypeError
  end.

(** The two handlers, [except asyncio.TimeoutError] and [except Exception],
    read the child's stderr before they raise; so does the branch of the empty
    line, inside the [try]. *)
Definition _send_request (request : value) : M t value :=
  self <- get ;;
  match process self with
  | None => raise (RuntimeError not_started_message)
  | Some _ =>
      write_request request ;;
      try_except
        (response_line <- readline ;;
         if (response_line =? "")%string
         then read_stderr ;;
              raise (Exception empty_response_message)
         else
           response <- try_except (lift (json_loads response_line)) is_JSONDecodeError
                         (fun e => raise (Exception (decode_error_prefix ++ exn_str e))) ;;
           has_error <- lift (py_in "error" response) ;;
           if has_error
           then err <- lift (py_getitem response "error") ;;
                raise (Exception (server_error_prefix ++ py_str err))
           else lift (py_get response "result" VNone))
        any_exception
        (fun e =>
           read_stderr ;;
           if is_TimeoutError e
           then raise (Exception timeout_message)
           else raise e)
  end.

Definition initialize_request (id : Z) : value :=
  VDict [("jsonrpc", VStr "2.0");
         ("id", VInt id);
         ("method", VStr "initialize");
         ("params", VDict [("protocolVersion", VStr "0.5.0");
                           ("clientInfo", VDict [("name", VStr "OpenAI Agent MCP Client");
                                                 ("version", VStr "1.0.0")]);
                           ("capabilities", VDict [("tools", VDict [])])])].

Definition _initialize : M t value :=
  self <- get ;;
  if _initialized self then ret VNone
  else
    let init_request := initialize_request (_next_request_id self) in
    modify (set_next_request_id (_next_request_id self + 1)) ;;
    init_result <- _send_request init_request ;;
    modify (set_initialized true) ;;
    ret init_result.

(** [__aenter__]: [self.process] is assigned when the spawn has returned. *)
Definition aenter (spawning : spawn) : M t unit :=
  child <- lift spawning ;;
  modify (set_process (Some (attach child))) ;;
  _initialize ;;
  ret tt.

(** [__aexit__], on a child that exits when it is terminated: [wait]
    returns. *)
Definition aexit : M t unit :=
  modify (set_process None).

Definition list_tools : M t value :=
  self <- get ;;
  if cache_tools_list self && truthy (_tools_cache self)
  then ret (_tools_cache self)
  else
    let request := tools_list_request (_next_request_id self) in
    modify (set_next_request_id (_next_request_id self + 1)) ;;
    result <- _send_request request ;;
    (if cache_tools_list self then modify (set_tools_cache result) else ret tt) ;;
    ret result.

(** The [for item in content] loop of [call_tool]: [Some v] when the loop
    returns [v], [None] when it runs to its end. *)
Fixpoint scan_content (content : list value) : option value :=
  match content with
  | [] => None
  | item :: rest =>
      match item with
      | VDict d =>
          if is_str "text" (dict_get_default d "type" VNone)
          then
            let text := dict_get_default d "text" (VStr "") in
            if truthy text
            then match json_loads_value text with
                 | Ok decoded => Some decoded
                 | _ => Some text
                 end
            else scan_content rest
          else scan_content rest
      | _ => scan_content rest
      end
  end.

(** The statements of [call_tool] after the request: the text of the first
    text part with a text, decoded when it decodes, else the result itself. *)
Definition tool_payload (result : value) : value :=
  match result with
  | VDict d =>
      if dict_mem d "content"
      then match dict_get_default d "content" (VList []) with
           | VList (first :: others) =>
               match scan_content (first :: others) with
               | Some payload => payload
               | None => result
               end
           | _ => result
           end
      else result
  | _ => result
  end.

Definition call_tool (tool_name : string) (arguments : value) : M t value :=
  self <- get ;;
  let request := tools_call_request (_next_request_id self) tool_name arguments in
  modify (set_next_request_id (_next_request_id self + 1)) ;;
  result <- _send_request request ;;
  ret (tool_payload result).

Definition invalidate_tools_cache : M t unit :=
  modify (set_tools_cache VNone).

(** One call, and a sequence of calls whose exceptions the caller survives. *)
Definition perform (o : op) : M t unit :=
  match o with
  | OpInitialize => _initialize ;; ret tt
  | OpListTools => list_tools ;; ret tt
  | OpCallTool tool_name arguments => call_tool tool_name arguments ;; ret tt
  | OpInvalidate => invalidate_tools_cache
  end.

Definition session (ops : list op) (self : t) : t :=
  fold_left (fun s o => snd (perform o s)) ops self.

End WithJson.

End MCPServerStdio.

(** ** CompanyVerificationWorkflow: search -> extract -> crawl -> verify *)

Module CompanyVerificationWorkflow.

Section WithServer.

(** [json.loads], [str.lower], and the object passed to the constructor: any
    server with a [call_tool] method ([MCPServerStdio] in the program). *)
Variable json_loads : string -> outcome value.
Variable lower : string -> string.
Variable Server : Type.
Variable call_tool : string -> value -> M Server value.

(** The fields of the workflow.  [__init__] creates the first four;
    [run_complete_workflow] creates the others before any of them is read. *)
Record t : Type := {
  mcp_server : Server;
  search_results : value;
  crawl_results : value;
  verify_results : value;
  best_match : value;
  linkedin_url : value;
  linkedin_found : value;
  match_count : value
}.

Definition set_mcp_server (x : Server) (self : t) : t :=
  {| mcp_server := x; search_results := search_results self;
     crawl_results := crawl_results self; verify_results := verify_results self;
     best_match := best_match self; linkedin_url := linkedin_url self;
     linkedin_found := linkedin_found self; match_count := match_count self |}.

Definition set_search_results (x : value) (self : t) : t :=
  {| mcp_server := mcp_server self; search_results := x;
     crawl_results := crawl_results self; verify_results := verify_results self;
     best_match := best_match self; linkedin_url := linkedin_url self;
     linkedin_found := linkedin_found self; match_count := match_count self |}.

Definition set_crawl_results (x : value) (self : t) : t :=
  {| mcp_server := mcp_server self; search_results := search_results self;
     crawl_results := x; verify_results := verify_results self;
     best_match := best_match self; linkedin_url := linkedin_url self;
     linkedin_found := linkedin_found self; match_count := match_count self |}.

Definition set_verify_results (x : value) (self : t) : t :=
  {| mcp_server := mcp_server self; search_results := search_results self;
     crawl_results := crawl_results self; verify_results := x;
     best_match := best_match self; linkedin_url := linkedin_url self;
     linkedin_found := linkedin_found self; match_count := match_count self |}.

Definition set_best_match (x : value) (self : t) : t :=
  {| mcp_server := mcp_server self; search_results := search_results self;
     crawl_results := crawl_results self; verify_results := verify_results self;
     best_match := x; linkedin_url := linkedin_url self;
     linkedin_found := linkedin_found self; match_count := match_count self |}.

Definition set_linkedin_url (x : value) (self : t) : t :=
  {| mcp_server := mcp_server self; search_results := search_results self;
     crawl_results := crawl_results self; verify_results := verify_results self;
     best_match := best_match self; linkedin_url := x;
     linkedin_found := linkedin_found self; match_count := match_count self |}.

Definition set_linkedin_found (x : value) (self : t) : t :=
  {| mcp_server := mcp_server self; search_results := search_results self;
     crawl_results := crawl_results self; verify_results := verify_results self;
     best_match := best_match self; linkedin_url := linkedin_url self;
     linkedin_found := x; match_count := match_count self |}.

Definition set_match_count (x : value) (self : t) : t :=
  {| mcp_server := mcp_server self; search_results := search_results self;
     crawl_results := crawl_results self; verify_results := verify_results self;
     best_match := best_match self; linkedin_url := linkedin_url self;
     linkedin_found := linkedin_found self; match_count := x |}.

(** [__init__] *)
Definition init (mcp_server : Server) : t :=
  {| mcp_server := mcp_server;
     search_results := VList [];
     crawl_results := VList [];
     verify_results := VList [];
     best_match := VNone;
     linkedin_url := VNone;
     linkedin_found := VNone;
     match_count := VNone |}.

(** [await self.mcp_server.call_tool(tool_name, arguments)] *)
Definition mcp_server_call_tool (tool_name : string) (arguments : value) : M t value :=
  fun self =>
    let (r, server) := call_tool tool_name arguments (mcp_server self) in
    (r, set_mcp_server server self).

(** The f-string of a [logger.info] call evaluates [len(v)]. *)
Definition log_len (v : value) : M t unit :=
  _ <- lift (py_len v) ;; ret tt.

(** [parsed_result.get("success") and key in parsed_result], as a condition *)
Definition success_and_has (parsed_result : value) (key : string) : M t bool :=
  success <- lift (py_get parsed_result "success" VNone) ;;
  if truthy success then lift (py_in key parsed_result) else ret false.

Definition execute_search (company_name : string) : M t value :=
  let search_args := VDict [("company_name", VStr company_name)] in
  result <- mcp_server_call_tool "search_company" search_args ;;
  try_except
    (match result with
     | VDict d =>
         if dict_mem d "success" && dict_mem d "results"
         then
           let results := dict_get_default d "results" (VList []) in
           modify (set_search_results results) ;;
           log_len results
         else ret tt
     | VStr s =>
         try_except
           (parsed_result <- lift (json_loads s) ;;
            found <- success_and_has parsed_result "results" ;;
            if found
            then
              results <- lift (py_getitem parsed_result "results") ;;
              modify (set_search_results results) ;;
              log_len results
            else ret tt)
           is_JSONDecodeError
           (fun _ => ret tt)
     | _ => ret tt
     end)
    any_exception
    (fun _ => ret tt) ;;
  self <- get ;;
  ret (VDict [("search_results", search_results self)]).

Definition linkedin_company_marker : string := "linkedin.com/company/".

(** The body of the loop of [extract_linkedin_urls]. *)
Definition keep_company_page (linkedin_urls : list value) (result : value) : M t (list value) :=
  url <- lift (py_get result "url" (VStr "")) ;;
  lowered <- lift (py_lower lower url) ;;
  if str_contains linkedin_company_marker lowered
  then ret (linkedin_urls ++ [url])%list
  else ret linkedin_urls.

Definition extract_linkedin_urls : M t (list value) :=
  self <- get ;;
  results <- lift (py_iter (search_results self)) ;;
  for_each results [] keep_company_page.

(** The [try] block of [execute_crawl]. *)
Definition parse_crawl (result : value) : M t unit :=
  try_except
    (match result with
     | VDict d =>
         if dict_mem d "success" && dict_mem d "results"
         then
           let results := dict_get_default d "results" (VList []) in
           modify (set_crawl_results results) ;;
           log_len results
         else if dict_mem d "success" && dict_mem d "pages"
         then
           let pages := dict_get_default d "pages" (VList []) in
           modify (set_crawl_results pages) ;;
           log_len pages
         else ret tt
     | VStr s =>
         try_except
           (parsed_result <- lift (json_loads s) ;;
            found <- success_and_has parsed_result "results" ;;
            if found
            then
              results <- lift (py_getitem parsed_result "results") ;;
              modify (set_crawl_results results) ;;
              log_len results
            else
              legacy <- success_and_has parsed_result "pages" ;;
              if legacy
              then
                pages <- lift (py_getitem parsed_result "pages") ;;
                modify (set_crawl_results pages) ;;
                log_len pages
              else ret tt)
           is_JSONDecodeError
           (fun _ => ret tt)
     | _ => ret tt
     end)
    any_exception
    (fun _ => ret tt).

Definition execute_crawl (urls : list value) : M t value :=
  match urls with
  | [] => ret (VDict [("crawl_results", VList [])])
  | _ :: _ =>
      let crawl_args := VDict [("urls", VList urls)] in
      result <- mcp_server_call_tool "crawl_multiple_pages" crawl_args ;;
      parse_crawl result ;;
      self <- get ;;
      ret (VDict [("crawl_results", crawl_results self)])
  end.

(** The body of the loop of [execute_verify]: a page with a content and a
    url is kept. *)
Definition keep_page (pages : list value) (page : value) : M t (list value) :=
  content <- lift (py_get page "content" VNone) ;;
  keep <- (if truthy content
           then url <- lift (py_get page "url" VNone) ;; ret (truthy url)
           else ret false) ;;
  if keep
  then
    url <- lift (py_getitem page "url") ;;
    content <- lift (py_getitem page "content") ;;
    ret (pages ++ [VDict [("url", url); ("content", content)]])%list
  else ret pages.

Definition verify_pages (crawl : list value) : M t (list value) :=
  for_each crawl [] keep_page.

(** The [try] block of [execute_verify]. *)
Definition parse_verify (result : value) : M t unit :=
  try_except
    (match result with
     | VDict d =>
         if dict_mem d "success" && dict_mem d "results"
         then
           let results := dict_get_default d "results" (VList []) in
           modify (set_verify_results results) ;;
           log_len results ;;
           modify (set_best_match (dict_get_default d "best_match" VNone)) ;;
           modify (set_linkedin_url (dict_get_default d "linkedin_url" VNone)) ;;
           modify (set_linkedin_found (dict_get_default d "linkedin" (VBool false))) ;;
           modify (set_match_count (dict_get_default d "match_count" (VInt 0)))
         else if dict_mem d "success" && dict_mem d "verifications"
         then
           let verifications := dict_get_default d "verifications" (VList []) in
           modify (set_verify_results verifications) ;;
           log_len verifications
         else ret tt
     | VStr s =>
         try_except
           (parsed_result <- lift (json_loads s) ;;
            found <- success_and_has parsed_result "results" ;;
            if found
            then
              results <- lift (py_getitem parsed_result "results") ;;
              modify (set_verify_results results) ;;
              log_len results ;;
              best <- lift (py_get parsed_result "best_match" VNone) ;;
              modify (set_best_match best) ;;
              url <- lift (py_get parsed_result "linkedin_url" VNone) ;;
              modify (set_linkedin_url url) ;;
              linkedin <- lift (py_get parsed_result "linkedin" (VBool false)) ;;
              modify (set_linkedin_found linkedin) ;;
              count <- lift (py_get parsed_result "match_count" (VInt 0)) ;;
              modify (set_match_count count)
            else
              legacy <- success_and_has parsed_result "verifications" ;;
              if legacy
              then
                verifications <- lift (py_getitem parsed_result "verifications") ;;
                modify (set_verify_results verifications) ;;
                log_len verifications
              else ret tt)
           is_JSONDecodeError
           (fun _ => ret tt)
     | _ => ret tt
     end)
    any_exception
    (fun _ => ret tt).

Definition verify_args (company_name : string) (official_website : value) (pages : list value) : value :=
  let args := [("company_name", VStr company_name); ("pages", VList pages)] in
  VDict (if truthy official_website
         then dict_set args "official_website" official_website
         else args).

Definition execute_verify (company_name : string) (official_website : value) : M t value :=
  self <- get ;;
  if negb (truthy (crawl_results self))
  then ret (VDict [("verify_results", VList [])])
  else
    crawl <- lift (py_iter (crawl_results self)) ;;
    pages <- verify_pages crawl ;;
    match pages with
    | [] => ret (VDict [("verify_results", VList [])])
    | _ :: _ =>
        result <- mcp_server_call_tool "verify_multiple_contents"
                    (verify_args company_name official_website pages) ;;
        parse_verify result ;;
        self <- get ;;
        ret (VDict [("verify_results", verify_results self)])
    end.

(** [self.linkedin_found and self.match_count > 0] *)
Definition success_of (self : t) : outcome value :=
  if truthy (linkedin_found self)
  then py_gt0 (match_count self)
  else Ok (linkedin_found self).

(** The result dict of [run_complete_workflow], built from the stage results. *)
Definition final_result (company_name : string) (official_website : value)
  (search_result crawl_result verify_result success : value) (self : t) : list (string * value) :=
  let r := [("company_name", VStr company_name);
            ("search", search_result);
            ("crawl", crawl_result);
            ("verify", verify_result);
            ("success", success)] in
  let r := if truthy official_website
           then dict_set r "official_website" official_website
           else r in
  let r := if truthy (linkedin_found self)
           then dict_set (dict_set (dict_set r "linkedin_found" (VBool true))
                            "linkedin_url" (linkedin_url self))
                  "match_count" (match_count self)
           else r in
  if truthy (best_match self)
  then dict_set r "best_match" (best_match self)
  else r.

Definition run_complete_workflow (company_name : string) (official_website : value) : M t value :=
  modify (set_best_match VNone) ;;
  modify (set_linkedin_url VNone) ;;
  modify (set_linkedin_found (VBool false)) ;;
  modify (set_match_count (VInt 0)) ;;
  search_result <- execute_search company_name ;;
  linkedin_urls <- extract_linkedin_urls ;;
  crawl_result <- execute_crawl linkedin_urls ;;
  verify_result <- execute_verify company_name official_website ;;
  self <- get ;;
  success <- lift (success_of self) ;;
  ret (VDict (final_result company_name official_website
                search_result crawl_result verify_result success self)).

(** *** Notions used to state the properties of the workflow *)

(** The four fields that [run_complete_workflow] resets, and their reset. *)
Definition aggregates (self : t) : value * value * value * value :=
  (best_match self, linkedin_url self, linkedin_found self, match_count self).

Definition reset_aggregates (self : t) : t :=
  set_match_count (VInt 0)
    (set_linkedin_found (VBool false)
       (set_linkedin_url VNone (set_best_match VNone self))).

(** A tool response seen as a mapping: the mapping itself, or a string that
    [json.loads] decodes to it. *)
Definition response_mapping (response : value) (d : list (string * value)) : Prop :=
  response = VDict d \/ exists s, response = VStr s /\ json_loads s = Ok (VDict d).

(** A verify response of the [results] shape that carries the flag
    [linkedin] and the count [count] (absent, they are [False] and [0]). *)
Definition carries_aggregates (response linkedin count : value) : Prop :=
  exists d,
    response_mapping response d /\
    dict_mem d "results" = true /\
    linkedin = dict_get_default d "linkedin" (VBool false) /\
    count = dict_get_default d "match_count" (VInt 0).

(** A verify response of the legacy shape: [verifications] and no [results]. *)
Definition legacy_verify_response (response : value) : Prop :=
  exists d,
    response_mapping response d /\
    dict_mem d "verifications" = true /\
    dict_mem d "results" = false.

(** A search result: a mapping whose [url], when it has one, is a string. *)
Definition is_search_result (entry : value) : Prop :=
  exists d u, entry = VDict d /\ dict_get_default d "url" (VStr "") = VStr u.

(** The url of a search result. *)
Definition url_value (entry : value) : value :=
  match entry with
  | VDict d => dict_get_default d "url" (VStr "")
  | _ => VStr ""
  end.

(** The url, lower-cased, contains "linkedin.com/company/". *)
Definition is_company_page (url : value) : bool :=
  match url with
  | VStr u => str_contains "linkedin.com/company/" (lower u)
  | _ => false
  end.

(** The count is greater than zero, for the counts that compare with a
    number. *)
Definition positive_count (count : value) : Prop :=
  match count with
  | VInt n => 0 < n
  | VBool b => b = true
  | VFloat x => SFcompare x (S754_zero false) = Some Gt
  | _ => False
  end.

End WithServer.

Arguments mcp_server {Server} _.
Arguments search_results {Server} _.
Arguments crawl_results {Server} _.
Arguments verify_results {Server} _.
Arguments best_match {Server} _.
Arguments linkedin_url {Server} _.
Arguments linkedin_found {Server} _.
Arguments match_count {Server} _.
Arguments set_mcp_server {Server} _ _.
Arguments set_search_results {Server} _ _.
Arguments set_crawl_results {Server} _ _.
Arguments set_verify_results {Server} _ _.
Arguments set_best_match {Server} _ _.
Arguments set_linkedin_url {Server} _ _.
Arguments set_linkedin_found {Server} _ _.
Arguments set_match_count {Server} _ _.
Arguments init {Server} _.
Arguments mcp_server_call_tool {Server} _ _ _ _.
Arguments log_len {Server} _ _.
Arguments success_and_has {Server} _ _ _.
Arguments execute_search _ {Server} _ _ _.
Arguments keep_company_page _ {Server} _ _ _.
Arguments keep_page {Server} _ _ _.
Arguments extract_linkedin_urls _ {Server} _.
Arguments parse_crawl _ {Server} _ _.
Arguments execute_crawl _ {Server} _ _ _.
Arguments verify_pages {Server} _ _.
Arguments parse_verify _ {Server} _ _.
Arguments execute_verify _ {Server} _ _ _ _.
Arguments success_of {Server} _.
Arguments final_result {Server} _ _ _ _ _ _ _.
Arguments run_complete_workflow _ _ {Server} _ _ _ _.
Arguments aggregates {Server} _.
Arguments reset_aggregates {Server} _.

End CompanyVerificationWorkflow.

(** ** Notions used to state further properties of the workflow *)

Definition is_mapping (v : value) : Prop := exists d, v = VDict d.

(** A crawled page that [execute_verify] forwards: its content and its url
    are both true. *)
Definition usable_page (page : value) : bool :=
  match page with
  | VDict d =>
      truthy (dict_get_default d "content" VNone) && truthy (dict_get_default d "url" VNone)
  | _ => false
  end.

(** What is forwarded of it: its url and its content, nothing else. *)
Definition page_to_verify (page : value) : value :=
  match page with
  | VDict d =>
      VDict [("url", dict_get_default d "url" VNone);
             ("content", dict_get_default d "content" VNone)]
  | _ => VNone
  end.

(** The results that [execute_search] takes from a response, if any: those
    of a mapping with the keys [success] and [results], or of a string that
    decodes to a mapping with a true [success] and the key [results]. *)
Definition results_taken (json_loads : string -> outcome value) (response : value)
  : option value :=
  match response with
  | VDict d =>
      if dict_mem d "success" && dict_mem d "results" then dict_get d "results" else None
  | VStr s =>
      match json_loads s with
      | Ok (VDict d) =>
          if truthy (dict_get_default d "success" VNone) then dict_get d "results" else None
      | _ => None
      end
  | _ => None
  end.

(** ** OpenAIAgentWithMCP: the tools offered to the assistant, the tool calls
    of a run, and the life of the client

    The calls to the OpenAI service are not part of the embedding: the
    conversion of the tool list, the loop over the tool calls of a run and the
    methods that start, use and close the client are. *)

Module OpenAIAgentWithMCP.

(** Sequencing of steps that can raise and touch no field. *)
Definition and_then {A B : Type} (o : outcome A) (k : A -> outcome B) : outcome B :=
  match o with
  | Ok a => k a
  | Raise e => Raise e
  | Blocked w => match w with end
  end.

(** *** The tool list of [create_assistant_if_needed] *)

(** [f"tool_{i}"] *)
Definition tool_index_name (i : nat) : string :=
  "tool_" ++ NilZero.string_of_uint (Nat.to_uint i).

Definition empty_parameters : value :=
  VDict [("type", VStr "object"); ("properties", VDict []); ("required", VList [])].

Definition search_company_parameters : value :=
  VDict [("type", VStr "object");
         ("properties",
          VDict [("company_name",
                  VDict [("type", VStr "string");
                         ("description", VStr "要搜索的公司名称")])]);
         ("required", VList [VStr "company_name"])].

Definition crawl_multiple_pages_parameters : value :=
  VDict [("type", VStr "object");
         ("properties",
          VDict [("urls",
                  VDict [("type", VStr "array");
                         ("items", VDict [("type", VStr "string")]);
                         ("description", VStr "要爬取的URL列表")])]);
         ("required", VList [VStr "urls"])].

Definition verify_multiple_contents_parameters : value :=
  VDict [("type", VStr "object");
         ("properties",
          VDict [("company_name",
                  VDict [("type", VStr "string");
                         ("description", VStr "公司名称")]);
                 ("pages",
                  VDict [("type", VStr "array");
                         ("items",
                          VDict [("type", VStr "object");
                                 ("properties",
                                  VDict [("url", VDict [("type", VStr "string")]);
                                         ("content", VDict [("type", VStr "string")])])]);
                         ("description", VStr "要验证的页面内容列表")]);
                 ("official_website",
                  VDict [("type", VStr "string");
                         ("description", VStr "公司官方网站（可选）")])]);
         ("required", VList [VStr "company_name"; VStr "pages"])].

(** One element of the list comprehension. *)
Definition function_entry (i : nat) (tool : value) : outcome value :=
  and_then (py_get tool "name" (VStr (tool_index_name i))) (fun name =>
  and_then (py_get tool "description" (VStr "MCP工具")) (fun description =>
  Ok (VDict [("type", VStr "function");
             ("function",
              VDict [("name", name);
                     ("description", description);
                     ("parameters", empty_parameters)])]))).

(** The list comprehension over [enumerate(tools)], from the index [i]. *)
Fixpoint function_entries (i : nat) (tools : list value) : outcome (list value) :=
  match tools with
  | [] => Ok []
  | tool :: rest =>
      and_then (function_entry i tool) (fun entry =>
      and_then (function_entries (S i) rest) (fun entries =>
      Ok (entry :: entries)))
  end.

(** The parameters the second loop assigns for a tool name, if any. *)
Definition known_parameters (tool_name : value) : option value :=
  if is_str "search_company" tool_name then Some search_company_parameters
  else if is_str "crawl_multiple_pages" tool_name then Some crawl_multiple_pages_parameters
  else if is_str "verify_multiple_contents" tool_name
       then Some verify_multiple_contents_parameters
       else None.

(** [entry["function"]["parameters"] = parameters] on an element of the
    comprehension. *)
Definition with_parameters (parameters : value) (entry : value) : value :=
  match entry with
  | VDict e =>
      match dict_get e "function" with
      | Some (VDict f) => VDict (dict_set e "function" (VDict (dict_set f "parameters" parameters)))
      | _ => entry
      end
  | _ => entry
  end.

(** [l[i] = f(l[i])]; the loops run over the same list, so [i] is in range. *)
Fixpoint update_at {A : Type} (i : nat) (f : A -> A) (l : list A) : list A :=
  match l, i with
  | [], _ => []
  | x :: rest, O => f x :: rest
  | x :: rest, S j => x :: update_at j f rest
  end.

(** The second loop over [enumerate(tools)], from the index [i]. *)
Fixpoint add_parameters (i : nat) (tools : list value) (openai_tools : list value)
  : outcome (list value) :=
  match tools with
  | [] => Ok openai_tools
  | tool :: rest =>
      and_then (py_get tool "name" (VStr "")) (fun tool_name =>
      add_parameters (S i) rest
        (match known_parameters tool_name with
         | Some parameters => update_at i (with_parameters parameters) openai_tools
         | None => openai_tools
         end))
  end.

(** The value of [openai_tools] that [create_assistant_if_needed] passes to the
    service, from what [start_mcp_server] returned. *)
Definition openai_tools (tools_data : value) : outcome (list value) :=
  and_then (py_get tools_data "tools" (VList [])) (fun tools =>
  and_then (py_iter tools) (fun listed =>
  and_then (function_entries 0 listed) (fun entries =>
  and_then (py_get tools_data "tools" (VList [])) (fun tools' =>
  and_then (py_iter tools') (fun listed' =>
  add_parameters 0 listed' entries))))).

(** The entry that tool [i] of the list ends up with. *)
Definition converted (i : nat) (tool : value) : value :=
  match tool with
  | VDict d =>
      VDict [("type", VStr "function");
             ("function",
              VDict [("name", dict_get_default d "name" (VStr (tool_index_name i)));
                     ("description", dict_get_default d "description" (VStr "MCP工具"));
                     ("parameters",
                      match known_parameters (dict_get_default d "name" (VStr "")) with
                      | Some parameters => parameters
                      | None => empty_parameters
                      end)])]
  | _ => VNone
  end.

(** [f(i, x)] for the pairs of [enumerate(l)], counted from [i]. *)
Fixpoint enumerate_map {A B : Type} (f : nat -> A -> B) (i : nat) (l : list A) : list B :=
  match l with
  | [] => []
  | x :: rest => f i x :: enumerate_map f (S i) rest
  end.

(** The entry of tool [i] between the two loops. *)
Definition unparameterised (i : nat) (tool : value) : value :=
  match tool with
  | VDict d =>
      VDict [("type", VStr "function");
             ("function",
              VDict [("name", dict_get_default d "name" (VStr (tool_index_name i)));
                     ("description", dict_get_default d "description" (VStr "MCP工具"));
                     ("parameters", empty_parameters)])]
  | _ => VNone
  end.

(** *** The agent and its client *)

(** [self.mcp_server]: nothing, a client of the agent's own (between its
    creation and the creation of the workflow), or the client the workflow
    holds, which is then one object seen through two fields. *)
Inductive server_ref : Type :=
| NoServer
| Own (client : MCPServerStdio.t)
| Shared.

Record t : Type := {
  mcp_server : server_ref;
  workflow : option (CompanyVerificationWorkflow.t MCPServerStdio.t)
}.

(** The fields as [__init__] leaves them. *)
Definition init : t := {| mcp_server := NoServer; workflow := None |}.

(** A method of [self.mcp_server], run on the object that field refers to. *)
Definition on_server {A : Type} (m : M MCPServerStdio.t A) : M t A :=
  fun self =>
    match mcp_server self with
    | NoServer => (Raise AttributeError, self)
    | Own client =>
        let (r, client') := m client in
        (r, {| mcp_server := Own client'; workflow := workflow self |})
    | Shared =>
        match workflow self with
        | Some w =>
            let (r, client') := m (CompanyVerificationWorkflow.mcp_server w) in
            (r, {| mcp_server := Shared;
                   workflow := Some (CompanyVerificationWorkflow.set_mcp_server client' w) |})
        | None => (Raise AttributeError, self)
        end
    end.

(** A method of [self.workflow]. *)
Definition on_workflow {A : Type}
  (m : M (CompanyVerificationWorkflow.t MCPServerStdio.t) A) : M t A :=
  fun self =>
    match workflow self with
    | None => (Raise AttributeError, self)
    | Some w =>
        let (r, w') := m w in
        (r, {| mcp_server := mcp_server self; workflow := Some w' |})
    end.

(** The client the agent would talk to, if any. *)
Definition client_of (self : t) : option MCPServerStdio.t :=
  match mcp_server self with
  | NoServer => None
  | Own client => Some client
  | Shared => option_map CompanyVerificationWorkflow.mcp_server (workflow self)
  end.

(** The agent has a client to close: one of its own, or the one its workflow
    holds. *)
Definition has_client (self : t) : Prop :=
  match mcp_server self with
  | NoServer => False
  | Own _ => True
  | Shared => workflow self <> None
  end.

(** No client the agent holds, its own or its workflow's, can block on its
    child. *)
Definition responsive (self : t) : Prop :=
  (forall client, mcp_server self = Own client -> MCPServerStdio.responsive client) /\
  (forall w, workflow self = Some w ->
             MCPServerStdio.responsive (CompanyVerificationWorkflow.mcp_server w)).

(** One tool call of a run: [tool_call.id], [tool_call.function.name] and
    [tool_call.function.arguments]. *)
Record tool_call : Type := {
  id : string;
  function_name : string;
  function_arguments : string
}.

Definition unknown_tool_prefix : string := "未知工具: ".

(** The arguments of a call decode. *)
Definition decodable (json_loads : string -> outcome value) (call : tool_call) : Prop :=
  exists function_args, json_loads (function_arguments call) = Ok function_args.

(** The output that answers a call: its [tool_call_id] and the text. *)
Definition answer (call : tool_call) (output : string) : value :=
  VDict [("tool_call_id", VStr (id call)); ("output", VStr output)].

(** A tool name that the chain of [run_thread] forwards to the server. *)
Definition forwarded (function_name : string) : bool :=
  (function_name =? "search_company")%string
  || (function_name =? "crawl_multiple_pages")%string
  || (function_name =? "verify_multiple_contents")%string.

Section WithJson.

(** [json.loads], [str.lower], [str()] of a value,
    [json.dumps(v, ensure_ascii=False)] and [str(e)] of an exception. *)
Variable json_loads : string -> outcome value.
Variable lower : string -> string.
Variable py_str : value -> string.
Variable json_dumps : value -> string.
Variable exn_text : exn -> string.

(** What the spawn of [__aenter__] does is given.  The last step makes the
    workflow on the client created by the first one, which the field still
    holds. *)
Definition start_mcp_server (spawning : MCPServerStdio.spawn) : M t value :=
  modify (fun self => {| mcp_server := Own (MCPServerStdio.init true);
                         workflow := workflow self |}) ;;
  on_server (MCPServerStdio.aenter json_loads py_str spawning) ;;
  tools <- on_server (MCPServerStdio.list_tools json_loads py_str) ;;
  listed <- lift (py_getitem tools "tools") ;;
  _ <- lift (py_len listed) ;;
  self <- get ;;
  match mcp_server self with
  | Own client =>
      modify (fun _ => {| mcp_server := Shared;
                          workflow := Some (CompanyVerificationWorkflow.init client) |}) ;;
      ret tools
  | _ => raise AttributeError
  end.

(** The tool list that [create_assistant_if_needed] hands to the service
    when it creates an assistant (none was retrieved): the method starts the
    server and converts the listing it returns. *)
Definition tools_for_assistant (spawning : MCPServerStdio.spawn) : M t (list value) :=
  tools_data <- start_mcp_server spawning ;;
  lift (openai_tools tools_data).

Definition direct_verify_company (company_name : string) (official_website : value)
  (spawning : MCPServerStdio.spawn) : M t value :=
  self <- get ;;
  (match mcp_server self with
   | NoServer => _ <- start_mcp_server spawning ;; ret tt
   | _ => ret tt
   end) ;;
  on_workflow
    (CompanyVerificationWorkflow.run_complete_workflow json_loads lower
       (MCPServerStdio.call_tool json_loads py_str) company_name official_website).

Definition close : M t unit :=
  self <- get ;;
  match mcp_server self with
  | NoServer => ret tt
  | _ => on_server MCPServerStdio.aexit
  end.

(** The [if]/[elif] chain of [run_thread] that picks the tool. *)
Definition call_named_tool (function_name : string) (function_args : value) : M t value :=
  if (function_name =? "search_company")%string
  then on_server (MCPServerStdio.call_tool json_loads py_str "search_company" function_args)
  else if (function_name =? "crawl_multiple_pages")%string
  then on_server (MCPServerStdio.call_tool json_loads py_str "crawl_multiple_pages"
                    function_args)
  else if (function_name =? "verify_multiple_contents")%string
  then on_server (MCPServerStdio.call_tool json_loads py_str "verify_multiple_contents"
                    function_args)
  else ret (VDict [("error", VStr (unknown_tool_prefix ++ function_name))]).

(** The body of the loop of [run_thread] over the tool calls of a run. *)
Definition tool_output (tool_outputs : list value) (call : tool_call) : M t (list value) :=
  function_args <- lift (json_loads (function_arguments call)) ;;
  result_str <- try_except
                  (result <- call_named_tool (function_name call) function_args ;;
                   ret (json_dumps result))
                  any_exception
                  (fun e => ret (json_dumps (VDict [("error", VStr (exn_text e))]))) ;;
  ret (tool_outputs
         ++ [VDict [("tool_call_id", VStr (id call)); ("output", VStr result_str)]])%list.

(** The loop: the list [tool_outputs] that is submitted to the service. *)
Definition tool_outputs (tool_calls : list tool_call) : M t (list value) :=
  for_each tool_calls [] tool_output.

End WithJson.

End OpenAIAgentWithMCP.

(** ** test_mcp_agent: the workflow test

    [test_workflow] from the point where the agent has been made: the check of
    the environment for the key and the construction of the service client
    come before its [try] and are not part of the embedding.  Of the printing,
    the expressions that are evaluated on the way are kept, since they can
    raise inside the [try]. *)

Module TestMcpAgent.

(** [try: body finally: final].  A body that blocks never reaches the
    [finally]. *)
Definition try_finally {St A : Type} (body : M St A) (final : M St unit) : M St A :=
  fun s =>
    match body s with
    | (Blocked w, s') => (Blocked w, s')
    | (r, s') =>
        match final s' with
        | (Ok _, s'') => (r, s'')
        | (Raise e, s'') => (Raise e, s'')
        | (Blocked w, s'') => (Blocked w, s'')
        end
    end.

(** The summary of the result: the entries of [best_match] that are printed. *)
Definition print_summary {St : Type} (result : value) : M St unit :=
  success <- lift (py_get result "success" VNone) ;;
  if truthy success
  then
    has_best <- lift (py_in "best_match" result) ;;
    if has_best
    then
      best_match <- lift (py_getitem result "best_match") ;;
      _ <- lift (py_get best_match "url" (VStr "N/A")) ;;
      _ <- lift (py_get best_match "match_score" (VStr "N/A")) ;;
      _ <- lift (py_get best_match "result_summary" (VStr "N/A")) ;;
      ret tt
    else ret tt
  else ret tt.

(** [len(result.get(stage, {}).get(key, []))], as one line of the statistics
    prints it. *)
Definition print_count {St : Type} (result : value) (stage key : string) : M St unit :=
  stage_result <- lift (py_get result stage (VDict [])) ;;
  items <- lift (py_get stage_result key (VList [])) ;;
  _ <- lift (py_len items) ;;
  ret tt.

Section WithJson.

Variable json_loads : string -> outcome value.
Variable lower : string -> string.
Variable py_str : value -> string.

(** What the spawn of [start_mcp_server] does is [spawning]; what a spawn by
    [direct_verify_company] would do is [respawning]. *)
Definition test_workflow (company_name : string) (official_website : value)
  (spawning respawning : MCPServerStdio.spawn) : M OpenAIAgentWithMCP.t value :=
  try_finally
    (try_except
       (_ <- OpenAIAgentWithMCP.start_mcp_server json_loads py_str spawning ;;
        result <- OpenAIAgentWithMCP.direct_verify_company json_loads lower py_str
                    company_name official_website respawning ;;
        print_summary result ;;
        print_count result "search" "search_results" ;;
        print_count result "crawl" "crawl_results" ;;
        print_count result "verify" "verify_results" ;;
        lift (py_get result "success" (VBool false)))
       any_exception
       (fun _ => ret (VBool false)))
    (OpenAIAgentWithMCP.close).

End WithJson.

End TestMcpAgent.

(** ** A decoder and a printer for the closed examples

    [Json.loads] decodes the JSON documents whose numbers are integers and
    whose strings use the one-letter escapes only; on those it returns what
    [json.loads] returns.  Every other text is refused.  The text of the error
    is CPython's for a document whose first character starts no value, the
    only refused document the examples decode. *)

Module Json.

Definition dquote : ascii := "034"%char.
Definition backslash : ascii := "092"%char.

Definition is_ws (c : ascii) : bool :=
  match c with
  | " "%char | "009"%char | "010"%char | "013"%char => true
  | _ => false
  end.

Fixpoint skip_ws (s : string) : string :=
  match s with
  | String c rest => if is_ws c then skip_ws rest else s
  | EmptyString => s
  end.

Definition is_digit (c : ascii) : bool :=
  let n := nat_of_ascii c in (48 <=? n)%nat && (n <=? 57)%nat.

Definition digit_value (c : ascii) : Z := Z.of_nat (nat_of_ascii c) - 48.

Fixpoint digits (s : string) (acc : Z) : Z * string :=
  match s with
  | String c rest => if is_digit c then digits rest (10 * acc + digit_value c) else (acc, s)
  | EmptyString => (acc, s)
  end.

Definition starts_fraction (s : string) : bool :=
  match s with
  | String "."%char _ | String "e"%char _ | String "E"%char _ => true
  | _ => false
  end.

(** [0] or a digit string without a leading zero; a fraction or an exponent
    is outside the subset. *)
Definition natural (s : string) : option (Z * string) :=
  match s with
  | String c rest =>
      if is_digit c
      then
        let (n, rest') := if (c =? "0")%char then (0, rest) else digits s 0 in
        if starts_fraction rest' then None else Some (n, rest')
      else None
  | EmptyString => None
  end.

Definition number (s : string) : option (value * string) :=
  match s with
  | String "-"%char rest =>
      match natural rest with
      | Some (n, rest') => Some (VInt (- n), rest')
      | None => None
      end
  | _ =>
      match natural s with
      | Some (n, rest') => Some (VInt n, rest')
      | None => None
      end
  end.

Definition unescape (c : ascii) : option ascii :=
  match c with
  | "/"%char => Some c
  | "b"%char => Some "008"%char
  | "f"%char => Some "012"%char
  | "n"%char => Some "010"%char
  | "r"%char => Some "013"%char
  | "t"%char => Some "009"%char
  | _ => if (c =? dquote)%char || (c =? backslash)%char then Some c else None
  end.

Definition cons_char (c : ascii) (r : option (string * string)) : option (string * string) :=
  match r with
  | Some (body, rest) => Some (String c body, rest)
  | None => None
  end.

(** The characters of a string literal after its opening quote, and what
    follows its closing quote. *)
Fixpoint string_body (s : string) : option (string * string) :=
  match s with
  | EmptyString => None
  | String c rest =>
      if (c =? dquote)%char then Some (EmptyString, rest)
      else if (c =? backslash)%char
      then match rest with
           | String e rest' =>
               match unescape e with
               | Some c' => cons_char c' (string_body rest')
               | None => None
               end
           | EmptyString => None
           end
      else if (nat_of_ascii c <? 32)%nat then None
      else cons_char c (string_body rest)
  end.

Definition keyword (word : string) (v : value) (s : string) : option (value * string) :=
  if String.prefix word s
  then Some (v, substring (String.length word) (String.length s - String.length word) s)
  else None.

Fixpoint scan (fuel : nat) (s : string) : option (value * string) :=
  match fuel with
  | O => None
  | S fuel' =>
      match s with
      | EmptyString => None
      | String c rest =>
          if (c =? dquote)%char
          then match string_body rest with
               | Some (text, rest') => Some (VStr text, rest')
               | None => None
               end
          else
            match c with
            | "{"%char =>
                match skip_ws rest with
                | String "}"%char rest' => Some (VDict [], rest')
                | body => members fuel' body []
                end
            | "["%char =>
                match skip_ws rest with
                | String "]"%char rest' => Some (VList [], rest')
                | body => elements fuel' body []
                end
            | "n"%char => keyword "null" VNone s
            | "t"%char => keyword "true" (VBool true) s
            | "f"%char => keyword "false" (VBool false) s
            | _ => number s
            end
      end
  end
with elements (fuel : nat) (s : string) (acc : list value) : option (value * string) :=
  match fuel with
  | O => None
  | S fuel' =>
      match scan fuel' s with
      | Some (v, rest) =>
          match skip_ws rest with
          | String ","%char rest' => elements fuel' (skip_ws rest') (acc ++ [v])%list
          | String "]"%char rest' => Some (VList (acc ++ [v])%list, rest')
          | _ => None
          end
      | None => None
      end
  end
with members (fuel : nat) (s : string) (acc : list (string * value)) : option (value * string) :=
  match fuel with
  | O => None
  | S fuel' =>
      match s with
      | String c rest =>
          if (c =? dquote)%char
          then
            match string_body rest with
            | Some (key, rest1) =>
                match skip_ws rest1 with
                | String ":"%char rest2 =>
                    match scan fuel' (skip_ws rest2) with
                    | Some (v, rest3) =>
                        match skip_ws rest3 with
                        | String ","%char rest4 =>
                            members fuel' (skip_ws rest4) (dict_set acc key v)
                        | String "}"%char rest4 => Some (VDict (dict_set acc key v), rest4)
                        | _ => None
                        end
                    | None => None
                    end
                | _ => None
                end
            | None => None
            end
          else None
      | EmptyString => None
      end
  end.

Definition expecting_value : string := "Expecting value: line 1 column 1 (char 0)".

Definition loads (s : string) : outcome value :=
  match scan (2 * String.length s + 2) (skip_ws s) with
  | Some (v, rest) =>
      match skip_ws rest with
      | EmptyString => Ok v
      | _ => Raise (JSONDecodeError expecting_value)
      end
  | None => Raise (JSONDecodeError expecting_value)
  end.

(** The examples write a JSON text with apostrophes for its double quotes. *)
Fixpoint text (s : string) : string :=
  match s with
  | EmptyString => EmptyString
  | String c rest => String (if (c =? "'")%char then dquote else c) (text rest)
  end.

End Json.

(** [repr] of a value without floats whose strings are plain text. *)
Fixpoint py_repr (v : value) : string :=
  match v with
  | VNone => "None"
  | VBool true => "True"
  | VBool false => "False"
  | VInt n => NilZero.string_of_int (Z.to_int n)
  | VFloat _ => "float"
  | VStr s => "'" ++ s ++ "'"
  | VList items =>
      "[" ++ (fix go (l : list value) : string :=
                match l with
                | [] => ""
                | [x] => py_repr x
                | x :: rest => py_repr x ++ ", " ++ go rest
                end) items ++ "]"
  | VDict entries =>
      "{" ++ (fix go (l : list (string * value)) : string :=
                match l with
                | [] => ""
                | [(k, x)] => "'" ++ k ++ "': " ++ py_repr x
                | (k, x) :: rest => "'" ++ k ++ "': " ++ py_repr x ++ ", " ++ go rest
                end) entries ++ "}"
  end.

(** ** Closed scenarios

    A child process is the list of the lines it answers with.  The program
    creates the client with the cache on, enters it (the handshake takes the
    first line) and builds one workflow on it, which every run reuses. *)

Module Examples.

Import MCPServerStdio.

Definition client_call_tool : string -> value -> M MCPServerStdio.t value :=
  call_tool Json.loads py_repr.

Definition workflow : Type := CompanyVerificationWorkflow.t MCPServerStdio.t.

Abbreviation run :=
  (CompanyVerificationWorkflow.run_complete_workflow Json.loads lower_ascii client_call_tool).

(** A response frame with the given result. *)
Definition frame (id result : string) : read_event :=
  Line (Json.text ("{'jsonrpc':'2.0','id':" ++ id ++ ",'result':" ++ result ++ "}")).

(** A tool result in the content envelope: one text part holding [payload],
    a JSON text whose quotes are escaped (written with a backslash and an
    apostrophe). *)
Definition envelope (payload : string) : string :=
  "{'content':[{'type':'text','text':'" ++ payload ++ "'}]}".

Definition handshake : read_event := frame "1" "{'protocolVersion':'0.5.0'}".

(** The client after [__aenter__] on a child that answers with [lines] and
    whose stderr is [diagnostics]; by default a child that lives on and writes
    nothing to its stderr. *)
Definition entered_on (diagnostics : stderr_stream) (lines : list read_event)
  : MCPServerStdio.t :=
  snd (aenter Json.loads py_repr (Ok (handshake :: lines, diagnostics))
         (MCPServerStdio.init true)).

Definition entered (lines : list read_event) : MCPServerStdio.t :=
  entered_on Silent lines.

(** The workflow of the program on that client, before its first run. *)
Definition started (lines : list read_event) : workflow :=
  CompanyVerificationWorkflow.init (entered lines).

Definition acme_url : string := "https://www.linkedin.com/company/acme".

Definition search_one_page (id : string) : read_event :=
  frame id (envelope
    ("{\'success\':true,\'results\':[{\'title\':\'Acme\',\'url\':\'" ++ acme_url ++ "\'}]}")).

Definition crawl_one_page (id : string) : read_event :=
  frame id (envelope
    ("{\'success\':true,\'results\':[{\'url\':\'" ++ acme_url
       ++ "\',\'content\':\'Acme makes anvils\'}]}")).

Definition verify_match (id : string) : read_event :=
  frame id (envelope
    ("{\'success\':true,\'results\':[{\'url\':\'" ++ acme_url ++ "\',\'match_score\':9}],"
       ++ "\'linkedin\':true,\'linkedin_url\':\'" ++ acme_url ++ "\',\'match_count\':1,"
       ++ "\'best_match\':{\'url\':\'" ++ acme_url ++ "\',\'match_score\':9}}")).

Definition verify_legacy (id : string) : read_event :=
  frame id (envelope
    ("{\'success\':true,\'verifications\':[{\'url\':\'" ++ acme_url ++ "\',\'match_score\':9}]}")).

Definition search_nothing (id : string) : read_event :=
  frame id (envelope "{\'success\':true,\'results\':[]}").

(** A search result whose [url] is [null]. *)
Definition search_null_url (id : string) : read_event :=
  frame id (envelope "{\'success\':true,\'results\':[{\'title\':\'Acme\',\'url\':null}]}").

(** One full run that finds the page. *)
Definition matching_lines : list read_event :=
  [search_one_page "2"; crawl_one_page "3"; verify_match "4"].

Definition matching_run : awaited value * workflow :=
  run "Acme" VNone (started matching_lines).

Definition matching_result : value :=
  Eval vm_compute in match fst matching_run with Ok r => r | _ => VNone end.

Definition matching_after : workflow := Eval vm_compute in snd matching_run.

(** A run whose verify response has the legacy shape. *)
Definition legacy_lines : list read_event :=
  [search_one_page "2"; crawl_one_page "3"; verify_legacy "4"].

(** The full run, then a second run on the same workflow whose search finds
    nothing; the child answers the request that follows with a verify result. *)
Definition reused_lines : list read_event :=
  [search_one_page "2"; crawl_one_page "3"; verify_match "4";
   search_nothing "5"; verify_match "6"].

Definition second_run : awaited value * workflow :=
  run "Nothing Ltd" VNone (snd (run "Acme" VNone (started reused_lines))).

(** A run whose verify response carries [null] for the flag. *)
Definition verify_null_flag (id : string) : read_event :=
  frame id (envelope
    ("{\'success\':true,\'results\':[{\'url\':\'" ++ acme_url ++ "\',\'match_score\':9}],"
       ++ "\'linkedin\':null,\'match_count\':1}")).

Definition null_flag_run : awaited value * workflow :=
  run "Acme" VNone (started [search_one_page "2"; crawl_one_page "3"; verify_null_flag "4"]).

(** A run whose search result has no usable url. *)
Definition null_url_run : awaited value * workflow :=
  run "Acme" VNone (started [search_null_url "2"]).

(** The crawl response of the specification, under either field name. *)
Definition spec_pages : list value :=
  [VDict [("url", VStr "u1"); ("content", VStr "c1")]].

Definition pages_response : list (string * value) :=
  [("success", VBool true); ("pages", VList spec_pages)].

Definition results_response : list (string * value) :=
  [("success", VBool true); ("results", VList spec_pages)].

Definition pages_text : string :=
  Json.text "{'success':true,'pages':[{'url':'u1','content':'c1'}]}".

Definition results_text : string :=
  Json.text "{'success':true,'results':[{'url':'u1','content':'c1'}]}".

(** Search results: a company page in capitals, a personal profile, an entry
    without url, and a second company page. *)
Definition sample_search_results : list value :=
  [VDict [("title", VStr "Acme"); ("url", VStr "HTTPS://LinkedIn.com/Company/acme")];
   VDict [("url", VStr "linkedin.com/in/acme")];
   VDict [("title", VStr "Acme, the film")];
   VDict [("url", VStr "https://www.linkedin.com/company/acme/about")]].

(** A workflow that no run has touched, on a client not yet entered. *)
Definition fresh : workflow :=
  CompanyVerificationWorkflow.init (MCPServerStdio.init true).

(** Children for the client alone: one that answers a tool call in the content
    envelope and then with a bare result, one that lists an empty mapping and
    then its tools, one that lists its tools twice, one that writes a line that
    is no JSON, one that stays silent, and one that answers with an error. *)
Definition envelope_lines : list read_event :=
  [frame "2" (envelope "{\'success\':true}"); frame "3" "{'tools':[]}"].

Definition empty_listing_lines : list read_event :=
  [frame "2" "{}"; frame "3" "{'tools':[]}"].

Definition listing_lines : list read_event :=
  [frame "2" "{'tools':[{'name':'search_company'}]}";
   frame "3" "{'tools':[{'name':'search_company'}]}"].

(** The listing of that child, and the client after its first listing. *)
Definition listed_tools : value :=
  VDict [("tools", VList [VDict [("name", VStr "search_company")]])].

Definition listed_once : MCPServerStdio.t :=
  Eval vm_compute in snd (list_tools Json.loads py_repr (entered listing_lines)).

Definition garbage_line : string := "not json".

(** The child that has written the line that is no JSON and has closed its
    stderr, as the client that entered it holds it. *)
Definition garbage_child : subprocess :=
  {| stdin := [initialize_request 1]; stdout := [Line garbage_line]; stderr := Closed |}.

Definition error_line : string :=
  Json.text "{'jsonrpc':'2.0','id':2,'error':{'code':-32601,'message':'unknown tool'}}".

(** The [content] of a result, the value of the [success] entry of a run's
    result, and the tool names of the calls written to the child. *)
Definition result_entry (key : string) (r : awaited value) : option value :=
  match r with
  | Ok (VDict fields) => dict_get fields key
  | _ => None
  end.

Definition tool_name_of (request : value) : option value :=
  match request with
  | VDict d =>
      match dict_get d "params" with
      | Some (VDict params) => dict_get params "name"
      | _ => None
      end
  | _ => None
  end.

Definition tools_called (self : workflow) : list (option value) :=
  map tool_name_of (sent (CompanyVerificationWorkflow.mcp_server self)).

End Examples.

(** ** Further scenarios: single lines, stored results, tool calls of a run
    and a whole test *)

Module Scenarios.

Import MCPServerStdio.
Import Examples.

(** A client that waits for the answers [lines] of its child, whose stderr
    is [diagnostics]; [client_on] is the client of a child that has closed its
    stderr, [client_waiting] that of a child that keeps it open and writes
    nothing to it. *)
Definition client_with (diagnostics : stderr_stream) (lines : list read_event)
  : MCPServerStdio.t :=
  set_process (Some {| stdin := []; stdout := lines; stderr := diagnostics |})
    (MCPServerStdio.init false).

Definition client_on (lines : list read_event) : MCPServerStdio.t :=
  client_with Closed lines.

Definition client_waiting (lines : list read_event) : MCPServerStdio.t :=
  client_with Silent lines.

(** The text of a response frame, and the mapping it decodes to. *)
Definition frame_text (id result : string) : string :=
  Json.text ("{'jsonrpc':'2.0','id':" ++ id ++ ",'result':" ++ result ++ "}").

Definition decoded (line : string) : list (string * value) :=
  match Json.loads line with
  | Ok (VDict entries) => entries
  | _ => []
  end.

Definition listing_line : string := Eval vm_compute in frame_text "7" "{'tools':[]}".

Definition listing_frame : list (string * value) := Eval vm_compute in decoded listing_line.

Definition handshake_line : string :=
  Eval vm_compute in frame_text "1" "{'protocolVersion':'0.5.0'}".

Definition handshake_frame : list (string * value) :=
  Eval vm_compute in decoded handshake_line.

(** A line that decodes to a list. *)
Definition list_line : string := "[1]".

(** The handshake that fails on the line that is no JSON, and the spawn that
    fails because the command is not found. *)
Definition garbage_spawn : spawn := Ok ([Line garbage_line], Closed).

Definition failed_enter : awaited unit * MCPServerStdio.t :=
  Eval vm_compute in aenter Json.loads py_repr garbage_spawn (MCPServerStdio.init true).

Definition failed_enter_error : exn :=
  Eval vm_compute in match fst failed_enter with Raise e => e | _ => TimeoutError end.

Definition failed_spawn : spawn := Raise FileNotFoundError.

(** An answer to a tool call that comes after the time limit of the call. *)
Definition late_line : string :=
  Eval vm_compute in frame_text "2" (envelope "{\'success\':true}").

Definition late_frame : list (string * value) := Eval vm_compute in decoded late_line.

(** Crawl results: a page, a page without content, a page without url and a
    page with more fields than are forwarded. *)
Definition sample_crawl : list value :=
  [VDict [("url", VStr "u1"); ("content", VStr "c1")];
   VDict [("url", VStr "u2"); ("content", VStr "")];
   VDict [("content", VStr "c3")];
   VDict [("title", VStr "t4"); ("url", VStr "u4"); ("content", VStr "c4")]].

(** Search results with an entry whose url is [null] in the middle. *)
Definition good_results : list value :=
  [VDict [("url", VStr "https://www.linkedin.com/company/acme")]].

Definition bad_result : value := VDict [("title", VStr "Acme"); ("url", VNone)].

Definition more_results : list value :=
  [VDict [("url", VStr "https://www.linkedin.com/company/acme/about")]].

Definition searched : Examples.workflow :=
  CompanyVerificationWorkflow.set_search_results
    (VList (good_results ++ bad_result :: more_results)) fresh.

(** A response that reports a failure and still has results. *)
Definition failure_text : string :=
  Eval vm_compute in Json.text "{'success':false,'results':[{'url':'u1','content':'c1'}]}".

Definition failure_response : list (string * value) :=
  Eval vm_compute in decoded failure_text.

(** A crawl response and a verify response with the results under both
    field names. *)
Definition legacy_pages : list value :=
  [VDict [("url", VStr "u0"); ("content", VStr "c0")]].

Definition crawl_both_text : string :=
  Eval vm_compute in
    Json.text ("{'success':true,'results':[{'url':'u1','content':'c1'}],"
                 ++ "'pages':[{'url':'u0','content':'c0'}]}").

Definition crawl_both_response : list (string * value) :=
  Eval vm_compute in decoded crawl_both_text.

Definition verify_both_text : string :=
  Eval vm_compute in
    Json.text ("{'success':true,'results':[{'url':'u1','content':'c1'}],"
                 ++ "'verifications':[{'url':'u0','content':'c0'}]}").

Definition verify_both_response : list (string * value) :=
  Eval vm_compute in decoded verify_both_text.

(** A verify response whose results are [null]. *)
Definition null_results_response : list (string * value) :=
  [("success", VBool true); ("results", VNone); ("linkedin", VBool true);
   ("match_count", VInt 3)].

(** The workflow after a full run, on a child that answers the next search
    with a bare number. *)
Definition searched_before : Examples.workflow :=
  Eval vm_compute in
    snd (run "Acme" VNone (started (matching_lines ++ [frame "5" "7"]))).

Definition search_args (company_name : string) : value :=
  VDict [("company_name", VStr company_name)].

Definition number_response : value :=
  Eval vm_compute in
    match fst (client_call_tool "search_company" (search_args "Other")
                 (CompanyVerificationWorkflow.mcp_server searched_before)) with
    | Ok response => response
    | _ => VNone
    end.

Definition number_answered : MCPServerStdio.t :=
  Eval vm_compute in
    snd (client_call_tool "search_company" (search_args "Other")
           (CompanyVerificationWorkflow.mcp_server searched_before)).

(** A listing with one of the tools of the workflow, a tool of another name
    and a tool without a name. *)
Definition sample_listing : list (string * value) :=
  [("tools",
    VList [VDict [("name", VStr "search_company"); ("description", VStr "Search")];
           VDict [("name", VStr "ping")];
           VDict [("description", VStr "Nameless")]])].

Definition sample_tools : list value :=
  Eval vm_compute in
    match dict_get sample_listing "tools" with
    | Some (VList tools) => tools
    | _ => []
    end.

(** Tool calls of a run: a search, a tool the agent does not know, and a call
    whose arguments are no JSON. *)
Definition acme_arguments : string :=
  Eval vm_compute in Json.text "{'company_name':'Acme'}".

Definition search_call : OpenAIAgentWithMCP.tool_call :=
  OpenAIAgentWithMCP.Build_tool_call "call_1" "search_company" acme_arguments.

Definition unknown_call : OpenAIAgentWithMCP.tool_call :=
  OpenAIAgentWithMCP.Build_tool_call "call_2" "send_mail" "{}".

Definition broken_call : OpenAIAgentWithMCP.tool_call :=
  OpenAIAgentWithMCP.Build_tool_call "call_3" "search_company" garbage_line.

(** The child of an agent: the handshake, the listing, and what follows.  It
    has closed its stderr; [waiting_child] keeps it open and writes nothing to
    it. *)
Definition agent_lines (lines : list read_event) : list read_event :=
  handshake :: frame "2" "{'tools':[{'name':'search_company'}]}" :: lines.

Definition agent_child (lines : list read_event) : spawn := Ok (agent_lines lines, Closed).

Definition waiting_child (lines : list read_event) : spawn := Ok (agent_lines lines, Silent).

Definition agent_start (child : spawn) : awaited value * OpenAIAgentWithMCP.t :=
  OpenAIAgentWithMCP.start_mcp_server Json.loads py_repr child OpenAIAgentWithMCP.init.

Definition agent_started (lines : list read_event) : OpenAIAgentWithMCP.t :=
  snd (agent_start (agent_child lines)).

Definition started_idle : OpenAIAgentWithMCP.t := Eval vm_compute in agent_started [].

Definition started_waiting : OpenAIAgentWithMCP.t :=
  Eval vm_compute in snd (agent_start (waiting_child [])).

Definition started_tools : value :=
  Eval vm_compute in
    match fst (agent_start (agent_child [])) with Ok tools => tools | _ => VNone end.

(** Children whose listing has no [tools] entry, is a list, and has a tool
    that is a string. *)
Definition keyless_child : spawn := Ok ([handshake; frame "2" "{'other':1}"], Closed).

Definition list_child : spawn := Ok ([handshake; frame "2" "[1]"], Closed).

Definition string_tool_child : spawn :=
  Ok ([handshake; frame "2" "{'tools':[{'name':'search_company'},'ping']}"], Closed).

Definition entered_of (child : spawn) : MCPServerStdio.t :=
  snd (aenter Json.loads py_repr child (MCPServerStdio.init true)).

Definition listed_of (child : spawn) : awaited value * MCPServerStdio.t :=
  MCPServerStdio.list_tools Json.loads py_repr (entered_of child).

(** A verify response whose best match is a url. *)
Definition verify_url_best (id : string) : read_event :=
  frame id (envelope
    ("{\'success\':true,\'results\':[{\'url\':\'" ++ acme_url ++ "\',\'match_score\':9}],"
       ++ "\'linkedin\':true,\'linkedin_url\':\'" ++ acme_url ++ "\',\'match_count\':1,"
       ++ "\'best_match\':\'" ++ acme_url ++ "\'}")).

Definition url_best_lines : list read_event :=
  [search_one_page "3"; crawl_one_page "4"; verify_url_best "5"].

(** The answers of a run that finds a matching company page, for an agent. *)
Definition matching_test_lines : list read_event :=
  [search_one_page "3"; crawl_one_page "4"; verify_match "5"].

Definition url_best_started : OpenAIAgentWithMCP.t :=
  Eval vm_compute in agent_started url_best_lines.

Definition url_best_run : awaited value * OpenAIAgentWithMCP.t :=
  Eval vm_compute in
    OpenAIAgentWithMCP.direct_verify_company Json.loads lower_ascii py_repr "Acme" VNone
      failed_spawn url_best_started.

Definition url_best_result : list (string * value) :=
  Eval vm_compute in
    match fst url_best_run with
    | Ok (VDict r) => r
    | _ => []
    end.

End Scenarios.

(** * Properties *)

(** ** MCPServerStdio *)

Section ClientFacts.

Variable json_loads : string -> outcome value.
Variable py_str : value -> string.

Import MCPServerStdio.

Local Abbreviation send := (_send_request json_loads py_str).

Ltac run_send :=
  unfold _send_request, write_request, readline, read_stderr;
  unfold bind, get, modify, try_except, raise, ret, lift, block, set_process; simpl.

(** Every case of what a call reads and decodes. *)
Ltac send_cases :=
  repeat match goal with
         | |- context [match ?x with _ => _ end] =>
             lazymatch x with
             | context [match _ with _ => _ end] => fail
             | _ => destruct x; simpl
             end
         | w : Empty_set |- _ => destruct w
         end.

(** A request on a running child is written once and one read of its stdout
    is made, whatever comes back; its stderr is read or not.  Nothing else of
    the client changes. *)
Lemma send_request_frame (request : value) (self : t) (p : subprocess) :
  process self = Some p ->
  exists out diagnostics,
    send request self =
      (out, set_process (Some {| stdin := (stdin p ++ [request])%list;
                                 stdout := tl (stdout p);
                                 stderr := diagnostics |}) self).
Proof.
  intro Hp. destruct self as [proc c cache n i]; simpl in Hp; subst proc.
  destruct p as [written lines diagnostics].
  run_send. send_cases; eexists; eexists; reflexivity.
Qed.

Lemma send_request_not_started (request : value) (self : t) :
  process self = None ->
  send request self = (Raise (RuntimeError not_started_message), self).
Proof.
  intro Hp. destruct self as [proc c cache n i]; simpl in Hp; subst proc.
  reflexivity.
Qed.

(** *** Request ids *)

Lemma length_ids_upto (n : nat) : List.length (ids_upto n) = n.
Proof. unfold ids_upto. rewrite length_map, length_seq. reflexivity. Qed.

Lemma ids_upto_succ (n : nat) :
  ids_upto (S n) = (ids_upto n ++ [Z.of_nat n + 1])%list.
Proof.
  unfold ids_upto. rewrite seq_S, map_app. simpl. f_equal. f_equal. lia.
Qed.

Lemma ids_invariant_sent (self : t) (p : subprocess) (request : value) (rest : list read_event)
  (diagnostics : stderr_stream) :
  ids_invariant self ->
  process self = Some p ->
  request_id request = Some (_next_request_id self) ->
  ids_invariant
    (set_process (Some {| stdin := (stdin p ++ [request])%list; stdout := rest;
                          stderr := diagnostics |})
       (set_next_request_id (_next_request_id self + 1) self)).
Proof.
  intros (p' & Hp' & Hids & Hnext) Hp Hreq.
  rewrite Hp in Hp'. injection Hp' as <-.
  exists {| stdin := (stdin p ++ [request])%list; stdout := rest; stderr := diagnostics |}.
  simpl. split; [reflexivity|]. split.
  - rewrite length_app, Nat.add_1_r, ids_upto_succ, !map_app, Hids. simpl.
    rewrite Hreq, Hnext. reflexivity.
  - rewrite length_app. simpl. lia.
Qed.

Lemma ids_invariant_initialize (self : t) :
  ids_invariant self -> ids_invariant (snd (_initialize json_loads py_str self)).
Proof.
  intros Hinv. pose proof Hinv as (p & Hp & _).
  cbv beta iota zeta delta [_initialize bind get modify ret].
  destruct (_initialized self) eqn:Hi; [exact Hinv|].
  destruct (send_request_frame (initialize_request (_next_request_id self))
              (set_next_request_id (_next_request_id self + 1) self) p Hp)
    as (out & diagnostics & Hsend).
  rewrite Hsend.
  pose proof (ids_invariant_sent self p (initialize_request (_next_request_id self))
                (tl (stdout p)) diagnostics Hinv Hp eq_refl) as Hnew.
  destruct out; simpl; exact Hnew.
Qed.

Lemma ids_invariant_list_tools (self : t) :
  ids_invariant self -> ids_invariant (snd (list_tools json_loads py_str self)).
Proof.
  intros Hinv. pose proof Hinv as (p & Hp & _).
  cbv beta iota zeta delta [list_tools bind get modify ret].
  destruct (cache_tools_list self && truthy (_tools_cache self)) eqn:Hc; [exact Hinv|].
  match goal with
  | |- context [_send_request _ _ ?req ?s] =>
      destruct (send_request_frame req s p Hp) as (out & diagnostics & Hsend);
      pose proof (ids_invariant_sent self p req (tl (stdout p)) diagnostics Hinv Hp eq_refl)
        as Hnew
  end.
  rewrite Hsend.
  destruct out; simpl; try exact Hnew.
  destruct (cache_tools_list self); simpl; exact Hnew.
Qed.

Lemma ids_invariant_call_tool (tool_name : string) (arguments : value) (self : t) :
  ids_invariant self ->
  ids_invariant (snd (call_tool json_loads py_str tool_name arguments self)).
Proof.
  intros Hinv. pose proof Hinv as (p & Hp & _).
  cbv beta iota zeta delta [call_tool bind get modify ret].
  match goal with
  | |- context [_send_request _ _ ?req ?s] =>
      destruct (send_request_frame req s p Hp) as (out & diagnostics & Hsend);
      pose proof (ids_invariant_sent self p req (tl (stdout p)) diagnostics Hinv Hp eq_refl)
        as Hnew
  end.
  rewrite Hsend.
  destruct out; exact Hnew.
Qed.

Lemma ids_invariant_perform (o : op) (self : t) :
  ids_invariant self -> ids_invariant (snd (perform json_loads py_str o self)).
Proof.
  intro Hinv. destruct o; unfold perform, bind.
  - pose proof (ids_invariant_initialize self Hinv) as H.
    destruct (_initialize json_loads py_str self) as [[?|?|?] ?]; exact H.
  - pose proof (ids_invariant_list_tools self Hinv) as H.
    destruct (list_tools json_loads py_str self) as [[?|?|?] ?]; exact H.
  - pose proof (ids_invariant_call_tool tool_name arguments self Hinv) as H.
    destruct (call_tool json_loads py_str tool_name arguments self) as [[?|?|?] ?]; exact H.
  - destruct Hinv as (p & Hp & Hids & Hnext). exists p. auto.
Qed.

Lemma ids_invariant_session (ops : list op) (self : t) :
  ids_invariant self -> ids_invariant (session json_loads py_str ops self).
Proof.
  revert self. induction ops as [|o ops IH]; intros self Hinv; simpl.
  - exact Hinv.
  - apply IH, ids_invariant_perform, Hinv.
Qed.

Lemma ids_upto_sorted (n : nat) : StronglySorted Z.lt (ids_upto n).
Proof.
  unfold ids_upto. generalize 1%nat as a.
  induction n as [|n IH]; intro a; simpl; constructor.
  - apply IH.
  - apply Forall_forall. intros y Hy.
    apply in_map_iff in Hy as (k & <- & Hk). apply in_seq in Hk. lia.
Qed.

Lemma ids_upto_nodup (n : nat) : NoDup (ids_upto n).
Proof.
  pose proof (ids_upto_sorted n) as H.
  induction H as [|x l _ IH Hall]; constructor; [|exact IH].
  intro Hin. rewrite Forall_forall in Hall. specialize (Hall x Hin). lia.
Qed.

(** C9. Whatever calls are made on a client, in whatever order and whatever
    the child answers, the ids of the requests written to the child are
    1, 2, 3, ... in the order written: they depend on no argument of a call,
    they increase strictly, and none occurs twice. *)
Theorem request_ids_strictly_increasing (cache : bool)
  (child : list read_event * stderr_stream) (ops : list op) :
  exists ids : list Z,
    map request_id (sent (session json_loads py_str ops (spawned cache child)))
      = map Some ids /\
    ids = ids_upto (List.length ids) /\
    StronglySorted Z.lt ids /\
    NoDup ids.
Proof.
  assert (Hstart : ids_invariant (spawned cache child)).
  { exists (attach child). repeat split. }
  destruct (ids_invariant_session ops _ Hstart) as (p & Hp & Hids & _).
  exists (ids_upto (List.length (stdin p))).
  unfold sent. rewrite Hp. split; [exact Hids|]. split.
  - rewrite length_ids_upto. reflexivity.
  - split; [apply ids_upto_sorted | apply ids_upto_nodup].
Qed.

(** *** The tool-list cache *)

Lemma list_tools_miss (self : t) (p : subprocess) :
  process self = Some p ->
  cache_tools_list self && truthy (_tools_cache self) = false ->
  exists out self',
    list_tools json_loads py_str self = (out, self') /\
    sent self' = (stdin p ++ [tools_list_request (_next_request_id self)])%list /\
    cache_tools_list self' = cache_tools_list self /\
    (forall tools, out = Ok tools ->
       _tools_cache self' = if cache_tools_list self then tools else _tools_cache self).
Proof.
  intros Hp Hmiss.
  cbv beta iota zeta delta [list_tools bind get modify ret].
  rewrite Hmiss.
  destruct (send_request_frame (tools_list_request (_next_request_id self))
              (set_next_request_id (_next_request_id self + 1) self) p Hp)
    as (out & diagnostics & Hsend).
  rewrite Hsend.
  destruct out as [result|e|w].
  - destruct (cache_tools_list self) eqn:Hc;
      eexists; eexists; (split; [reflexivity|]); unfold sent; simpl;
      rewrite ?Hc; repeat split; intros tools [= <-]; reflexivity.
  - eexists; eexists; (split; [reflexivity|]); unfold sent; simpl.
    repeat split. intros tools [=].
  - eexists; eexists; (split; [reflexivity|]); unfold sent; simpl.
    repeat split. intros tools [=].
Qed.

Lemma list_tools_hit (self : t) :
  cache_tools_list self = true ->
  truthy (_tools_cache self) = true ->
  list_tools json_loads py_str self = (Ok (_tools_cache self), self).
Proof.
  intros Hc Ht. cbv beta iota zeta delta [list_tools bind get modify ret].
  rewrite Hc, Ht. reflexivity.
Qed.

(** C8, as amended.  With caching enabled and nothing cached, if the first
    [list_tools] call returns a listing that is not empty (a truthy value),
    then that call wrote exactly one request, a second call returns the same
    listing and leaves the client and the child untouched, and after
    [invalidate_tools_cache] a third call writes exactly one more request. *)
Theorem list_tools_cache_round_trips (self self1 : t) (tools : value) :
  cache_tools_list self = true ->
  truthy (_tools_cache self) = false ->
  list_tools json_loads py_str self = (Ok tools, self1) ->
  truthy tools = true ->
  round_trips self self1 = 1 /\
  list_tools json_loads py_str self1 = (Ok tools, self1) /\
  (forall out self3,
     list_tools json_loads py_str (snd (invalidate_tools_cache self1)) = (out, self3) ->
     round_trips self1 self3 = 1).
Proof.
  intros Hc Hempty Hfirst Htools.
  destruct (process self) as [p|] eqn:Hp.
  2:{ exfalso. revert Hfirst.
      cbv beta iota zeta delta [list_tools bind get modify ret].
      rewrite Hc, Hempty. simpl.
      rewrite send_request_not_started by exact Hp. discriminate. }
  assert (Hmiss : cache_tools_list self && truthy (_tools_cache self) = false)
    by (rewrite Hc, Hempty; reflexivity).
  destruct (list_tools_miss self p Hp Hmiss) as (out & s1 & Hcall & Hsent & Hflag & Hcache).
  rewrite Hfirst in Hcall. injection Hcall as <- <-.
  specialize (Hcache tools eq_refl). rewrite Hc in Hcache, Hflag.
  assert (Hp1 : exists p1, process self1 = Some p1 /\ stdin p1 = sent self1).
  { unfold sent in *. destruct (process self1) as [p1|].
    - exists p1. split; reflexivity.
    - destruct (stdin p); discriminate Hsent. }
  destruct Hp1 as (p1 & Hp1 & Hstdin1).
  split; [|split].
  - unfold round_trips. rewrite Hsent. unfold sent at 1. rewrite Hp.
    rewrite length_app. simpl. lia.
  - rewrite <- Hcache at 1. apply list_tools_hit; [exact Hflag|].
    rewrite Hcache. exact Htools.
  - intros out self3 Hthird.
    destruct (list_tools_miss (snd (invalidate_tools_cache self1)) p1)
      as (out' & s3 & Hcall & Hsent3 & _).
    + exact Hp1.
    + simpl. apply andb_false_r.
    + rewrite Hthird in Hcall. injection Hcall as <- <-.
      unfold round_trips. rewrite Hsent3, Hstdin1, length_app. simpl. lia.
Qed.

(** *** Failures of a request *)

(** What the handlers of [_send_request] do with a failure depends on the
    child's stderr, which they read before they raise. *)
Lemma send_request_timeout (request : value) (self : t) (p : subprocess) :
  process self = Some p ->
  (stdout p = [] \/ exists rest, stdout p = ReadTimeout :: rest) ->
  readable (stderr p) = true ->
  send request self =
    (Raise (Exception timeout_message),
     set_process (Some {| stdin := (stdin p ++ [request])%list;
                          stdout := tl (stdout p);
                          stderr := after_read (stderr p) |}) self).
Proof.
  intros Hp Hout Hread. destruct self as [proc c cache n i]; simpl in Hp; subst proc.
  destruct p as [written lines diagnostics]. simpl in *.
  run_send.
  destruct Hout as [-> | [rest ->]]; simpl;
    destruct diagnostics as [| |[|] more]; try discriminate Hread; reflexivity.
Qed.

Lemma send_request_error_frame (request : value) (self : t) (p : subprocess)
  (line : string) (rest : list read_event) (frame : list (string * value)) (err : value) :
  process self = Some p ->
  stdout p = Line line :: rest ->
  line <> "" ->
  json_loads line = Ok (VDict frame) ->
  dict_get frame "error" = Some err ->
  readable (stderr p) = true ->
  send request self =
    (Raise (Exception (server_error_prefix ++ py_str err)),
     set_process (Some {| stdin := (stdin p ++ [request])%list;
                          stdout := rest;
                          stderr := after_read (stderr p) |}) self).
Proof.
  intros Hp Hout Hline Hdec Herr Hread.
  destruct self as [proc c cache n i]; simpl in Hp; subst proc.
  destruct p as [written lines diagnostics]. simpl in *. subst lines.
  run_send.
  apply String.eqb_neq in Hline. rewrite Hline; simpl.
  rewrite Hdec; simpl. unfold dict_mem. rewrite Herr; simpl.
  destruct diagnostics as [| |[|] more]; try discriminate Hread; reflexivity.
Qed.

Lemma send_request_decode_error (request : value) (self : t) (p : subprocess)
  (line msg : string) (rest : list read_event) :
  process self = Some p ->
  stdout p = Line line :: rest ->
  line <> "" ->
  json_loads line = Raise (JSONDecodeError msg) ->
  send request self =
    match stderr p with
    | Closed =>
        (Raise (Exception (decode_error_prefix ++ msg)),
         set_process (Some {| stdin := (stdin p ++ [request])%list; stdout := rest;
                              stderr := Closed |}) self)
    | Silent =>
        (Blocked tt,
         set_process (Some {| stdin := (stdin p ++ [request])%list; stdout := rest;
                              stderr := Silent |}) self)
    | Diagnostic decodes more =>
        (if decodes then Raise (Exception (decode_error_prefix ++ msg))
         else Raise UnicodeDecodeError,
         set_process (Some {| stdin := (stdin p ++ [request])%list; stdout := rest;
                              stderr := more |}) self)
    end.
Proof.
  intros Hp Hout Hline Hdec.
  destruct self as [proc c cache n i]; simpl in Hp; subst proc.
  destruct p as [written lines diagnostics]. simpl in *. subst lines.
  run_send.
  apply String.eqb_neq in Hline. rewrite Hline; simpl.
  rewrite Hdec; simpl.
  destruct diagnostics as [| |[|] more]; reflexivity.
Qed.

(** C7, as amended.  Take a response line that [json.loads] refuses.  When the
    read of the child's stderr returns (the stream is at its end, or yields
    bytes that decode), [_send_request] raises a plain [Exception] whose text
    is a fixed prefix followed by the decoder's description of the error: the
    line itself is only logged.  When the child's stderr is open and silent,
    the call never completes; when it yields bytes that do not decode, the
    call raises [UnicodeDecodeError] instead.  Under the same condition on the
    stderr, a child that stays silent on its stdout and an error frame raise
    an [Exception] as well: the three differ by their texts only, and no two
    of the three texts are equal. *)
Theorem invalid_json_line_raises_exception (request : value) (self : t) (p : subprocess)
  (line msg : string) (rest : list read_event) :
  process self = Some p ->
  stdout p = Line line :: rest ->
  line <> "" ->
  json_loads line = Raise (JSONDecodeError msg) ->
  (readable (stderr p) = true ->
   send request self =
     (Raise (Exception (decode_error_prefix ++ msg)),
      set_process (Some {| stdin := (stdin p ++ [request])%list; stdout := rest;
                           stderr := after_read (stderr p) |}) self)) /\
  (stderr p = Silent -> fst (send request self) = Blocked tt) /\
  (forall more, stderr p = Diagnostic false more ->
                fst (send request self) = Raise UnicodeDecodeError) /\
  (forall self' p',
     process self' = Some p' ->
     (stdout p' = [] \/ exists rest', stdout p' = ReadTimeout :: rest') ->
     readable (stderr p') = true ->
     fst (send request self') = Raise (Exception timeout_message)) /\
  (forall self' p' line' rest' frame err,
     process self' = Some p' ->
     stdout p' = Line line' :: rest' ->
     line' <> "" ->
     json_loads line' = Ok (VDict frame) ->
     dict_get frame "error" = Some err ->
     readable (stderr p') = true ->
     fst (send request self') = Raise (Exception (server_error_prefix ++ py_str err))) /\
  decode_error_prefix ++ msg <> timeout_message /\
  (forall err, decode_error_prefix ++ msg <> server_error_prefix ++ py_str err) /\
  (forall err, timeout_message <> server_error_prefix ++ py_str err).
Proof.
  intros Hp Hout Hline Hdec.
  pose proof (send_request_decode_error request self p line msg rest Hp Hout Hline Hdec)
    as Hsend.
  split; [|split; [|split; [|split; [|split; [|split; [|split]]]]]].
  - intro Hread. rewrite Hsend.
    destruct (stderr p) as [| |[|] more]; try discriminate Hread; reflexivity.
  - intro Hsilent. rewrite Hsend, Hsilent. reflexivity.
  - intros more Hbad. rewrite Hsend, Hbad. reflexivity.
  - intros self' p' Hp' Hout' Hread.
    rewrite (send_request_timeout request self' p' Hp' Hout' Hread). reflexivity.
  - intros self' p' line' rest' frame err Hp' Hout' Hline' Hdec' Herr Hread.
    rewrite (send_request_error_frame request self' p' line' rest' frame err
               Hp' Hout' Hline' Hdec' Herr Hread).
    reflexivity.
  - unfold decode_error_prefix, timeout_message. simpl. discriminate.
  - intro err. unfold decode_error_prefix, server_error_prefix. simpl. discriminate.
  - intro err. unfold timeout_message, server_error_prefix. simpl. discriminate.
Qed.

(** *** The payload of a tool call *)

Lemma is_text_entry (entry : list (string * value)) :
  is_str "text" (dict_get_default entry "type" VNone) = true <->
  dict_get entry "type" = Some (VStr "text").
Proof.
  unfold dict_get_default. destruct (dict_get entry "type") as [v|]; simpl.
  - split.
    + destruct v; simpl; try discriminate. intro H.
      apply String.eqb_eq in H. subst. reflexivity.
    + intros [= ->]. reflexivity.
  - split; discriminate.
Qed.

Lemma scan_content_skips (item : value) (rest : list value) :
  (forall text, ~ text_part item text) ->
  scan_content json_loads (item :: rest) = scan_content json_loads rest.
Proof.
  intro Hno. simpl. destruct item as [| | | | |items|entry]; try reflexivity.
  destruct (is_str "text" (dict_get_default entry "type" VNone)) eqn:Htype; [|reflexivity].
  destruct (truthy (dict_get_default entry "text" (VStr ""))) eqn:Htext; [|reflexivity].
  exfalso. apply (Hno (dict_get_default entry "text" (VStr ""))).
  exists entry. apply is_text_entry in Htype. auto.
Qed.

Lemma scan_content_first (before after : list value) (item text : value) :
  (forall x t, In x before -> ~ text_part x t) ->
  text_part item text ->
  scan_content json_loads (before ++ item :: after) =
    Some (match json_loads_value json_loads text with
          | Ok decoded => decoded
          | _ => text
          end).
Proof.
  intros Hbefore (entry & -> & Htype & Htext & Htruthy).
  induction before as [|x before IH].
  - simpl. apply is_text_entry in Htype. rewrite Htype, Htext, Htruthy.
    destruct (json_loads_value json_loads text); reflexivity.
  - rewrite <- app_comm_cons, scan_content_skips.
    + apply IH. intros y t Hy. apply Hbefore. right. exact Hy.
    + intros t. apply Hbefore. left. reflexivity.
Qed.

Lemma scan_content_none (content : list value) :
  (forall x t, In x content -> ~ text_part x t) ->
  scan_content json_loads content = None.
Proof.
  induction content as [|x content IH]; intro Hno; [reflexivity|].
  rewrite scan_content_skips.
  - apply IH. intros y t Hy. apply Hno. right. exact Hy.
  - intro t. apply Hno. left. reflexivity.
Qed.

Lemma call_tool_payload (tool_name : string) (arguments : value) (self self' : t) (result : value) :
  send (tools_call_request (_next_request_id self) tool_name arguments)
    (set_next_request_id (_next_request_id self + 1) self) = (Ok result, self') ->
  call_tool json_loads py_str tool_name arguments self
    = (Ok (tool_payload json_loads result), self').
Proof.
  intro Hsend. cbv beta iota zeta delta [call_tool bind get modify ret].
  rewrite Hsend. reflexivity.
Qed.

(** C6.  Let [call_tool]'s request be answered by [result].  If [result] is a
    mapping whose [content] is a list and [item] is its first entry of type
    "text" with a text that is not empty, [call_tool] returns that text decoded
    by [json.loads] when it decodes, and the text itself when it does not.  If
    [result] has no such entry, or is not such a mapping, [call_tool] returns
    [result] itself. *)
Theorem call_tool_normalizes_result (tool_name : string) (arguments : value)
  (self self' : t) (result : value) :
  send (tools_call_request (_next_request_id self) tool_name arguments)
    (set_next_request_id (_next_request_id self + 1) self) = (Ok result, self') ->
  (forall d before item after text,
     result = VDict d ->
     dict_get d "content" = Some (VList (before ++ item :: after)) ->
     (forall x t, In x before -> ~ text_part x t) ->
     text_part item text ->
     exists payload,
       call_tool json_loads py_str tool_name arguments self = (Ok payload, self') /\
       (forall decoded, json_loads_value json_loads text = Ok decoded -> payload = decoded) /\
       (forall e, json_loads_value json_loads text = Raise e -> payload = text)) /\
  ((forall d content item text,
      result = VDict d ->
      dict_get d "content" = Some (VList content) ->
      In item content ->
      ~ text_part item text) ->
   call_tool json_loads py_str tool_name arguments self = (Ok result, self')).
Proof.
  intro Hsend. rewrite (call_tool_payload _ _ _ _ _ Hsend). split.
  - intros d before item after text -> Hcontent Hbefore Hitem.
    eexists. split; [reflexivity|].
    unfold tool_payload, dict_mem, dict_get_default. rewrite Hcontent.
    destruct (before ++ item :: after)%list as [|first others] eqn:Hlist.
    { destruct before; discriminate Hlist. }
    rewrite <- Hlist, (scan_content_first before after item text Hbefore Hitem).
    destruct (json_loads_value json_loads text) as [decoded|e|[]].
    + split; [intros ? [= <-]; reflexivity | intros ? [=]].
    + split; [intros ? [=] | reflexivity].
  - intro Hnone. f_equal. f_equal.
    destruct result as [| | | | | |d]; try reflexivity.
    unfold tool_payload, dict_mem, dict_get_default.
    destruct (dict_get d "content") as [content|] eqn:Hcontent; [|reflexivity].
    destruct content as [| | | | |items|]; try reflexivity.
    destruct items as [|first others]; [reflexivity|].
    rewrite scan_content_none; [reflexivity|].
    intros x t Hx. exact (Hnone d (first :: others) x t eq_refl Hcontent Hx).
Qed.

End ClientFacts.

(** ** CompanyVerificationWorkflow *)

Section WorkflowFacts.

Variable json_loads : string -> outcome value.
Variable lower : string -> string.
Variable Server : Type.
Variable call_tool : string -> value -> M Server value.

(** On ASCII text, [str.lower] lowers the letters A to Z and nothing else. *)
Hypothesis lower_on_ascii : forall s, is_ascii s = true -> lower s = lower_ascii s.

Import CompanyVerificationWorkflow.

Local Abbreviation workflow := (CompanyVerificationWorkflow.t Server).

(** *** Loops *)

Lemma for_each_frame {A B : Type} (body : B -> A -> M workflow B) (xs : list A) :
  (forall acc x s, snd (body acc x s) = s) ->
  forall acc s, snd (for_each xs acc body s) = s.
Proof.
  intro Hbody. induction xs as [|x xs IH]; intros acc s; simpl; [reflexivity|].
  unfold bind. specialize (Hbody acc x s).
  destruct (body acc x s) as [[acc'|e|w] s']; simpl in Hbody; subst s'.
  - apply IH.
  - reflexivity.
  - reflexivity.
Qed.

(** *** Extraction of the LinkedIn company pages *)

Lemma extract_loop (results : list value) (acc : list value) (self : workflow) :
  Forall is_search_result results ->
  for_each results acc (keep_company_page lower) self =
    (Ok (acc ++ map url_value (filter (fun r => is_company_page lower (url_value r)) results))%list,
     self).
Proof.
  intro Hwf. revert acc. induction Hwf as [|r results (d & u & -> & Hu) _ IH]; intro acc.
  - simpl. rewrite app_nil_r. reflexivity.
  - simpl. unfold bind at 1. unfold keep_company_page at 1.
    unfold bind, lift, ret. simpl. rewrite Hu. simpl.
    change linkedin_company_marker with "linkedin.com/company/".
    destruct (str_contains "linkedin.com/company/" (lower u)) eqn:Hc.
    + rewrite IH. simpl. rewrite Hu, <- app_assoc. reflexivity.
    + rewrite IH. reflexivity.
Qed.

(** C5.  On a list of search results, [extract_linkedin_urls] returns the
    urls of exactly the entries whose url, lower-cased, contains
    "linkedin.com/company/", in the order of the list, and changes nothing.
    "HTTPS://LinkedIn.com/Company/acme" is such a url and
    "linkedin.com/in/acme" is not. *)
Theorem extract_linkedin_urls_filters (self : workflow) (results : list value) :
  search_results self = VList results ->
  Forall is_search_result results ->
  extract_linkedin_urls lower self =
    (Ok (map url_value (filter (fun r => is_company_page lower (url_value r)) results)), self) /\
  is_company_page lower (VStr "HTTPS://LinkedIn.com/Company/acme") = true /\
  is_company_page lower (VStr "linkedin.com/in/acme") = false.
Proof.
  intros Hresults Hwf. split; [|split].
  - unfold extract_linkedin_urls, bind, get, lift. rewrite Hresults. simpl.
    exact (extract_loop results [] self Hwf).
  - unfold is_company_page. rewrite lower_on_ascii by reflexivity. reflexivity.
  - unfold is_company_page. rewrite lower_on_ascii by reflexivity. reflexivity.
Qed.

(** *** The crawl response *)

Ltac run_parser :=
  cbv beta iota zeta delta
    [parse_crawl parse_verify try_except bind modify get ret lift step raise log_len
     success_and_has py_get py_in py_getitem py_len dict_mem dict_get_default
     any_exception is_JSONDecodeError].

(** C4.  Let [with_pages] carry the list [P] under the legacy field [pages]
    (and have no [results]) and [with_results] carry [P] under [results],
    both with [success] set to true.  The crawl parser stores the same list
    [P] for the two, whether they arrive as mappings or as strings that
    [json.loads] decodes to them. *)
Theorem crawl_pages_field_same_as_results (self : workflow) (P : list value)
  (with_results with_pages : list (string * value)) :
  dict_get with_results "success" = Some (VBool true) ->
  dict_get with_results "results" = Some (VList P) ->
  dict_get with_pages "success" = Some (VBool true) ->
  dict_get with_pages "results" = None ->
  dict_get with_pages "pages" = Some (VList P) ->
  (parse_crawl json_loads (VDict with_pages) self = (Ok tt, set_crawl_results (VList P) self) /\
   parse_crawl json_loads (VDict with_results) self = (Ok tt, set_crawl_results (VList P) self)) /\
  (forall s_pages s_results,
     json_loads s_pages = Ok (VDict with_pages) ->
     json_loads s_results = Ok (VDict with_results) ->
     parse_crawl json_loads (VStr s_pages) self = (Ok tt, set_crawl_results (VList P) self) /\
     parse_crawl json_loads (VStr s_results) self = (Ok tt, set_crawl_results (VList P) self)).
Proof.
  intros Hrs Hrr Hps Hpr Hpp. split; [split|intros s_pages s_results Hdp Hdr; split].
  all: run_parser;
    repeat first [ rewrite Hdp | rewrite Hdr | rewrite Hps | rewrite Hpr | rewrite Hpp
                 | rewrite Hrs | rewrite Hrr | progress simpl ];
    reflexivity.
Qed.

(** *** What the stages leave unchanged *)

Ltac run_stage :=
  cbv beta iota zeta delta
    [execute_search execute_crawl execute_verify extract_linkedin_urls verify_pages
     keep_company_page keep_page
     mcp_server_call_tool parse_crawl parse_verify try_except bind modify get ret lift
     step raise log_len success_and_has any_exception py_get py_in py_getitem py_len
     py_lower];
  simpl.

Ltac split_cases :=
  repeat match goal with
         | w : Empty_set |- _ => destruct w
         | |- context [match ?x with _ => _ end] =>
             lazymatch x with
             | context [match _ with _ => _ end] => fail
             | _ => destruct x eqn:?; simpl
             end
         end.

Lemma execute_search_frame (company_name : string) (self : workflow) :
  let after := snd (execute_search json_loads call_tool company_name self) in
  aggregates after = aggregates self /\
  crawl_results after = crawl_results self /\
  verify_results after = verify_results self.
Proof.
  destruct self. run_stage. split_cases; repeat split.
Qed.

Lemma keep_company_page_frame (acc : list value) (x : value) (self : workflow) :
  snd (keep_company_page lower acc x self) = self.
Proof. run_stage. split_cases; reflexivity. Qed.

Lemma extract_linkedin_urls_frame (self : workflow) :
  snd (extract_linkedin_urls lower self) = self.
Proof.
  unfold extract_linkedin_urls, bind, get, lift.
  destruct (py_iter (search_results self)) as [results|e|[]]; [|reflexivity].
  apply for_each_frame, keep_company_page_frame.
Qed.

Lemma execute_crawl_frame (urls : list value) (self : workflow) :
  let after := snd (execute_crawl json_loads call_tool urls self) in
  aggregates after = aggregates self /\
  search_results after = search_results self /\
  verify_results after = verify_results self.
Proof.
  destruct self. destruct urls as [|url urls]; [repeat split|].
  run_stage. split_cases; repeat split.
Qed.

Lemma keep_page_frame (acc : list value) (x : value) (self : workflow) :
  snd (keep_page acc x self) = self.
Proof. run_stage. split_cases; reflexivity. Qed.

Lemma verify_pages_frame (crawl : list value) (self : workflow) :
  snd (verify_pages crawl self) = self.
Proof. apply for_each_frame, keep_page_frame. Qed.

(** *** The verify response *)

Ltac carried :=
  repeat match goal with
         | H : andb _ _ = true |- _ => apply andb_prop in H; destruct H
         end;
  first
    [ left; reflexivity
    | right; eexists; split;
      [ first [ left; reflexivity
              | right; eexists; split; [reflexivity | eassumption] ]
      | repeat split; solve [ eassumption | reflexivity ] ] ].

(** The parser of the verify response never raises.  It leaves the
    aggregates as they were, or stores those that a response of the [results]
    shape carries. *)
Lemma parse_verify_cases (result : value) (self : workflow) :
  exists after,
    parse_verify json_loads result self = (Ok tt, after) /\
    mcp_server after = mcp_server self /\
    crawl_results after = crawl_results self /\
    search_results after = search_results self /\
    (aggregates after = aggregates self \/
     carries_aggregates json_loads result (linkedin_found after) (match_count after)).
Proof.
  destruct self. run_stage. unfold carries_aggregates, response_mapping.
  split_cases; eexists; (split; [reflexivity|]); simpl; repeat split; carried.
Qed.

Lemma execute_verify_cases (company_name : string) (official_website : value)
  (self after : workflow) (verify_result : value) :
  execute_verify json_loads call_tool company_name official_website self
    = (Ok verify_result, after) ->
  aggregates after = aggregates self \/
  exists arguments response server',
    call_tool "verify_multiple_contents" arguments (mcp_server self) = (Ok response, server') /\
    carries_aggregates json_loads response (linkedin_found after) (match_count after).
Proof.
  unfold execute_verify, bind, get, lift.
  destruct (truthy (crawl_results self)); simpl.
  2:{ intros [= _ <-]. left. reflexivity. }
  destruct (py_iter (crawl_results self)) as [crawl|e|[]]; simpl; [|discriminate].
  pose proof (verify_pages_frame crawl self) as Hframe.
  destruct (verify_pages crawl self) as [[pages|e|w] s1]; simpl in Hframe; subst s1;
    [|discriminate|discriminate].
  destruct pages as [|page pages].
  { intros [= _ <-]. left. reflexivity. }
  unfold mcp_server_call_tool at 1.
  destruct (call_tool "verify_multiple_contents"
              (verify_args company_name official_website (page :: pages))
              (mcp_server self)) as [[response|e|w] server'] eqn:Hcall; [|discriminate|discriminate].
  destruct (parse_verify_cases response (set_mcp_server server' self))
    as (s2 & Hparse & _ & _ & _ & Hagg).
  rewrite Hparse. unfold ret. intros [= _ <-].
  destruct Hagg as [Hsame | Hcarried].
  - left. rewrite Hsame. destruct self; reflexivity.
  - right. eauto.
Qed.

(** *** The run *)

Lemma run_complete_workflow_stages (company_name : string) (official_website : value)
  (self after : workflow) (r : value) :
  run_complete_workflow json_loads lower call_tool company_name official_website self = (Ok r, after) <->
  exists search_result s1 linkedin_urls crawl_result s2 verify_result success,
    execute_search json_loads call_tool company_name (reset_aggregates self)
      = (Ok search_result, s1) /\
    extract_linkedin_urls lower s1 = (Ok linkedin_urls, s1) /\
    execute_crawl json_loads call_tool linkedin_urls s1 = (Ok crawl_result, s2) /\
    execute_verify json_loads call_tool company_name official_website s2
      = (Ok verify_result, after) /\
    success_of after = Ok success /\
    r = VDict (final_result company_name official_website
                 search_result crawl_result verify_result success after).
Proof.
  unfold run_complete_workflow.
  cbv beta iota zeta delta [bind modify get ret lift].
  fold (reset_aggregates self).
  split.
  - destruct (execute_search json_loads call_tool company_name (reset_aggregates self))
      as [[search_result|e|w] s1] eqn:Hs; [|discriminate|discriminate].
    pose proof (extract_linkedin_urls_frame s1) as Hframe.
    destruct (extract_linkedin_urls lower s1) as [[linkedin_urls|e|w] s1'] eqn:He;
      simpl in Hframe; subst s1'; [|discriminate|discriminate].
    destruct (execute_crawl json_loads call_tool linkedin_urls s1)
      as [[crawl_result|e|w] s2] eqn:Hc; [|discriminate|discriminate].
    destruct (execute_verify json_loads call_tool company_name official_website s2)
      as [[verify_result|e|w] s3] eqn:Hv; [|discriminate|discriminate].
    destruct (success_of s3) as [success|e|[]] eqn:Hsuccess; [|discriminate].
    intros [= <- <-].
    exists search_result, s1, linkedin_urls, crawl_result, s2, verify_result, success.
    repeat split; assumption.
  - intros (search_result & s1 & linkedin_urls & crawl_result & s2 & verify_result & success
            & Hs & He & Hc & Hv & Hsucc & ->).
    rewrite Hs, He, Hc, Hv, Hsucc. reflexivity.
Qed.

Lemma final_result_success (company_name : string) (official_website : value)
  (search_result crawl_result verify_result success : value) (self : workflow) :
  dict_get (final_result company_name official_website
              search_result crawl_result verify_result success self) "success"
    = Some success.
Proof.
  unfold final_result.
  destruct (truthy official_website), (truthy (linkedin_found self)),
    (truthy (best_match self)); reflexivity.
Qed.

Lemma float_positive_spec (x : spec_float) :
  float_positive x = true <-> SFcompare x (S754_zero false) = Some Gt.
Proof.
  destruct x as [s| [|] | |[|] m e]; simpl; split; intro H;
    try discriminate H; reflexivity.
Qed.

(** [self.linkedin_found and self.match_count > 0]: a false flag is the value
    of the expression, whatever it is; with a true flag the value is that of
    the comparison. *)
Lemma success_of_spec (self : workflow) (success : value) :
  success_of self = Ok success ->
  (success = VBool true <->
     truthy (linkedin_found self) = true /\ positive_count (match_count self)) /\
  (forall n, truthy (linkedin_found self) = true -> match_count self = VInt n ->
             success = VBool (0 <? n)) /\
  (truthy (linkedin_found self) = false -> success = linkedin_found self) /\
  (linkedin_found self = VBool false -> success = VBool false).
Proof.
  unfold success_of. destruct (truthy (linkedin_found self)) eqn:Hfound.
  - intro Hgt. split; [|split; [|split]].
    + destruct (match_count self) as [|b|n|x| | |]; simpl in Hgt; try discriminate Hgt;
        injection Hgt as <-; simpl.
      * split.
        -- intros [= ->]. split; reflexivity.
        -- intros [_ ->]. reflexivity.
      * split.
        -- intros [= Hpos]. split; [reflexivity|]. apply Z.ltb_lt. exact Hpos.
        -- intros [_ Hpos]. apply Z.ltb_lt in Hpos. rewrite Hpos. reflexivity.
      * split.
        -- intros [= Hpos]. split; [reflexivity|]. apply float_positive_spec. exact Hpos.
        -- intros [_ Hpos]. apply float_positive_spec in Hpos. rewrite Hpos. reflexivity.
    + intros n _ Hcount. rewrite Hcount in Hgt. simpl in Hgt. injection Hgt as <-.
      reflexivity.
    + discriminate.
    + intro Hb. rewrite Hb in Hfound. discriminate Hfound.
  - intros [= <-]. split; [|split; [|split]].
    + split.
      * intro Heq. rewrite Heq in Hfound. discriminate Hfound.
      * intros [Habs _]. discriminate Habs.
    + discriminate.
    + reflexivity.
    + intro Hb. exact Hb.
Qed.

Lemma aggregates_before_verify (company_name : string) (self s1 s2 : workflow)
  (search_result crawl_result : value) (linkedin_urls : list value) :
  execute_search json_loads call_tool company_name (reset_aggregates self)
    = (Ok search_result, s1) ->
  execute_crawl json_loads call_tool linkedin_urls s1 = (Ok crawl_result, s2) ->
  aggregates s2 = (VNone, VNone, VBool false, VInt 0).
Proof.
  intros Hs Hc.
  destruct (execute_search_frame company_name (reset_aggregates self)) as (Hs1 & _).
  destruct (execute_crawl_frame linkedin_urls s1) as (Hs2 & _).
  rewrite Hs in Hs1. rewrite Hc in Hs2. simpl in Hs1, Hs2.
  rewrite Hs2, Hs1. reflexivity.
Qed.

(** C1, as amended.  Let a run return the result [r] and leave the workflow
    in the state [after].  The flag [linkedin_found after] and the count
    [match_count after] are the reset values [False] and [0] (the verify
    stage was skipped or stored nothing), or those carried by the response to
    a verify call.  The [success] entry of [r] is [True] exactly when the flag
    is true and the count is greater than zero; for a true flag and an integer
    count [n] it is the boolean [0 < n].  When the flag is not true, the entry
    is the flag itself: [False] when the flag is [False], as it is after the
    reset, and otherwise whatever false value the response carried. *)
Theorem success_iff_linkedin_found_and_matches (company_name : string)
  (official_website : value) (self after : workflow) (r : value) :
  run_complete_workflow json_loads lower call_tool company_name official_website self
    = (Ok r, after) ->
  exists fields success,
    r = VDict fields /\
    dict_get fields "success" = Some success /\
    ((linkedin_found after = VBool false /\ match_count after = VInt 0) \/
     (exists arguments server response server',
        call_tool "verify_multiple_contents" arguments server = (Ok response, server') /\
        carries_aggregates json_loads response (linkedin_found after) (match_count after))) /\
    (success = VBool true <->
       truthy (linkedin_found after) = true /\ positive_count (match_count after)) /\
    (forall n, truthy (linkedin_found after) = true -> match_count after = VInt n ->
               success = VBool (0 <? n)) /\
    (truthy (linkedin_found after) = false -> success = linkedin_found after) /\
    (linkedin_found after = VBool false -> success = VBool false).
Proof.
  intro Hrun. apply run_complete_workflow_stages in Hrun
    as (search_result & s1 & linkedin_urls & crawl_result & s2 & verify_result & success
        & Hs & He & Hc & Hv & Hsucc & ->).
  eexists. exists success. split; [reflexivity|].
  split; [apply final_result_success|].
  split; [|exact (success_of_spec after success Hsucc)].
  pose proof (aggregates_before_verify _ _ _ _ _ _ _ Hs Hc) as Hreset.
  destruct (execute_verify_cases _ _ _ _ _ Hv) as [Hsame | (arguments & response & server' & Hcall & Hcarried)].
  - left. rewrite Hreset in Hsame. unfold aggregates in Hsame.
    injection Hsame as _ _ Hfound Hcount. split; assumption.
  - right. exists arguments, (mcp_server s2), response, server'. split; assumption.
Qed.

Lemma response_mapping_functional (response : value) (d d' : list (string * value)) :
  response_mapping json_loads response d ->
  response_mapping json_loads response d' ->
  d = d'.
Proof.
  intros [-> | (s & -> & Hs)] [H | (s' & H & Hs')].
  - injection H as <-. reflexivity.
  - discriminate H.
  - discriminate H.
  - injection H as <-. rewrite Hs in Hs'. injection Hs' as <-. reflexivity.
Qed.

(** C10.  Take a run that reaches the verify call: the search, the extraction
    and the crawl return, the crawl results hold a page with a url and a
    content, and the verify call is answered by a response of the legacy shape
    ([verifications] and no [results], as a mapping or as a string that decodes
    to one).  Then the run returns; [best_match] is still [None],
    [linkedin_found] still [False] and [match_count] still [0]; and the result
    has [success] equal to [False] and none of the keys [linkedin_found],
    [linkedin_url], [match_count] and [best_match]. *)
Theorem legacy_verifications_set_no_aggregates (company_name : string)
  (official_website : value) (self s1 s2 : workflow)
  (search_result crawl_result response : value)
  (linkedin_urls crawl pages : list value) (server' : Server) :
  execute_search json_loads call_tool company_name (reset_aggregates self)
    = (Ok search_result, s1) ->
  extract_linkedin_urls lower s1 = (Ok linkedin_urls, s1) ->
  execute_crawl json_loads call_tool linkedin_urls s1 = (Ok crawl_result, s2) ->
  truthy (crawl_results s2) = true ->
  py_iter (crawl_results s2) = Ok crawl ->
  verify_pages crawl s2 = (Ok pages, s2) ->
  pages <> [] ->
  call_tool "verify_multiple_contents"
    (verify_args company_name official_website pages) (mcp_server s2)
    = (Ok response, server') ->
  legacy_verify_response json_loads response ->
  exists fields after,
    run_complete_workflow json_loads lower call_tool company_name official_website self
      = (Ok (VDict fields), after) /\
    best_match after = VNone /\
    linkedin_found after = VBool false /\
    match_count after = VInt 0 /\
    dict_get fields "success" = Some (VBool false) /\
    dict_mem fields "linkedin_found" = false /\
    dict_mem fields "linkedin_url" = false /\
    dict_mem fields "match_count" = false /\
    dict_mem fields "best_match" = false.
Proof.
  intros Hs He Hc Htruthy Hiter Hpages Hnonempty Hcall (d & Hmap & _ & Hnoresults).
  pose proof (aggregates_before_verify _ _ _ _ _ _ _ Hs Hc) as Hreset.
  destruct (parse_verify_cases response (set_mcp_server server' s2))
    as (after & Hparse & _ & _ & _ & Hagg).
  assert (Hafter : aggregates after = (VNone, VNone, VBool false, VInt 0)).
  { destruct Hagg as [Hsame | (d' & Hmap' & Hresults & _)].
    - rewrite Hsame, <- Hreset. destruct s2; reflexivity.
    - rewrite (response_mapping_functional _ _ _ Hmap' Hmap) in Hresults.
      rewrite Hresults in Hnoresults. discriminate Hnoresults. }
  unfold aggregates in Hafter. injection Hafter as Hbest _ Hfound Hcount.
  assert (Hv : execute_verify json_loads call_tool company_name official_website s2
               = (Ok (VDict [("verify_results", verify_results after)]), after)).
  { unfold execute_verify, bind, get, lift. rewrite Htruthy, Hiter. simpl.
    rewrite Hpages. destruct pages as [|page pages]; [contradiction|].
    unfold mcp_server_call_tool at 1. rewrite Hcall, Hparse. reflexivity. }
  eexists. exists after. split.
  - apply run_complete_workflow_stages.
    exists search_result, s1, linkedin_urls, crawl_result, s2.
    eexists. exists (VBool false). repeat split; try eassumption.
    unfold success_of. rewrite Hfound. reflexivity.
  - unfold final_result. rewrite Hfound, Hbest. simpl.
    repeat split; try assumption; destruct (truthy official_website); reflexivity.
Qed.

(** *** A search without results, and what the parsers catch *)

Lemma execute_search_returns (company_name : string) (self after : workflow)
  (search_result : value) :
  execute_search json_loads call_tool company_name self = (Ok search_result, after) ->
  search_result = VDict [("search_results", search_results after)].
Proof.
  destruct self. run_stage. split_cases; intros [= <- <-]; reflexivity.
Qed.

(** X1.  On a workflow that holds no crawl results (a workflow no run has
    filled), a run whose search stage ends with an empty list of results returns right
    after the search: no other tool is called, the three lists of the result
    are empty and [success] is [False]. *)
Theorem no_search_results_skips_crawl_and_verify (company_name : string)
  (official_website : value) (self s1 : workflow) (search_result : value) :
  truthy (crawl_results self) = false ->
  execute_search json_loads call_tool company_name (reset_aggregates self)
    = (Ok search_result, s1) ->
  search_results s1 = VList [] ->
  exists fields,
    run_complete_workflow json_loads lower call_tool company_name official_website self
      = (Ok (VDict fields), s1) /\
    dict_get fields "search" = Some (VDict [("search_results", VList [])]) /\
    dict_get fields "crawl" = Some (VDict [("crawl_results", VList [])]) /\
    dict_get fields "verify" = Some (VDict [("verify_results", VList [])]) /\
    dict_get fields "success" = Some (VBool false).
Proof.
  intros Hcrawl Hs Hnone.
  pose proof (execute_search_returns _ _ _ _ Hs) as Hresult. rewrite Hnone in Hresult.
  destruct (execute_search_frame company_name (reset_aggregates self)) as (Hagg & Hcr & _).
  rewrite Hs in Hagg, Hcr. simpl in Hagg, Hcr.
  unfold aggregates in Hagg. injection Hagg as Hbest _ Hfound _.
  eexists. split.
  - apply run_complete_workflow_stages.
    exists search_result, s1, [], (VDict [("crawl_results", VList [])]), s1,
      (VDict [("verify_results", VList [])]), (VBool false).
    repeat split.
    + exact Hs.
    + unfold extract_linkedin_urls, bind, get, lift. rewrite Hnone. reflexivity.
    + unfold execute_verify, bind, get. rewrite Hcr. simpl. rewrite Hcrawl. reflexivity.
    + unfold success_of. rewrite Hfound. reflexivity.
  - unfold final_result. rewrite Hfound, Hbest, Hresult. simpl.
    destruct (truthy official_website); repeat split.
Qed.

(** X2.  What the handlers of the stages do catch: whatever a tool returns, the
    search stage and the crawl stage return, and the parser of the verify
    response returns. *)
Theorem response_parsing_never_raises :
  (forall company_name (self : workflow) result server',
     call_tool "search_company" (VDict [("company_name", VStr company_name)]) (mcp_server self)
       = (Ok result, server') ->
     exists search_result after,
       execute_search json_loads call_tool company_name self = (Ok search_result, after)) /\
  (forall first others (self : workflow) result server',
     call_tool "crawl_multiple_pages" (VDict [("urls", VList (first :: others))])
       (mcp_server self) = (Ok result, server') ->
     exists crawl_result after,
       execute_crawl json_loads call_tool (first :: others) self = (Ok crawl_result, after)) /\
  (forall result (self : workflow),
     fst (parse_verify json_loads result self) = Ok tt).
Proof.
  split; [|split].
  - intros company_name self result server' Hcall. destruct self. simpl in Hcall.
    run_stage. rewrite Hcall. simpl. split_cases; eexists; eexists; reflexivity.
  - intros first others self result server' Hcall. destruct self. simpl in Hcall.
    run_stage. rewrite Hcall. simpl. split_cases; eexists; eexists; reflexivity.
  - intros result self. destruct (parse_verify_cases result self) as (after & -> & _).
    reflexivity.
Qed.

End WorkflowFacts.

(** ** The properties on the closed scenarios *)

Import Examples.

(** The ids of the requests of the full run. *)
Example matching_run_request_ids :
  map MCPServerStdio.request_id
      (MCPServerStdio.sent (CompanyVerificationWorkflow.mcp_server (snd matching_run)))
    = [Some 1; Some 2; Some 3; Some 4].
Proof. vm_compute. reflexivity. Qed.

(** The premises of [success_iff_linkedin_found_and_matches] hold of the full
    run, whose [success] is [True] by the theorem. *)
Lemma success_iff_linkedin_found_and_matches_witness :
  run "Acme" VNone (started matching_lines) = (Ok matching_result, matching_after) /\
  CompanyVerificationWorkflow.linkedin_found matching_after = VBool true /\
  CompanyVerificationWorkflow.match_count matching_after = VInt 1 /\
  exists fields,
    matching_result = VDict fields /\ dict_get fields "success" = Some (VBool true).
Proof.
  assert (Hrun : run "Acme" VNone (started matching_lines)
                 = (Ok matching_result, matching_after))
    by (vm_compute; reflexivity).
  destruct (success_iff_linkedin_found_and_matches Json.loads lower_ascii MCPServerStdio.t
              client_call_tool "Acme" VNone (started matching_lines)
              matching_after matching_result Hrun)
    as (fields & success & Hr & Hget & _ & Hiff & _).
  split; [exact Hrun|]. split; [reflexivity|]. split; [reflexivity|].
  exists fields. split; [exact Hr|].
  rewrite Hget. f_equal. apply Hiff. split; reflexivity.
Defined.

(** C1 fails as stated.  The verify tool answers with [null] for the flag and
    1 for the count: the run returns, and its [success] is [None], the flag
    itself, not [False]. *)
Lemma null_flag_success_is_none :
  result_entry "success" (fst null_flag_run) = Some VNone /\
  CompanyVerificationWorkflow.linkedin_found (snd null_flag_run) = VNone /\
  CompanyVerificationWorkflow.match_count (snd null_flag_run) = VInt 1.
Proof. vm_compute. repeat split. Qed.

(** C2 fails on the code.  The search tool answers with a result whose [url]
    is [null]: the tool call returns normally, and the run raises
    [AttributeError] out of [extract_linkedin_urls], which has no handler. *)
Theorem malformed_search_result_aborts_run :
  fst (client_call_tool "search_company" (VDict [("company_name", VStr "Acme")])
         (entered [search_null_url "2"]))
    = Ok (VDict [("success", VBool true);
                 ("results", VList [VDict [("title", VStr "Acme"); ("url", VNone)]])]) /\
  fst null_url_run = Raise AttributeError /\
  tools_called (snd null_url_run) = [None; Some (VStr "search_company")].
Proof. vm_compute. repeat split. Qed.

(** C3 fails on the code.  After a run that crawled a page, a second run on
    the same workflow whose search finds nothing still reads the first run's
    crawl results: it calls the verify tool, returns the verify results of that
    call, and reports [success]. *)
Theorem stale_crawl_results_reach_verify :
  result_entry "search" (fst second_run) = Some (VDict [("search_results", VList [])]) /\
  result_entry "crawl" (fst second_run) = Some (VDict [("crawl_results", VList [])]) /\
  tools_called (snd second_run)
    = [None;
       Some (VStr "search_company"); Some (VStr "crawl_multiple_pages");
       Some (VStr "verify_multiple_contents");
       Some (VStr "search_company"); Some (VStr "verify_multiple_contents")] /\
  result_entry "verify" (fst second_run)
    = Some (VDict [("verify_results",
                    VList [VDict [("url", VStr acme_url); ("match_score", VInt 9)]])]) /\
  result_entry "success" (fst second_run) = Some (VBool true).
Proof. vm_compute. repeat split. Qed.

(** The premises of [crawl_pages_field_same_as_results] hold of the crawl
    response of the specification. *)
Lemma crawl_pages_field_same_as_results_witness :
  Json.loads pages_text = Ok (VDict pages_response) /\
  Json.loads results_text = Ok (VDict results_response) /\
  CompanyVerificationWorkflow.parse_crawl Json.loads (VDict pages_response) fresh
    = CompanyVerificationWorkflow.parse_crawl Json.loads (VDict results_response) fresh /\
  CompanyVerificationWorkflow.parse_crawl Json.loads (VStr pages_text) fresh
    = (Ok tt, CompanyVerificationWorkflow.set_crawl_results (VList spec_pages) fresh) /\
  CompanyVerificationWorkflow.parse_crawl Json.loads (VStr results_text) fresh
    = (Ok tt, CompanyVerificationWorkflow.set_crawl_results (VList spec_pages) fresh).
Proof.
  assert (Hp : Json.loads pages_text = Ok (VDict pages_response)) by (vm_compute; reflexivity).
  assert (Hr : Json.loads results_text = Ok (VDict results_response)) by (vm_compute; reflexivity).
  destruct (crawl_pages_field_same_as_results Json.loads MCPServerStdio.t fresh spec_pages
              results_response pages_response eq_refl eq_refl eq_refl eq_refl eq_refl)
    as [[Hmp Hmr] Hstr].
  destruct (Hstr pages_text results_text Hp Hr) as [Hsp Hsr].
  split; [exact Hp|]. split; [exact Hr|]. split; [rewrite Hmp, Hmr; reflexivity|].
  split; assumption.
Defined.

(** The premises of [extract_linkedin_urls_filters] hold of the sample: the
    two company pages are kept, in their order. *)
Lemma extract_linkedin_urls_filters_witness :
  CompanyVerificationWorkflow.extract_linkedin_urls lower_ascii
    (CompanyVerificationWorkflow.set_search_results (VList sample_search_results) fresh)
  = (Ok [VStr "HTTPS://LinkedIn.com/Company/acme";
         VStr "https://www.linkedin.com/company/acme/about"],
     CompanyVerificationWorkflow.set_search_results (VList sample_search_results) fresh).
Proof.
  assert (Hwf : Forall CompanyVerificationWorkflow.is_search_result sample_search_results).
  { repeat constructor; eexists; eexists; split; reflexivity. }
  destruct (extract_linkedin_urls_filters lower_ascii MCPServerStdio.t (fun s _ => eq_refl)
              (CompanyVerificationWorkflow.set_search_results (VList sample_search_results) fresh)
              sample_search_results eq_refl Hwf) as [Hextract _].
  rewrite Hextract. reflexivity.
Defined.

(** The premises of [legacy_verifications_set_no_aggregates] hold of the run
    whose verify response has the legacy shape: it returns without success,
    although the list of verifications is not empty. *)
Lemma legacy_verifications_set_no_aggregates_witness :
  exists fields after,
    run "Acme" (VStr "acme.com") (started legacy_lines) = (Ok (VDict fields), after) /\
    CompanyVerificationWorkflow.verify_results after
      = VList [VDict [("url", VStr acme_url); ("match_score", VInt 9)]] /\
    CompanyVerificationWorkflow.linkedin_found after = VBool false /\
    dict_get fields "success" = Some (VBool false) /\
    dict_mem fields "best_match" = false.
Proof.
  edestruct (legacy_verifications_set_no_aggregates Json.loads lower_ascii MCPServerStdio.t
               client_call_tool "Acme" (VStr "acme.com") (started legacy_lines))
    as (fields & after & Hrun & _ & Hfound & _ & Hsuccess & _ & _ & _ & Hbest).
  - vm_compute; reflexivity.
  - vm_compute; reflexivity.
  - vm_compute; reflexivity.
  - vm_compute; reflexivity.
  - vm_compute; reflexivity.
  - vm_compute; reflexivity.
  - discriminate.
  - vm_compute; reflexivity.
  - eexists. split; [left; reflexivity | split; reflexivity].
  - exists fields, after. split; [exact Hrun|].
    split; [|split; [exact Hfound | split; [exact Hsuccess | exact Hbest]]].
    assert (Hafter : snd (run "Acme" (VStr "acme.com") (started legacy_lines)) = after)
      by (rewrite Hrun; reflexivity).
    rewrite <- Hafter. vm_compute. reflexivity.
Defined.

(** The premises of [call_tool_normalizes_result] hold of a call answered in
    the content envelope, whose text is returned decoded, and of a call
    answered by a bare result, which is returned as it is. *)
Lemma call_tool_normalizes_result_witness :
  fst (client_call_tool "search_company" VNone (entered envelope_lines))
    = Ok (VDict [("success", VBool true)]) /\
  fst (client_call_tool "search_company" VNone
         (snd (client_call_tool "search_company" VNone (entered envelope_lines))))
    = Ok (VDict [("tools", VList [])]).
Proof.
  split.
  - edestruct (call_tool_normalizes_result Json.loads py_repr "search_company" VNone
                 (entered envelope_lines)) as [Hfirst _].
    { vm_compute. reflexivity. }
    edestruct (Hfirst _ []
                 (VDict [("type", VStr "text"); ("text", VStr (Json.text "{'success':true}"))])
                 [] (VStr (Json.text "{'success':true}")) eq_refl)
      as (payload & Hcall & Hdecoded & _).
    { vm_compute. reflexivity. }
    { intros x t []. }
    { eexists. repeat split. }
    unfold client_call_tool. rewrite Hcall. simpl. f_equal.
    apply Hdecoded. vm_compute. reflexivity.
  - edestruct (call_tool_normalizes_result Json.loads py_repr "search_company" VNone
                 (snd (client_call_tool "search_company" VNone (entered envelope_lines))))
      as [_ Hbare].
    { vm_compute. reflexivity. }
    unfold client_call_tool at 1. rewrite Hbare; [reflexivity|].
    intros d content item text [= <-] Hcontent. vm_compute in Hcontent. discriminate Hcontent.
Defined.

(** C7 fails as stated.  On a child whose stderr is at its end, the line
    "not json" makes [_send_request] raise an [Exception] whose text holds the
    decoder's description and not the line; a child that is silent on its
    stdout and an error frame raise an [Exception] too.  On a child that lives
    on and writes nothing to its stderr, the same line raises nothing: the
    call never completes. *)
Lemma invalid_json_line_not_in_payload :
  fst (MCPServerStdio._send_request Json.loads py_repr (MCPServerStdio.tools_list_request 2)
         (entered_on MCPServerStdio.Closed [MCPServerStdio.Line garbage_line]))
    = Raise (Exception (MCPServerStdio.decode_error_prefix ++ Json.expecting_value)) /\
  str_contains garbage_line (MCPServerStdio.decode_error_prefix ++ Json.expecting_value)
    = false /\
  fst (MCPServerStdio._send_request Json.loads py_repr (MCPServerStdio.tools_list_request 2)
         (entered_on MCPServerStdio.Closed []))
    = Raise (Exception MCPServerStdio.timeout_message) /\
  fst (MCPServerStdio._send_request Json.loads py_repr (MCPServerStdio.tools_list_request 2)
         (entered_on MCPServerStdio.Closed [MCPServerStdio.Line error_line]))
    = Raise (Exception (MCPServerStdio.server_error_prefix
                          ++ "{'code': -32601, 'message': 'unknown tool'}")) /\
  fst (MCPServerStdio._send_request Json.loads py_repr (MCPServerStdio.tools_list_request 2)
         (entered [MCPServerStdio.Line garbage_line]))
    = Blocked tt.
Proof. vm_compute. repeat split. Qed.

(** The premises of [invalid_json_line_raises_exception] hold of the line
    "not json" written by a child whose stderr is at its end. *)
Lemma invalid_json_line_raises_exception_witness :
  Json.loads garbage_line = Raise (JSONDecodeError Json.expecting_value) /\
  fst (MCPServerStdio._send_request Json.loads py_repr (MCPServerStdio.tools_list_request 2)
         (entered_on MCPServerStdio.Closed [MCPServerStdio.Line garbage_line]))
    = Raise (Exception (MCPServerStdio.decode_error_prefix ++ Json.expecting_value)).
Proof.
  assert (Hdec : Json.loads garbage_line = Raise (JSONDecodeError Json.expecting_value))
    by (vm_compute; reflexivity).
  assert (Hprocess : MCPServerStdio.process
                       (entered_on MCPServerStdio.Closed [MCPServerStdio.Line garbage_line])
                     = Some garbage_child)
    by (vm_compute; reflexivity).
  assert (Hline : garbage_line <> "") by discriminate.
  destruct (invalid_json_line_raises_exception Json.loads py_repr
              (MCPServerStdio.tools_list_request 2)
              (entered_on MCPServerStdio.Closed [MCPServerStdio.Line garbage_line])
              garbage_child garbage_line
              Json.expecting_value [] Hprocess eq_refl Hline Hdec)
    as [Hraise _].
  split; [exact Hdec|]. rewrite (Hraise eq_refl). reflexivity.
Defined.

(** C8 fails as stated.  With the cache on, a first listing that is an empty
    mapping is not served from the cache: two calls write two requests. *)
Lemma empty_listing_is_not_cached :
  MCPServerStdio.cache_tools_list (entered empty_listing_lines) = true /\
  fst (MCPServerStdio.list_tools Json.loads py_repr (entered empty_listing_lines))
    = Ok (VDict []) /\
  fst (MCPServerStdio.list_tools Json.loads py_repr
         (snd (MCPServerStdio.list_tools Json.loads py_repr (entered empty_listing_lines))))
    = Ok (VDict [("tools", VList [])]) /\
  MCPServerStdio.round_trips (entered empty_listing_lines)
    (snd (MCPServerStdio.list_tools Json.loads py_repr
            (snd (MCPServerStdio.list_tools Json.loads py_repr (entered empty_listing_lines)))))
    = 2.
Proof. vm_compute. repeat split. Qed.

(** The premises of [list_tools_cache_round_trips] hold of a child that lists
    one tool: one request for two calls, and one more after the cache is
    invalidated. *)
Lemma list_tools_cache_round_trips_witness :
  MCPServerStdio.list_tools Json.loads py_repr (entered listing_lines)
    = (Ok listed_tools, listed_once) /\
  MCPServerStdio.round_trips (entered listing_lines) listed_once = 1 /\
  MCPServerStdio.list_tools Json.loads py_repr listed_once = (Ok listed_tools, listed_once) /\
  MCPServerStdio.round_trips listed_once
    (snd (MCPServerStdio.list_tools Json.loads py_repr
            (snd (MCPServerStdio.invalidate_tools_cache listed_once)))) = 1.
Proof.
  assert (Hcache : MCPServerStdio.cache_tools_list (entered listing_lines) = true)
    by (vm_compute; reflexivity).
  assert (Hempty : truthy (MCPServerStdio._tools_cache (entered listing_lines)) = false)
    by (vm_compute; reflexivity).
  assert (Hfirst : MCPServerStdio.list_tools Json.loads py_repr (entered listing_lines)
                   = (Ok listed_tools, listed_once))
    by (vm_compute; reflexivity).
  destruct (list_tools_cache_round_trips Json.loads py_repr (entered listing_lines)
              listed_once listed_tools Hcache Hempty Hfirst eq_refl)
    as (Hone & Hsecond & Hthird).
  split; [exact Hfirst|]. split; [exact Hone|]. split; [exact Hsecond|].
  apply (Hthird (fst (MCPServerStdio.list_tools Json.loads py_repr
                        (snd (MCPServerStdio.invalidate_tools_cache listed_once))))).
  apply surjective_pairing.
Defined.

(** The premises of [no_search_results_skips_crawl_and_verify] hold of the
    first run of a workflow whose search finds nothing: the search is the only
    tool called. *)
Lemma no_search_results_skips_crawl_and_verify_witness :
  exists fields after,
    run "Nothing Ltd" VNone (started [search_nothing "2"]) = (Ok (VDict fields), after) /\
    tools_called after = [None; Some (VStr "search_company")] /\
    dict_get fields "verify" = Some (VDict [("verify_results", VList [])]) /\
    dict_get fields "success" = Some (VBool false).
Proof.
  edestruct (no_search_results_skips_crawl_and_verify Json.loads lower_ascii MCPServerStdio.t
               client_call_tool "Nothing Ltd" VNone (started [search_nothing "2"]))
    as (fields & Hrun & _ & _ & Hverify & Hsuccess).
  - vm_compute; reflexivity.
  - vm_compute; reflexivity.
  - vm_compute; reflexivity.
  - exists fields. eexists. split; [exact Hrun|].
    split; [vm_compute; reflexivity|]. split; assumption.
Defined.

(** ** MCPServerStdio: frames, the handshake and a closed client *)

Section ClientMore.

Variable json_loads : string -> outcome value.
Variable py_str : value -> string.

Import MCPServerStdio.

Local Abbreviation send := (_send_request json_loads py_str).

Ltac run_send :=
  unfold _send_request, write_request, readline, read_stderr;
  unfold bind, get, modify, try_except, raise, ret, lift, block, set_process; simpl.

Lemma send_request_result (request : value) (self : t) (p : subprocess)
  (line : string) (rest : list read_event) (frame : list (string * value)) :
  process self = Some p ->
  stdout p = Line line :: rest ->
  line <> "" ->
  json_loads line = Ok (VDict frame) ->
  dict_get frame "error" = None ->
  send request self =
    (Ok (dict_get_default frame "result" VNone),
     set_process (Some {| stdin := (stdin p ++ [request])%list; stdout := rest;
                          stderr := stderr p |}) self).
Proof.
  intros Hp Hout Hline Hdec Herr.
  destruct self as [proc c cache n i]; simpl in Hp; subst proc.
  run_send. rewrite Hout; simpl.
  apply String.eqb_neq in Hline. rewrite Hline; simpl.
  rewrite Hdec; simpl. unfold dict_mem. rewrite Herr. reflexivity.
Qed.

(** X3.  A response line that decodes to a mapping without an [error] key
    makes [_send_request] return the [result] entry of the mapping, or [None]
    when it has none; the child's stderr is not read.  No other entry is read
    and the request is not looked at: any other request gets the same answer
    from the same line, so the [id] of the frame is not compared with the id
    of the request. *)
Theorem send_request_returns_result_entry (request : value) (self : t) (p : subprocess)
  (line : string) (rest : list read_event) (frame : list (string * value)) :
  process self = Some p ->
  stdout p = Line line :: rest ->
  line <> "" ->
  json_loads line = Ok (VDict frame) ->
  dict_get frame "error" = None ->
  send request self =
    (Ok (dict_get_default frame "result" VNone),
     set_process (Some {| stdin := (stdin p ++ [request])%list; stdout := rest;
                          stderr := stderr p |}) self) /\
  forall other, fst (send other self) = fst (send request self).
Proof.
  intros Hp Hout Hline Hdec Herr. split.
  - exact (send_request_result request self p line rest frame Hp Hout Hline Hdec Herr).
  - intro other.
    rewrite (send_request_result request self p line rest frame Hp Hout Hline Hdec Herr).
    rewrite (send_request_result other self p line rest frame Hp Hout Hline Hdec Herr).
    reflexivity.
Qed.


(** X5.  On a client that was closed, [call_tool] raises [RuntimeError]
    without writing anything, and still uses up a request id; [list_tools]
    either does the same or, with the cache on and a listing in it, goes on
    returning the cached listing. *)
Theorem calls_on_closed_client (self : t) (tool_name : string) (arguments : value) :
  call_tool json_loads py_str tool_name arguments (snd (aexit self)) =
    (Raise (RuntimeError not_started_message),
     set_next_request_id (_next_request_id self + 1) (snd (aexit self))) /\
  (cache_tools_list self && truthy (_tools_cache self) = true ->
   list_tools json_loads py_str (snd (aexit self)) = (Ok (_tools_cache self), snd (aexit self))) /\
  (cache_tools_list self && truthy (_tools_cache self) = false ->
   list_tools json_loads py_str (snd (aexit self)) =
     (Raise (RuntimeError not_started_message),
      set_next_request_id (_next_request_id self + 1) (snd (aexit self)))).
Proof.
  destruct self as [proc c cache n i].
  unfold aexit, call_tool, list_tools; simpl.
  split; [reflexivity|].
  split; intro H; unfold bind, get, modify, ret; simpl; rewrite H; reflexivity.
Qed.

(** X6.  On a new client, [__aenter__] on a child whose first line is a
    well-formed frame writes exactly one request, the [initialize] request with
    id 1, and marks the client initialized; calling [_initialize] again then
    returns [None] and writes nothing. *)
Theorem aenter_sends_one_handshake (cache : bool) (line : string)
  (rest : list read_event) (diagnostics : stderr_stream) (frame : list (string * value)) :
  line <> "" ->
  json_loads line = Ok (VDict frame) ->
  dict_get frame "error" = None ->
  aenter json_loads py_str (Ok (Line line :: rest, diagnostics)) (init cache)
    = (Ok tt, after_handshake true cache rest diagnostics) /\
  _initialize json_loads py_str (after_handshake true cache rest diagnostics)
    = (Ok VNone, after_handshake true cache rest diagnostics).
Proof.
  intros Hline Hdec Herr. split; [|reflexivity].
  unfold aenter, _initialize, init, attach.
  cbv beta iota zeta delta [bind get modify ret lift step set_process set_next_request_id
                            set_initialized]; simpl.
  match goal with
  | |- context [_send_request _ _ ?req ?s] =>
      rewrite (send_request_result req s
                 {| stdin := []; stdout := Line line :: rest; stderr := diagnostics |}
                 line rest frame eq_refl eq_refl Hline Hdec Herr)
  end.
  reflexivity.
Qed.



(** X9.  Responses are matched to requests by their order alone.  Take a
    call whose answer does not come within the time limit.  When the read of
    the child's stderr returns, the call raises the timeout [Exception], and
    if the answer arrives later, the next call, whatever tool it names,
    returns the payload of that late answer.  When the child's stderr is open
    and silent, the call that timed out never completes. *)
Theorem late_response_answers_next_call (self : t) (p : subprocess) (line : string)
  (rest : list read_event) (frame : list (string * value))
  (first_tool second_tool : string) (first_arguments second_arguments : value) :
  process self = Some p ->
  stdout p = ReadTimeout :: Line line :: rest ->
  line <> "" ->
  json_loads line = Ok (VDict frame) ->
  dict_get frame "error" = None ->
  (readable (stderr p) = true ->
   fst (call_tool json_loads py_str first_tool first_arguments self)
     = Raise (Exception timeout_message) /\
   fst (call_tool json_loads py_str second_tool second_arguments
          (snd (call_tool json_loads py_str first_tool first_arguments self)))
     = Ok (tool_payload json_loads (dict_get_default frame "result" VNone))) /\
  (stderr p = Silent ->
   fst (call_tool json_loads py_str first_tool first_arguments self) = Blocked tt).
Proof.
  intros Hp Hout Hline Hdec Herr.
  destruct self as [proc c cache n i]; simpl in Hp; subst proc.
  split.
  - intro Hread.
    assert (Hfirst : call_tool json_loads py_str first_tool first_arguments
                       {| process := Some p; cache_tools_list := c; _tools_cache := cache;
                          _next_request_id := n; _initialized := i |}
                     = (Raise (Exception timeout_message),
                        {| process := Some {| stdin := (stdin p
                                                          ++ [tools_call_request n first_tool
                                                                first_arguments])%list;
                                              stdout := Line line :: rest;
                                              stderr := after_read (stderr p) |};
                           cache_tools_list := c; _tools_cache := cache;
                           _next_request_id := n + 1; _initialized := i |})).
    { unfold call_tool. cbv beta iota zeta delta [bind get modify ret set_next_request_id].
      simpl.
      match goal with
      | |- context [_send_request _ _ ?req ?s] =>
          rewrite (send_request_timeout json_loads py_str req s p eq_refl)
      end.
      - rewrite Hout. reflexivity.
      - right. eexists. exact Hout.
      - exact Hread. }
    rewrite Hfirst. split; [reflexivity|]. simpl.
    unfold call_tool. cbv beta iota zeta delta [bind get modify ret set_next_request_id].
    simpl.
    match goal with
    | |- context [_send_request _ _ ?req ?s] =>
        rewrite (send_request_result req s
                   {| stdin := (stdin p
                                  ++ [tools_call_request n first_tool first_arguments])%list;
                      stdout := Line line :: rest;
                      stderr := after_read (stderr p) |} line rest frame
                   eq_refl eq_refl Hline Hdec Herr)
    end.
    reflexivity.
  - intro Hsilent. destruct p as [written lines diagnostics]. simpl in *. subst.
    unfold call_tool. cbv beta iota zeta delta [bind get modify ret set_next_request_id].
    simpl. run_send. reflexivity.
Qed.

End ClientMore.

(** ** MCPServerStdio: the calls that come to an end *)

Section ClientCompletes.

Variable json_loads : string -> outcome value.
Variable py_str : value -> string.

Import MCPServerStdio.

Ltac run_send :=
  unfold _send_request, write_request, readline, read_stderr;
  unfold bind, get, modify, try_except, raise, ret, lift, step, block, set_process; simpl.

Ltac responsive_cases :=
  repeat match goal with
         | H : false = true |- _ => discriminate H
         | w : Empty_set |- _ => destruct w
         | |- context [match ?x with _ => _ end] =>
             lazymatch x with
             | context [match _ with _ => _ end] => fail
             | _ => destruct x; simpl in *
             end
         end.

Lemma responsive_child (self : t) (p : subprocess) :
  process self = Some p ->
  never_silent (stderr p) = true ->
  responsive self.
Proof.
  intros Hp Hnever p' Hp'. rewrite Hp in Hp'. injection Hp' as <-. exact Hnever.
Qed.

Lemma responsive_no_child (self : t) : process self = None -> responsive self.
Proof. intros Hp p' Hp'. rewrite Hp in Hp'. discriminate Hp'. Qed.

(** On a child whose stderr never falls silent, a request comes to an end,
    and the stderr it leaves never falls silent either. *)
Lemma send_request_completes (request : value) (self : t) :
  responsive self ->
  completes (_send_request json_loads py_str request self) /\
  responsive (snd (_send_request json_loads py_str request self)).
Proof.
  intro Hresp. destruct self as [[p|] c cache n i].
  2:{ split; [exact I | exact Hresp]. }
  specialize (Hresp p eq_refl). destruct p as [written lines diagnostics]. simpl in Hresp.
  run_send. unfold completes.
  responsive_cases; (split; [exact I | intros p' [= <-]; simpl; assumption]).
Qed.

Lemma initialize_completes (self : t) :
  responsive self ->
  completes (_initialize json_loads py_str self) /\
  responsive (snd (_initialize json_loads py_str self)).
Proof.
  intro Hresp. cbv beta iota zeta delta [_initialize bind get modify ret].
  destruct (_initialized self); [split; [exact I | exact Hresp]|].
  match goal with
  | |- context [_send_request _ _ ?req ?s] =>
      destruct (send_request_completes req s) as [Hc Hr]; [exact Hresp|];
      destruct (_send_request json_loads py_str req s) as [[result|e|w] s']
  end; simpl in *; (split; [assumption || exact I | exact Hr]).
Qed.

Lemma aenter_completes (spawning : spawn) (self : t) :
  spawn_responsive spawning ->
  responsive self ->
  completes (aenter json_loads py_str spawning self) /\
  responsive (snd (aenter json_loads py_str spawning self)).
Proof.
  intros Hspawn Hresp. unfold aenter.
  destruct spawning as [child|e|[]].
  - cbv beta iota zeta delta [bind lift step modify].
    destruct (initialize_completes (set_process (Some (attach child)) self)) as [Hc Hr].
    { apply (responsive_child (set_process (Some (attach child)) self) (attach child));
        [reflexivity | exact (Hspawn child eq_refl)]. }
    destruct (_initialize json_loads py_str (set_process (Some (attach child)) self))
      as [[result|e|w] s']; simpl in *; (split; [assumption || exact I | exact Hr]).
  - split; [exact I | exact Hresp].
Qed.

Lemma list_tools_completes (self : t) :
  responsive self ->
  completes (list_tools json_loads py_str self) /\
  responsive (snd (list_tools json_loads py_str self)).
Proof.
  intro Hresp. cbv beta iota zeta delta [list_tools bind get modify ret].
  destruct (cache_tools_list self && truthy (_tools_cache self));
    [split; [exact I | exact Hresp]|].
  match goal with
  | |- context [_send_request _ _ ?req ?s] =>
      destruct (send_request_completes req s) as [Hc Hr]; [exact Hresp|];
      destruct (_send_request json_loads py_str req s) as [[result|e|w] s']
  end; simpl in *; try (split; [assumption || exact I | exact Hr]).
  destruct (cache_tools_list self); simpl; (split; [exact I | exact Hr]).
Qed.

Lemma call_tool_completes (tool_name : string) (arguments : value) (self : t) :
  responsive self ->
  completes (call_tool json_loads py_str tool_name arguments self) /\
  responsive (snd (call_tool json_loads py_str tool_name arguments self)).
Proof.
  intro Hresp. cbv beta iota zeta delta [call_tool bind get modify ret].
  match goal with
  | |- context [_send_request _ _ ?req ?s] =>
      destruct (send_request_completes req s) as [Hc Hr]; [exact Hresp|];
      destruct (_send_request json_loads py_str req s) as [[result|e|w] s']
  end; simpl in *; (split; [assumption || exact I | exact Hr]).
Qed.

End ClientCompletes.

(** ** CompanyVerificationWorkflow: what the stages accept, forward and raise *)

Section WorkflowMore.

Variable json_loads : string -> outcome value.
Variable lower : string -> string.
Variable Server : Type.
Variable call_tool : string -> value -> M Server value.

Import CompanyVerificationWorkflow.

Local Abbreviation workflow := (CompanyVerificationWorkflow.t Server).

Ltac run_stage :=
  cbv beta iota zeta delta
    [execute_search execute_crawl execute_verify extract_linkedin_urls verify_pages
     keep_company_page keep_page
     mcp_server_call_tool parse_crawl parse_verify try_except bind modify get ret lift
     step raise log_len success_and_has any_exception py_get py_in py_getitem py_len
     py_lower];
  simpl.

Ltac split_cases :=
  repeat match goal with
         | w : Empty_set |- _ => destruct w
         | |- context [match ?x with _ => _ end] =>
             lazymatch x with
             | context [match _ with _ => _ end] => fail
             | _ => destruct x eqn:?; simpl
             end
         end.

Ltac open_parser :=
  cbv beta iota zeta delta
    [parse_crawl parse_verify try_except bind modify get ret lift step raise log_len
     success_and_has any_exception is_JSONDecodeError py_get py_in py_getitem
     dict_mem dict_get_default].

(** *** The pages sent to the verify tool *)

Lemma true_entry_is_bound (d : list (string * value)) (k : string) :
  truthy (dict_get_default d k VNone) = true ->
  dict_get d k = Some (dict_get_default d k VNone).
Proof.
  unfold dict_get_default. destruct (dict_get d k); [reflexivity | discriminate].
Qed.

Lemma verify_loop (crawl : list value) (acc : list value) (self : workflow) :
  Forall is_mapping crawl ->
  for_each crawl acc keep_page self =
    (Ok (acc ++ map page_to_verify (filter usable_page crawl))%list, self).
Proof.
  intro Hmap. revert acc. induction Hmap as [|page crawl [d ->] _ IH]; intro acc.
  - simpl. rewrite app_nil_r. reflexivity.
  - simpl. unfold bind at 1. unfold keep_page at 1.
    unfold bind, lift, ret. simpl.
    destruct (truthy (dict_get_default d "content" VNone)) eqn:Hcontent; simpl.
    + destruct (truthy (dict_get_default d "url" VNone)) eqn:Hurl; simpl.
      * rewrite (true_entry_is_bound d "url" Hurl), (true_entry_is_bound d "content" Hcontent).
        simpl. rewrite IH, <- app_assoc. reflexivity.
      * apply IH.
    + apply IH.
Qed.

(** X10.  Of crawl results that are mappings, [execute_verify] forwards
    exactly those whose content and url are both true, in their order, each
    reduced to its url and its content.  When none is left it calls no tool and
    returns an empty list, leaving the workflow as it was. *)
Theorem verify_forwards_usable_pages (self : workflow) (crawl : list value) :
  Forall is_mapping crawl ->
  verify_pages crawl self = (Ok (map page_to_verify (filter usable_page crawl)), self) /\
  (crawl_results self = VList crawl ->
   filter usable_page crawl = [] ->
   forall company_name official_website,
     execute_verify json_loads call_tool company_name official_website self
       = (Ok (VDict [("verify_results", VList [])]), self)).
Proof.
  intro Hmap.
  assert (Hpages : verify_pages crawl self
                   = (Ok (map page_to_verify (filter usable_page crawl)), self))
    by exact (verify_loop crawl [] self Hmap).
  split; [exact Hpages|].
  intros Hcrawl Hnone company_name official_website.
  unfold execute_verify, bind, get, lift. rewrite Hcrawl.
  destruct crawl as [|page crawl]; [reflexivity|].
  change (truthy (VList (page :: crawl))) with true.
  change (step (py_iter (VList (page :: crawl)))) with (@Ok unit _ (page :: crawl)).
  cbv beta iota delta [negb]. rewrite Hpages, Hnone. reflexivity.
Qed.

(** *** Exceptions of the tool calls *)

Lemma search_call_raises (company_name : string) (self : workflow) (e : exn)
  (server' : Server) :
  call_tool "search_company" (VDict [("company_name", VStr company_name)]) (mcp_server self)
    = (Raise e, server') ->
  execute_search json_loads call_tool company_name self
    = (Raise e, set_mcp_server server' self).
Proof.
  intro Hcall.
  unfold execute_search, bind, mcp_server_call_tool. rewrite Hcall. reflexivity.
Qed.

Lemma run_search_call_raises (company_name : string) (official_website : value)
  (self : workflow) (e : exn) (server' : Server) :
  call_tool "search_company" (VDict [("company_name", VStr company_name)])
    (mcp_server (reset_aggregates self)) = (Raise e, server') ->
  run_complete_workflow json_loads lower call_tool company_name official_website self
    = (Raise e, set_mcp_server server' (reset_aggregates self)).
Proof.
  intro Hcall.
  unfold run_complete_workflow.
  cbv beta iota zeta delta [bind modify get ret lift].
  fold (reset_aggregates self).
  rewrite (search_call_raises company_name (reset_aggregates self) e server' Hcall).
  reflexivity.
Qed.

(** X11.  An exception of [call_tool] is not caught by the stage that made
    the call: the search stage, the crawl stage and the verify stage raise it,
    and a run whose search call raises it raises it too. *)
Theorem tool_failure_propagates :
  (forall company_name (self : workflow) e server',
     call_tool "search_company" (VDict [("company_name", VStr company_name)]) (mcp_server self)
       = (Raise e, server') ->
     execute_search json_loads call_tool company_name self
       = (Raise e, set_mcp_server server' self)) /\
  (forall first others (self : workflow) e server',
     call_tool "crawl_multiple_pages" (VDict [("urls", VList (first :: others))])
       (mcp_server self) = (Raise e, server') ->
     execute_crawl json_loads call_tool (first :: others) self
       = (Raise e, set_mcp_server server' self)) /\
  (forall company_name official_website (self : workflow) crawl page pages e server',
     truthy (crawl_results self) = true ->
     py_iter (crawl_results self) = Ok crawl ->
     verify_pages crawl self = (Ok (page :: pages), self) ->
     call_tool "verify_multiple_contents"
       (verify_args company_name official_website (page :: pages)) (mcp_server self)
       = (Raise e, server') ->
     execute_verify json_loads call_tool company_name official_website self
       = (Raise e, set_mcp_server server' self)) /\
  (forall company_name official_website (self : workflow) e server',
     call_tool "search_company" (VDict [("company_name", VStr company_name)])
       (mcp_server (reset_aggregates self)) = (Raise e, server') ->
     run_complete_workflow json_loads lower call_tool company_name official_website self
       = (Raise e, set_mcp_server server' (reset_aggregates self))).
Proof.
  split; [exact search_call_raises|]. split; [|split].
  - intros first others self e server' Hcall.
    unfold execute_crawl, bind, mcp_server_call_tool. rewrite Hcall. reflexivity.
  - intros company_name official_website self crawl page pages e server'
      Htruthy Hiter Hpages Hcall.
    unfold execute_verify, bind, get, lift. rewrite Htruthy, Hiter. simpl.
    rewrite Hpages. unfold mcp_server_call_tool. rewrite Hcall. reflexivity.
  - exact run_search_call_raises.
Qed.

(** *** Search results that are not search results *)

(** X12.  [extract_linkedin_urls] raises [AttributeError] at the first entry
    of the search results that is no mapping or whose url is no string,
    whatever the entries before and after it; it changes nothing. *)
Theorem extract_raises_on_malformed_entry (self : workflow)
  (good rest : list value) (bad : value) :
  search_results self = VList (good ++ bad :: rest) ->
  Forall is_search_result good ->
  ~ is_search_result bad ->
  extract_linkedin_urls lower self = (Raise AttributeError, self).
Proof.
  intros Hresults Hgood Hbad.
  unfold extract_linkedin_urls, bind, get, lift. rewrite Hresults. simpl.
  clear Hresults. generalize (@nil value) as acc.
  induction Hgood as [|r good (d & u & -> & Hu) _ IH]; intro acc.
  - simpl. unfold bind at 1. unfold keep_company_page.
    unfold bind, lift, ret.
    destruct bad as [| | | | | |d]; try reflexivity.
    simpl. destruct (dict_get_default d "url" (VStr "")) as [| | | |u| |] eqn:Hu;
      try reflexivity.
    exfalso. apply Hbad. exists d, u. split; [reflexivity | exact Hu].
  - simpl. unfold bind at 1. unfold keep_company_page at 1.
    unfold bind, lift, ret. simpl. rewrite Hu. simpl.
    destruct (str_contains linkedin_company_marker (lower u)); apply IH.
Qed.

(** *** The shapes the parsers accept *)

(** X13.  A response that arrives as a mapping is accepted as soon as it has
    a [success] key, even when its value is false: its [results] are stored,
    and for a verify response the flag and the count as well.  The same
    response as a string is rejected and leaves the workflow as it was. *)
Theorem mapping_accepts_false_success (self : workflow) (d : list (string * value))
  (flag : value) (R : list value) :
  dict_get d "success" = Some flag ->
  truthy flag = false ->
  dict_get d "results" = Some (VList R) ->
  parse_crawl json_loads (VDict d) self = (Ok tt, set_crawl_results (VList R) self) /\
  (forall s, json_loads s = Ok (VDict d) ->
             parse_crawl json_loads (VStr s) self = (Ok tt, self)) /\
  (exists after,
     parse_verify json_loads (VDict d) self = (Ok tt, after) /\
     verify_results after = VList R /\
     linkedin_found after = dict_get_default d "linkedin" (VBool false) /\
     match_count after = dict_get_default d "match_count" (VInt 0)) /\
  (forall s, json_loads s = Ok (VDict d) ->
             parse_verify json_loads (VStr s) self = (Ok tt, self)).
Proof.
  intros Hsuccess Hfalse Hresults.
  split; [|split; [|split]].
  - open_parser. rewrite Hsuccess, Hresults. reflexivity.
  - intros s Hs. open_parser. rewrite Hs. cbv beta iota.
    rewrite Hsuccess, Hfalse. reflexivity.
  - eexists. split.
    + open_parser. rewrite Hsuccess, Hresults. cbv beta iota delta [andb].
      simpl. reflexivity.
    + repeat split.
  - intros s Hs. open_parser. rewrite Hs. cbv beta iota.
    rewrite Hsuccess, Hfalse. reflexivity.
Qed.

(** X14.  When a response has both the [results] field and the legacy field,
    the list under [results] is the one stored: for a crawl response that also
    has [pages], and for a verify response that also has [verifications], as a
    mapping and as a string. *)
Theorem results_take_precedence (self : workflow) (d : list (string * value))
  (R : list value) :
  dict_get d "success" = Some (VBool true) ->
  dict_get d "results" = Some (VList R) ->
  (forall legacy,
     dict_get d "pages" = Some legacy ->
     crawl_results (snd (parse_crawl json_loads (VDict d) self)) = VList R /\
     (forall s, json_loads s = Ok (VDict d) ->
        crawl_results (snd (parse_crawl json_loads (VStr s) self)) = VList R)) /\
  (forall legacy,
     dict_get d "verifications" = Some legacy ->
     verify_results (snd (parse_verify json_loads (VDict d) self)) = VList R /\
     (forall s, json_loads s = Ok (VDict d) ->
        verify_results (snd (parse_verify json_loads (VStr s) self)) = VList R)).
Proof.
  intros Hsuccess Hresults.
  split; intros legacy _; (split; [|intros s Hs]).
  - open_parser. rewrite Hsuccess, Hresults. reflexivity.
  - open_parser. rewrite Hs. cbv beta iota. rewrite Hsuccess. cbv beta iota delta [truthy].
    rewrite Hresults. reflexivity.
  - open_parser. rewrite Hsuccess, Hresults. cbv beta iota delta [andb].
    simpl. reflexivity.
  - open_parser. rewrite Hs. cbv beta iota. rewrite Hsuccess. cbv beta iota delta [truthy].
    rewrite Hresults. cbv beta iota. simpl. reflexivity.
Qed.

(** X15.  When the [results] of a verify response that arrives as a mapping
    have no length ([null], a number, a boolean), they are stored as the
    verify results, and nothing else is: best match, url, flag and count stay
    as they were, whatever the response carries. *)
Theorem unsized_results_store_no_aggregates (self : workflow) (d : list (string * value))
  (v : value) :
  dict_mem d "success" = true ->
  dict_get d "results" = Some v ->
  py_len v = Raise TypeError ->
  parse_verify json_loads (VDict d) self = (Ok tt, set_verify_results v self).
Proof.
  intros Hsuccess Hresults Hlen.
  cbv beta iota zeta delta
    [parse_verify try_except bind modify get ret lift raise log_len any_exception].
  unfold dict_mem in *. unfold dict_get_default. rewrite Hresults.
  destruct (dict_get d "success"); [|discriminate Hsuccess]. simpl.
  rewrite Hlen. reflexivity.
Qed.

(** *** What the search stage stores and what a run reports *)

(** X16.  The search stage stores the results that the response carries in
    one of the two accepted shapes, and returns them.  For every other
    response (another type, a mapping without the keys, a string that does not
    decode to such a mapping) it keeps and returns the results stored before. *)
Theorem search_stores_results_taken (company_name : string) (self : workflow)
  (response : value) (server' : Server) :
  call_tool "search_company" (VDict [("company_name", VStr company_name)]) (mcp_server self)
    = (Ok response, server') ->
  let stored := match results_taken json_loads response with
                | Some results => results
                | None => search_results self
                end in
  execute_search json_loads call_tool company_name self
    = (Ok (VDict [("search_results", stored)]),
       set_search_results stored (set_mcp_server server' self)).
Proof.
  intro Hcall. destruct self as [srv sr cr vr bm lu lf mc]. simpl in Hcall.
  cbv beta iota zeta delta
    [execute_search mcp_server_call_tool try_except bind modify get ret lift step raise
     log_len success_and_has any_exception is_JSONDecodeError py_get py_in py_getitem
     results_taken mcp_server].
  rewrite Hcall. cbv beta iota.
  destruct response as [| | | |s| |d]; try reflexivity.
  - destruct (json_loads s) as [[| | | | | |d]|e|[]]; try reflexivity.
    + cbv beta iota. unfold dict_mem.
      destruct (truthy (dict_get_default d "success" VNone)); [|reflexivity].
      cbv beta iota. destruct (dict_get d "results") as [results|]; [|reflexivity].
      cbv beta iota. destruct (py_len results) as [n|e|[]]; [reflexivity|].
      destruct e; reflexivity.
    + destruct e; reflexivity.
  - unfold dict_get_default, dict_mem.
    destruct (dict_get d "success"); [|reflexivity].
    destruct (dict_get d "results") as [results|]; [|reflexivity].
    cbv beta iota delta [andb]. destruct (py_len results) as [n|e|[]]; reflexivity.
Qed.

Lemma execute_verify_keeps_search_results (company_name : string) (official_website : value)
  (self : workflow) :
  search_results (snd (execute_verify json_loads call_tool company_name official_website self))
    = search_results self.
Proof.
  unfold execute_verify, bind, get, lift.
  destruct (truthy (crawl_results self)); simpl; [|reflexivity].
  destruct (py_iter (crawl_results self)) as [crawl|e|[]]; simpl; [|reflexivity].
  pose proof (verify_pages_frame Server crawl self) as Hframe.
  destruct (verify_pages crawl self) as [[pages|e|w] s1]; simpl in Hframe; subst s1;
    [|reflexivity|reflexivity].
  destruct pages as [|page pages]; [reflexivity|].
  unfold mcp_server_call_tool at 1.
  destruct (call_tool "verify_multiple_contents"
              (verify_args company_name official_website (page :: pages))
              (mcp_server self)) as [[response|e|w] server'];
    [|destruct self; reflexivity|destruct self; reflexivity].
  destruct (parse_verify_cases json_loads Server response (set_mcp_server server' self))
    as (s2 & Hparse & _ & _ & Hsearch & _).
  rewrite Hparse. unfold ret. simpl. rewrite Hsearch. destruct self; reflexivity.
Qed.

(** X17.  The result of a run that returns carries the company name, the
    search results the workflow then holds, the official website exactly when
    the one passed is true, the keys [linkedin_found], [linkedin_url] and
    [match_count] exactly when the stored flag is true (with the literal
    [True], whatever the true flag is), and [best_match] exactly when the
    stored best match is true. *)
Theorem result_keys_follow_the_aggregates (company_name : string) (official_website : value)
  (self after : workflow) (r : value) :
  run_complete_workflow json_loads lower call_tool company_name official_website self
    = (Ok r, after) ->
  exists d,
    r = VDict d /\
    dict_get d "company_name" = Some (VStr company_name) /\
    dict_get d "search" = Some (VDict [("search_results", search_results after)]) /\
    dict_get d "official_website"
      = (if truthy official_website then Some official_website else None) /\
    dict_get d "linkedin_found"
      = (if truthy (linkedin_found after) then Some (VBool true) else None) /\
    dict_get d "linkedin_url"
      = (if truthy (linkedin_found after) then Some (linkedin_url after) else None) /\
    dict_get d "match_count"
      = (if truthy (linkedin_found after) then Some (match_count after) else None) /\
    dict_get d "best_match"
      = (if truthy (best_match after) then Some (best_match after) else None).
Proof.
  intro Hrun.
  apply (run_complete_workflow_stages json_loads lower Server call_tool) in Hrun.
  destruct Hrun as (search_result & s1 & linkedin_urls & crawl_result & s2 & verify_result
                    & success & Hs & _ & Hc & Hv & _ & ->).
  apply (execute_search_returns json_loads Server call_tool) in Hs. subst search_result.
  assert (Hsearch : search_results after = search_results s1).
  { pose proof (execute_verify_keeps_search_results company_name official_website s2) as Hk.
    rewrite Hv in Hk. simpl in Hk. rewrite Hk.
    pose proof (execute_crawl_frame json_loads Server call_tool linkedin_urls s1) as Hf.
    rewrite Hc in Hf. simpl in Hf. apply Hf. }
  rewrite <- Hsearch.
  eexists. split; [reflexivity|].
  unfold final_result.
  destruct (truthy official_website), (truthy (linkedin_found after)),
    (truthy (best_match after)); repeat split.
Qed.

End WorkflowMore.

(** ** CompanyVerificationWorkflow: the runs that come to an end *)

Section WorkflowCompletes.

Variable json_loads : string -> outcome value.
Variable lower : string -> string.
Variable Server : Type.
Variable call_tool : string -> value -> M Server value.

(** A property of the server that makes its calls come to an end and that
    its calls keep. *)
Variable responds : Server -> Prop.
Hypothesis call_tool_completes :
  forall tool_name arguments server,
    responds server ->
    completes (call_tool tool_name arguments server) /\
    responds (snd (call_tool tool_name arguments server)).

Import CompanyVerificationWorkflow.

Local Abbreviation workflow := (CompanyVerificationWorkflow.t Server).

Ltac run_stage :=
  cbv beta iota zeta delta
    [execute_search execute_crawl execute_verify extract_linkedin_urls verify_pages
     keep_company_page keep_page
     mcp_server_call_tool parse_crawl parse_verify try_except bind modify get ret lift
     step raise log_len success_and_has any_exception py_get py_in py_getitem py_len
     py_lower];
  simpl.

Ltac split_cases :=
  repeat match goal with
         | w : Empty_set |- _ => destruct w
         | |- context [match ?x with _ => _ end] =>
             lazymatch x with
             | context [match _ with _ => _ end] => fail
             | _ => destruct x eqn:?; simpl
             end
         end.

Lemma for_each_completes {A B : Type} (body : B -> A -> M workflow B) (xs : list A) :
  (forall acc x s, completes (body acc x s)) ->
  forall acc s, completes (for_each xs acc body s).
Proof.
  intro Hbody. induction xs as [|x xs IH]; intros acc s; simpl; [exact I|].
  unfold bind. specialize (Hbody acc x s).
  destruct (body acc x s) as [[acc'|e|w] s']; [apply IH | exact I | exact Hbody].
Qed.

Lemma keep_company_page_completes (acc : list value) (x : value) (self : workflow) :
  completes (keep_company_page lower acc x self).
Proof. unfold completes. run_stage. split_cases; exact I. Qed.

Lemma keep_page_completes (acc : list value) (x : value) (self : workflow) :
  completes (keep_page acc x self).
Proof. unfold completes. run_stage. split_cases; exact I. Qed.

Lemma execute_search_completes (company_name : string) (self : workflow) :
  responds (mcp_server self) ->
  completes (execute_search json_loads call_tool company_name self) /\
  responds (mcp_server (snd (execute_search json_loads call_tool company_name self))).
Proof.
  intro Hresp. destruct self as [srv sr cr vr bm lu lf mc]. simpl in Hresp.
  destruct (call_tool_completes "search_company"
              (VDict [("company_name", VStr company_name)]) srv Hresp) as [Hc Hr].
  unfold completes in *. run_stage.
  destruct (call_tool "search_company" (VDict [("company_name", VStr company_name)]) srv)
    as [[result|e|w] srv']; simpl in *; [|split; assumption|split; assumption].
  split_cases; (split; [exact I | assumption]).
Qed.

Lemma extract_linkedin_urls_completes (self : workflow) :
  completes (extract_linkedin_urls lower self) /\
  snd (extract_linkedin_urls lower self) = self.
Proof.
  split.
  - unfold extract_linkedin_urls, bind, get, lift.
    destruct (py_iter (search_results self)) as [results|e|[]]; simpl; [|exact I].
    apply for_each_completes, keep_company_page_completes.
  - apply extract_linkedin_urls_frame.
Qed.

Lemma execute_crawl_completes (urls : list value) (self : workflow) :
  responds (mcp_server self) ->
  completes (execute_crawl json_loads call_tool urls self) /\
  responds (mcp_server (snd (execute_crawl json_loads call_tool urls self))).
Proof.
  intro Hresp. destruct urls as [|url urls]; [split; [exact I | exact Hresp]|].
  destruct self as [srv sr cr vr bm lu lf mc]. simpl in Hresp.
  destruct (call_tool_completes "crawl_multiple_pages"
              (VDict [("urls", VList (url :: urls))]) srv Hresp) as [Hc Hr].
  unfold completes in *. run_stage.
  destruct (call_tool "crawl_multiple_pages" (VDict [("urls", VList (url :: urls))]) srv)
    as [[result|e|w] srv']; simpl in *; [|split; assumption|split; assumption].
  split_cases; (split; [exact I | assumption]).
Qed.

Lemma execute_verify_completes (company_name : string) (official_website : value)
  (self : workflow) :
  responds (mcp_server self) ->
  completes (execute_verify json_loads call_tool company_name official_website self) /\
  responds (mcp_server
              (snd (execute_verify json_loads call_tool company_name official_website self))).
Proof.
  intro Hresp. unfold execute_verify, bind, get, lift.
  destruct (truthy (crawl_results self)); simpl; [|split; [exact I | exact Hresp]].
  destruct (py_iter (crawl_results self)) as [crawl|e|[]]; simpl;
    [|split; [exact I | exact Hresp]].
  pose proof (verify_pages_frame Server crawl self) as Hframe.
  pose proof (for_each_completes keep_page crawl keep_page_completes [] self) as Hpages.
  fold (verify_pages crawl self) in Hpages. unfold completes in Hpages.
  destruct (verify_pages crawl self) as [[pages|e|w] s1]; simpl in Hframe, Hpages; subst s1;
    [|split; [exact I | exact Hresp]|contradiction].
  destruct pages as [|page pages]; [split; [exact I | exact Hresp]|].
  unfold mcp_server_call_tool.
  destruct (call_tool_completes "verify_multiple_contents"
              (verify_args company_name official_website (page :: pages))
              (mcp_server self) Hresp) as [Hc Hr].
  unfold completes in Hc.
  destruct (call_tool "verify_multiple_contents"
              (verify_args company_name official_website (page :: pages))
              (mcp_server self)) as [[response|e|w] server']; simpl in Hc, Hr;
    [|split; [exact I | destruct self; simpl; exact Hr]|contradiction].
  destruct (parse_verify_cases json_loads Server response (set_mcp_server server' self))
    as (s2 & Hparse & Hserver & _).
  rewrite Hparse. unfold ret. simpl. split; [exact I|].
  rewrite Hserver. destruct self; simpl; exact Hr.
Qed.

(** A run on a server that responds comes to an end, and the server still
    responds. *)
Lemma run_complete_workflow_completes (company_name : string) (official_website : value)
  (self : workflow) :
  responds (mcp_server self) ->
  completes (run_complete_workflow json_loads lower call_tool company_name official_website
               self) /\
  responds (mcp_server
              (snd (run_complete_workflow json_loads lower call_tool company_name
                      official_website self))).
Proof.
  intro Hresp. unfold run_complete_workflow.
  cbv beta iota zeta delta [bind modify get ret lift].
  fold (reset_aggregates self).
  assert (Hreset : responds (mcp_server (reset_aggregates self)))
    by (destruct self; exact Hresp).
  destruct (execute_search_completes company_name (reset_aggregates self) Hreset)
    as [Hc1 Hr1].
  unfold completes in Hc1.
  destruct (execute_search json_loads call_tool company_name (reset_aggregates self))
    as [[search_result|e|w] s1]; simpl in Hc1, Hr1;
    [|split; [exact I | exact Hr1]|contradiction].
  destruct (extract_linkedin_urls_completes s1) as [Hc2 Hs2].
  unfold completes in Hc2.
  destruct (extract_linkedin_urls lower s1) as [[linkedin_urls|e|w] s1'];
    simpl in Hc2, Hs2; subst s1'; [|split; [exact I | exact Hr1]|contradiction].
  destruct (execute_crawl_completes linkedin_urls s1 Hr1) as [Hc3 Hr3].
  unfold completes in Hc3.
  destruct (execute_crawl json_loads call_tool linkedin_urls s1)
    as [[crawl_result|e|w] s2]; simpl in Hc3, Hr3;
    [|split; [exact I | exact Hr3]|contradiction].
  destruct (execute_verify_completes company_name official_website s2 Hr3) as [Hc4 Hr4].
  unfold completes in Hc4.
  destruct (execute_verify json_loads call_tool company_name official_website s2)
    as [[verify_result|e|w] s3]; simpl in Hc4, Hr4;
    [|split; [exact I | exact Hr4]|contradiction].
  destruct (success_of s3) as [success|e|[]]; simpl; split; try exact I; exact Hr4.
Qed.

End WorkflowCompletes.

(** ** OpenAIAgentWithMCP: the tool list, the tool calls and the client *)

Section AgentFacts.

Variable json_loads : string -> outcome value.
Variable lower : string -> string.
Variable py_str : value -> string.
Variable json_dumps : value -> string.
Variable exn_text : exn -> string.

Import OpenAIAgentWithMCP.

Local Abbreviation client := MCPServerStdio.t.
Local Abbreviation run_tool_outputs := (tool_outputs json_loads py_str json_dumps exn_text).
Local Abbreviation run_tool_output := (tool_output json_loads py_str json_dumps exn_text).
Local Abbreviation call_named := (call_named_tool json_loads py_str).
Local Abbreviation start := (start_mcp_server json_loads py_str).
Local Abbreviation verify_directly := (direct_verify_company json_loads lower py_str).
Local Abbreviation client_call_tool := (MCPServerStdio.call_tool json_loads py_str).

(** *** The conversion of the tool list *)

Lemma function_entries_mappings (tools : list value) (i : nat) :
  Forall is_mapping tools ->
  function_entries i tools = Ok (enumerate_map unparameterised i tools).
Proof.
  intro Hmap. revert i. induction Hmap as [|tool tools [d ->] _ IH]; intro i.
  - reflexivity.
  - simpl. rewrite IH. reflexivity.
Qed.

Lemma update_at_middle {A : Type} (f : A -> A) (before : list A) (x : A) (rest : list A) :
  update_at (List.length before) f (before ++ x :: rest) = (before ++ f x :: rest)%list.
Proof.
  induction before as [|y before IH]; simpl; [reflexivity|]. rewrite IH. reflexivity.
Qed.

Lemma parameters_added (i : nat) (tool : value) :
  is_mapping tool ->
  exists d,
    tool = VDict d /\
    match known_parameters (dict_get_default d "name" (VStr "")) with
    | Some parameters => with_parameters parameters (unparameterised i tool)
    | None => unparameterised i tool
    end = converted i tool.
Proof.
  intros [d ->]. exists d. split; [reflexivity|].
  unfold converted, unparameterised.
  destruct (known_parameters (dict_get_default d "name" (VStr ""))); reflexivity.
Qed.

Lemma add_parameters_mappings (tools : list value) (done : list value) :
  Forall is_mapping tools ->
  add_parameters (List.length done) tools
    (done ++ enumerate_map unparameterised (List.length done) tools)
    = Ok (done ++ enumerate_map converted (List.length done) tools)%list.
Proof.
  intro Hmap. revert done. induction Hmap as [|tool tools Htool _ IH]; intro done.
  - reflexivity.
  - destruct (parameters_added (List.length done) tool Htool) as (d & -> & Hadded).
    cbn [add_parameters enumerate_map py_get and_then].
    assert (Hstep :
      match known_parameters (dict_get_default d "name" (VStr "")) with
      | Some parameters =>
          update_at (List.length done) (with_parameters parameters)
            (done ++ unparameterised (List.length done) (VDict d)
                  :: enumerate_map unparameterised (S (List.length done)) tools)
      | None =>
          (done ++ unparameterised (List.length done) (VDict d)
                :: enumerate_map unparameterised (S (List.length done)) tools)%list
      end
      = ((done ++ [converted (List.length done) (VDict d)])
           ++ enumerate_map unparameterised (S (List.length done)) tools)%list).
    { rewrite <- Hadded, <- app_assoc.
      destruct (known_parameters (dict_get_default d "name" (VStr ""))).
      - apply update_at_middle.
      - reflexivity. }
    rewrite Hstep.
    replace (S (List.length done))
      with (List.length (done ++ [converted (List.length done) (VDict d)])%list)
      by (rewrite length_app; simpl; lia).
    rewrite IH, <- app_assoc.
    rewrite length_app. simpl.
    replace (List.length done + 1)%nat with (S (List.length done)) by lia.
    reflexivity.
Qed.

Lemma length_enumerate_map {A B : Type} (f : nat -> A -> B) (k : nat) (l : list A) :
  List.length (enumerate_map f k l) = List.length l.
Proof.
  revert k. induction l as [|x l IH]; intro k; simpl; [reflexivity|].
  rewrite IH. reflexivity.
Qed.

Lemma nth_error_enumerate_map {A B : Type} (f : nat -> A -> B) (l : list A) (k i : nat) :
  nth_error (enumerate_map f k l) i = option_map (f (k + i)%nat) (nth_error l i).
Proof.
  revert k i. induction l as [|x l IH]; intros k i.
  - destruct i; reflexivity.
  - destruct i as [|i]; simpl.
    + rewrite Nat.add_0_r. reflexivity.
    + rewrite IH. replace (S k + i)%nat with (k + S i)%nat by lia. reflexivity.
Qed.


Lemma function_entries_not_mapping (good : list value) (bad : value) (rest : list value)
  (i : nat) :
  Forall is_mapping good ->
  ~ is_mapping bad ->
  function_entries i (good ++ bad :: rest) = Raise AttributeError.
Proof.
  intros Hgood Hbad. revert i. induction Hgood as [|tool good [d ->] _ IH]; intro i.
  - simpl. destruct bad as [| | | | | |d]; try reflexivity.
    exfalso. apply Hbad. exists d. reflexivity.
  - simpl. rewrite IH. reflexivity.
Qed.

(** *** Starting the client *)

(** [start_mcp_server], step by step. *)
Lemma start_mcp_server_cases (spawning : MCPServerStdio.spawn) (self : t) :
  start spawning self =
    match MCPServerStdio.aenter json_loads py_str spawning (MCPServerStdio.init true) with
    | (Ok _, c1) =>
        match MCPServerStdio.list_tools json_loads py_str c1 with
        | (Ok tools, c2) =>
            match py_getitem tools "tools" with
            | Ok listed =>
                match py_len listed with
                | Ok _ =>
                    (Ok tools,
                     {| mcp_server := Shared;
                        workflow := Some (CompanyVerificationWorkflow.init c2) |})
                | Raise e => (Raise e, {| mcp_server := Own c2; workflow := workflow self |})
                | Blocked w => match w with end
                end
            | Raise e => (Raise e, {| mcp_server := Own c2; workflow := workflow self |})
            | Blocked w => match w with end
            end
        | (Raise e, c2) => (Raise e, {| mcp_server := Own c2; workflow := workflow self |})
        | (Blocked w, c2) => (Blocked w, {| mcp_server := Own c2; workflow := workflow self |})
        end
    | (Raise e, c1) => (Raise e, {| mcp_server := Own c1; workflow := workflow self |})
    | (Blocked w, c1) => (Blocked w, {| mcp_server := Own c1; workflow := workflow self |})
    end.
Proof.
  unfold start_mcp_server.
  cbv beta iota zeta delta [bind modify get ret lift step raise on_server mcp_server
                            workflow].
  destruct (MCPServerStdio.aenter json_loads py_str spawning (MCPServerStdio.init true))
    as [[[]|e|w] c1]; try reflexivity.
  destruct (MCPServerStdio.list_tools json_loads py_str c1) as [[listing|e|w] c2];
    try reflexivity.
  destruct (py_getitem listing "tools") as [listed|e|[]]; try reflexivity.
  destruct (py_len listed) as [n|e|[]]; reflexivity.
Qed.

Lemma start_mcp_server_returns (spawning : MCPServerStdio.spawn) (self : t)
  (tools : value) (started : t) :
  start spawning self = (Ok tools, started) ->
  exists c d listed n,
    started = {| mcp_server := Shared;
                 workflow := Some (CompanyVerificationWorkflow.init c) |} /\
    tools = VDict d /\
    dict_get d "tools" = Some listed /\
    py_len listed = Ok n.
Proof.
  rewrite start_mcp_server_cases.
  destruct (MCPServerStdio.aenter json_loads py_str spawning (MCPServerStdio.init true))
    as [[[]|e|w] c1]; try discriminate.
  destruct (MCPServerStdio.list_tools json_loads py_str c1) as [[listing|e|w] c2];
    try discriminate.
  destruct (py_getitem listing "tools") as [listed|e|[]] eqn:Hitem; try discriminate.
  destruct (py_len listed) as [n|e|[]] eqn:Hlen; try discriminate.
  intros [= <- <-].
  destruct listing as [| | | | | |d]; try discriminate Hitem. simpl in Hitem.
  destruct (dict_get d "tools") as [x|] eqn:Hget; [|discriminate Hitem].
  injection Hitem as ->. exists c2, d, listed, n. repeat split; assumption.
Qed.

(** X19.  The conversion of [create_assistant_if_needed] only sees what
    [start_mcp_server] returns, which is a mapping with a [tools] entry that
    has a length.  A listing without the key makes the method raise [KeyError]
    and a listing that is no mapping makes it raise [TypeError], both out of
    [start_mcp_server], which has then made no workflow.  A tool that is no
    mapping makes the conversion raise [AttributeError], after the server was
    started. *)
Theorem tools_for_assistant_edge_cases (spawning : MCPServerStdio.spawn) (self : t) :
  (forall tools_data started,
     start spawning self = (Ok tools_data, started) ->
     exists d listed n,
       tools_data = VDict d /\ dict_get d "tools" = Some listed /\ py_len listed = Ok n) /\
  (forall c1 d c2,
     MCPServerStdio.aenter json_loads py_str spawning (MCPServerStdio.init true)
       = (Ok tt, c1) ->
     MCPServerStdio.list_tools json_loads py_str c1 = (Ok (VDict d), c2) ->
     dict_get d "tools" = None ->
     tools_for_assistant json_loads py_str spawning self
       = (Raise (KeyError "tools"), {| mcp_server := Own c2; workflow := workflow self |})) /\
  (forall c1 listing c2,
     MCPServerStdio.aenter json_loads py_str spawning (MCPServerStdio.init true)
       = (Ok tt, c1) ->
     MCPServerStdio.list_tools json_loads py_str c1 = (Ok listing, c2) ->
     ~ is_mapping listing ->
     tools_for_assistant json_loads py_str spawning self
       = (Raise TypeError, {| mcp_server := Own c2; workflow := workflow self |})) /\
  (forall d good bad rest started,
     start spawning self = (Ok (VDict d), started) ->
     dict_get d "tools" = Some (VList (good ++ bad :: rest)) ->
     Forall is_mapping good ->
     ~ is_mapping bad ->
     tools_for_assistant json_loads py_str spawning self = (Raise AttributeError, started)).
Proof.
  split; [|split; [|split]].
  - intros tools_data started Hstart.
    destruct (start_mcp_server_returns _ _ _ _ Hstart) as (c & d & listed & n & _ & H).
    exists d, listed, n. exact H.
  - intros c1 d c2 Henter Hlist Hnone.
    unfold tools_for_assistant, bind. rewrite start_mcp_server_cases, Henter, Hlist.
    simpl. rewrite Hnone. reflexivity.
  - intros c1 listing c2 Henter Hlist Hnot.
    unfold tools_for_assistant, bind. rewrite start_mcp_server_cases, Henter, Hlist.
    destruct listing as [| | | | | |d]; try reflexivity.
    exfalso. apply Hnot. exists d. reflexivity.
  - intros d good bad rest started Hstart Htools Hgood Hbad.
    unfold tools_for_assistant, bind. rewrite Hstart.
    unfold lift, openai_tools. simpl. unfold dict_get_default. rewrite Htools. simpl.
    rewrite (function_entries_not_mapping good bad rest 0 Hgood Hbad). reflexivity.
Qed.

(** *** The calls that come to an end *)

Lemma responsive_init : responsive init.
Proof. split; intros x Hx; discriminate Hx. Qed.

Lemma on_server_completes {A : Type} (m : M client A) (self : t) :
  (forall c, MCPServerStdio.responsive c ->
             completes (m c) /\ MCPServerStdio.responsive (snd (m c))) ->
  responsive self ->
  completes (on_server m self) /\ responsive (snd (on_server m self)).
Proof.
  intros Hm [Hown Hshared]. unfold on_server.
  destruct self as [[|c|] [w|]]; simpl in *;
    try (split; [exact I | split; assumption]).
  - destruct (Hm c (Hown c eq_refl)) as [Hc Hr]. unfold completes in *.
    destruct (m c) as [r c']. simpl in *. split; [exact Hc|].
    split; [intros x [= <-]; exact Hr | exact Hshared].
  - destruct (Hm c (Hown c eq_refl)) as [Hc Hr]. unfold completes in *.
    destruct (m c) as [r c']. simpl in *. split; [exact Hc|].
    split; [intros x [= <-]; exact Hr | exact Hshared].
  - destruct (Hm _ (Hshared w eq_refl)) as [Hc Hr]. unfold completes in *.
    destruct (m (CompanyVerificationWorkflow.mcp_server w)) as [r c']. simpl in *.
    split; [exact Hc|].
    split; [intros x Hx; discriminate Hx | intros x [= <-]; destruct w; exact Hr].
Qed.

Lemma start_mcp_server_completes (spawning : MCPServerStdio.spawn) (self : t) :
  MCPServerStdio.spawn_responsive spawning ->
  responsive self ->
  completes (start spawning self) /\ responsive (snd (start spawning self)).
Proof.
  intros Hspawn [_ Hshared]. rewrite start_mcp_server_cases.
  destruct (aenter_completes json_loads py_str spawning
              (MCPServerStdio.init true) Hspawn) as [Hc1 Hr1].
  { apply responsive_no_child. reflexivity. }
  unfold completes in *.
  destruct (MCPServerStdio.aenter json_loads py_str spawning (MCPServerStdio.init true))
    as [[[]|e|w] c1]; simpl in Hc1, Hr1.
  2:{ split; [exact I|]. split; [intros x [= <-]; exact Hr1 | exact Hshared]. }
  2:{ contradiction. }
  destruct (list_tools_completes json_loads py_str c1 Hr1) as [Hc2 Hr2].
  unfold completes in Hc2.
  destruct (MCPServerStdio.list_tools json_loads py_str c1) as [[listing|e|w] c2];
    simpl in Hc2, Hr2.
  2:{ split; [exact I|]. split; [intros x [= <-]; exact Hr2 | exact Hshared]. }
  2:{ contradiction. }
  destruct (py_getitem listing "tools") as [listed|e|[]].
  2:{ split; [exact I|]. split; [intros x [= <-]; exact Hr2 | exact Hshared]. }
  destruct (py_len listed) as [n|e|[]].
  2:{ split; [exact I|]. split; [intros x [= <-]; exact Hr2 | exact Hshared]. }
  split; [exact I|]. split; [intros x Hx; discriminate Hx | intros x [= <-]; exact Hr2].
Qed.

(** *** The tool calls of a run *)

Lemma call_named_tool_completes (function_name : string) (function_args : value) (self : t) :
  responsive self ->
  completes (call_named function_name function_args self) /\
  responsive (snd (call_named function_name function_args self)).
Proof.
  intro Hresp. unfold call_named_tool.
  destruct (function_name =? "search_company")%string;
    [apply on_server_completes;
     [intros c Hc; apply call_tool_completes; exact Hc | exact Hresp]|].
  destruct (function_name =? "crawl_multiple_pages")%string;
    [apply on_server_completes;
     [intros c Hc; apply call_tool_completes; exact Hc | exact Hresp]|].
  destruct (function_name =? "verify_multiple_contents")%string;
    [apply on_server_completes;
     [intros c Hc; apply call_tool_completes; exact Hc | exact Hresp]|].
  split; [exact I | exact Hresp].
Qed.

(** One turn of the loop: the tool's result serialised, the serialised error
    when the call raised, nothing when the call never completes. *)
Lemma tool_output_cases (acc : list value) (call : tool_call) (self : t)
  (function_args : value) :
  json_loads (function_arguments call) = Ok function_args ->
  run_tool_output acc call self =
    match call_named (function_name call) function_args self with
    | (Ok result, after) => (Ok (acc ++ [answer call (json_dumps result)])%list, after)
    | (Raise e, after) =>
        (Ok (acc ++ [answer call (json_dumps (VDict [("error", VStr (exn_text e))]))])%list,
         after)
    | (Blocked w, after) => (Blocked w, after)
    end.
Proof.
  intro Hdec.
  unfold tool_output, bind, lift, try_except, ret, any_exception. rewrite Hdec. simpl.
  destruct (call_named_tool json_loads py_str (function_name call) function_args self)
    as [[result|e|w] after]; reflexivity.
Qed.

Lemma tool_outputs_step (call : tool_call) (calls : list tool_call) (acc : list value)
  (self : t) (function_args : value) :
  json_loads (function_arguments call) = Ok function_args ->
  for_each (call :: calls) acc run_tool_output self =
    match call_named (function_name call) function_args self with
    | (Ok result, after) =>
        for_each calls (acc ++ [answer call (json_dumps result)])%list run_tool_output after
    | (Raise e, after) =>
        for_each calls
          (acc ++ [answer call (json_dumps (VDict [("error", VStr (exn_text e))]))])%list
          run_tool_output after
    | (Blocked w, after) => (Blocked w, after)
    end.
Proof.
  intro Hcall. cbn [for_each]. unfold bind at 1.
  rewrite (tool_output_cases acc call self function_args Hcall).
  destruct (call_named_tool json_loads py_str (function_name call) function_args self)
    as [[result|e|w] s1]; reflexivity.
Qed.

Lemma tool_outputs_loop (calls : list tool_call) (acc : list value) (self : t) :
  Forall (decodable json_loads) calls ->
  (exists after, for_each calls acc run_tool_output self = (Blocked tt, after)) \/
  (exists outputs after,
     for_each calls acc run_tool_output self = (Ok (acc ++ outputs)%list, after) /\
     Forall2 (fun call output => exists text, output = answer call text) calls outputs).
Proof.
  intro Hdec. revert acc self.
  induction Hdec as [|call calls [function_args Hcall] _ IH]; intros acc self.
  - right. exists [], self. rewrite app_nil_r. split; [reflexivity | constructor].
  - rewrite (tool_outputs_step call calls acc self function_args Hcall).
    destruct (call_named_tool json_loads py_str (function_name call) function_args self)
      as [[result|e|[]] s1].
    + destruct (IH (acc ++ [answer call (json_dumps result)])%list s1)
        as [[after Hrest] | (outputs & after & Hrest & Hall)].
      * left. exists after. exact Hrest.
      * right. exists (answer call (json_dumps result) :: outputs), after. split.
        -- rewrite Hrest, <- app_assoc. reflexivity.
        -- constructor; [eexists; reflexivity | exact Hall].
    + destruct (IH (acc ++ [answer call
                              (json_dumps (VDict [("error", VStr (exn_text e))]))])%list s1)
        as [[after Hrest] | (outputs & after & Hrest & Hall)].
      * left. exists after. exact Hrest.
      * right. eexists (_ :: outputs), after. split.
        -- rewrite Hrest, <- app_assoc. reflexivity.
        -- constructor; [eexists; reflexivity | exact Hall].
    + left. exists s1. reflexivity.
Qed.

Lemma tool_outputs_complete (calls : list tool_call) (acc : list value) (self : t) :
  Forall (decodable json_loads) calls ->
  responsive self ->
  completes (for_each calls acc run_tool_output self).
Proof.
  intro Hdec. revert acc self.
  induction Hdec as [|call calls [function_args Hcall] _ IH]; intros acc self Hresp.
  - exact I.
  - rewrite (tool_outputs_step call calls acc self function_args Hcall).
    destruct (call_named_tool_completes (function_name call) function_args self Hresp)
      as [Hc Hr].
    unfold completes in Hc.
    destruct (call_named_tool json_loads py_str (function_name call) function_args self)
      as [[result|e|w] s1]; simpl in Hc, Hr.
    + apply IH. exact Hr.
    + apply IH. exact Hr.
    + contradiction.
Qed.


(** X21.  A call of a tool that is none of the three tools of the workflow
    reaches no client: the agent is left as it was, and the output of the call
    is the serialised error that names the tool. *)
Theorem unknown_tool_is_answered_locally (acc : list value) (call : tool_call) (self : t) :
  decodable json_loads call ->
  forwarded (function_name call) = false ->
  run_tool_output acc call self =
    (Ok (acc ++ [answer call
                   (json_dumps
                      (VDict [("error",
                               VStr (unknown_tool_prefix ++ function_name call))]))])%list,
     self).
Proof.
  intros [function_args Hdec] Hunknown.
  unfold forwarded in Hunknown.
  apply orb_false_elim in Hunknown. destruct Hunknown as [Hunknown Hverify].
  apply orb_false_elim in Hunknown. destruct Hunknown as [Hsearch Hcrawl].
  rewrite (tool_output_cases acc call self function_args Hdec).
  unfold call_named_tool, ret. rewrite Hsearch, Hcrawl, Hverify. reflexivity.
Qed.

Lemma tool_outputs_abort (before : list tool_call) (bad : tool_call) (rest : list tool_call)
  (acc : list value) (self : t) (e : exn) :
  Forall (decodable json_loads) before ->
  json_loads (function_arguments bad) = Raise e ->
  for_each (before ++ bad :: rest) acc run_tool_output self
    = match for_each before acc run_tool_output self with
      | (Ok _, after) => (Raise e, after)
      | blocked => blocked
      end.
Proof.
  intros Hbefore Hbad. revert acc self.
  induction Hbefore as [|call before [function_args Hcall] _ IH]; intros acc self.
  - simpl. unfold bind at 1. unfold tool_output, bind, lift. rewrite Hbad. reflexivity.
  - rewrite <- app_comm_cons.
    rewrite (tool_outputs_step call (before ++ bad :: rest) acc self function_args Hcall).
    rewrite (tool_outputs_step call before acc self function_args Hcall).
    destruct (call_named_tool json_loads py_str (function_name call) function_args self)
      as [[result|e'|w] s1]; try apply IH. reflexivity.
Qed.


(** *** Using and closing the client *)

Lemma call_tool_not_started (tool_name : string) (arguments : value) (c : client) :
  MCPServerStdio.process c = None ->
  fst (MCPServerStdio.call_tool json_loads py_str tool_name arguments c)
    = Raise (RuntimeError MCPServerStdio.not_started_message).
Proof.
  intro Hp. destruct c as [proc cache tc n i]. simpl in Hp. subst proc. reflexivity.
Qed.

(** X23.  After [close], an agent that had been started still holds its
    client, now without a child.  [direct_verify_company] then starts nothing:
    the child it could spawn is not used, and the run raises the
    [RuntimeError] of a client that is not started. *)
Theorem closed_agent_is_not_restarted (spawning : MCPServerStdio.spawn)
  (self started : t) (tools : value) :
  start spawning self = (Ok tools, started) ->
  exists closed,
    close started = (Ok tt, closed) /\
    mcp_server closed = Shared /\
    option_map MCPServerStdio.process (client_of closed) = Some None /\
    forall company_name official_website respawning,
      fst (verify_directly company_name official_website respawning closed)
        = Raise (RuntimeError MCPServerStdio.not_started_message).
Proof.
  intro Hstart.
  destruct (start_mcp_server_returns _ _ _ _ Hstart) as (c & _ & _ & _ & -> & _).
  eexists. split; [reflexivity|]. split; [reflexivity|]. split; [reflexivity|].
  intros company_name official_website respawning.
  destruct c as [proc cache tc n i]. reflexivity.
Qed.

(** X24.  When [__aenter__] raises in [start_mcp_server], the agent keeps
    the client it has just made and gets no workflow.  An agent that had none
    before cannot verify afterwards: [direct_verify_company] sees a client,
    starts nothing and raises [AttributeError]. *)
Theorem failed_start_leaves_no_workflow (spawning : MCPServerStdio.spawn)
  (self : t) (e : exn) (failed : client) :
  MCPServerStdio.aenter json_loads py_str spawning (MCPServerStdio.init true)
    = (Raise e, failed) ->
  start spawning self = (Raise e, {| mcp_server := Own failed; workflow := workflow self |}) /\
  (workflow self = None ->
   forall company_name official_website respawning,
     verify_directly company_name official_website respawning
       {| mcp_server := Own failed; workflow := workflow self |}
     = (Raise AttributeError, {| mcp_server := Own failed; workflow := workflow self |})).
Proof.
  intro Henter. split.
  - rewrite start_mcp_server_cases, Henter. reflexivity.
  - intros Hnone company_name official_website respawning. rewrite Hnone. reflexivity.
Qed.

(** *** The workflow test *)

Lemma start_has_client (spawning : MCPServerStdio.spawn) (self : t) :
  has_client (snd (start spawning self)).
Proof.
  rewrite start_mcp_server_cases.
  destruct (MCPServerStdio.aenter json_loads py_str spawning (MCPServerStdio.init true))
    as [[[]|e|w] c1]; try exact I.
  destruct (MCPServerStdio.list_tools json_loads py_str c1) as [[listing|e|w] c2];
    try exact I.
  destruct (py_getitem listing "tools") as [listed|e|[]]; try exact I.
  destruct (py_len listed) as [n|e|[]]; try exact I.
  unfold has_client. simpl. discriminate.
Qed.

Lemma verify_directly_cases (company_name : string) (official_website : value)
  (respawning : MCPServerStdio.spawn) (self : t) :
  has_client self ->
  verify_directly company_name official_website respawning self
    = on_workflow
        (CompanyVerificationWorkflow.run_complete_workflow json_loads lower client_call_tool
           company_name official_website) self.
Proof.
  destruct self as [[|c|] w]; unfold has_client; cbn [mcp_server workflow];
    intro Hclient; try contradiction; reflexivity.
Qed.

Lemma verify_directly_has_client (company_name : string) (official_website : value)
  (respawning : MCPServerStdio.spawn) (self : t) :
  has_client self ->
  has_client (snd (verify_directly company_name official_website respawning self)).
Proof.
  intro Hclient. rewrite (verify_directly_cases _ _ _ _ Hclient).
  destruct self as [[|c|] [w|]]; unfold has_client in *; cbn [mcp_server workflow] in *;
    try contradiction; unfold on_workflow; cbn [mcp_server workflow]; try exact I.
  - match goal with |- context [let (r, w') := ?run in _] => destruct run as [r w'] end.
    exact I.
  - match goal with |- context [let (r, w') := ?run in _] => destruct run as [r w'] end.
    simpl. discriminate.
Qed.

Lemma verify_directly_completes (company_name : string) (official_website : value)
  (respawning : MCPServerStdio.spawn) (self : t) :
  has_client self ->
  responsive self ->
  completes (verify_directly company_name official_website respawning self).
Proof.
  intros Hclient [_ Hshared]. rewrite (verify_directly_cases _ _ _ _ Hclient).
  unfold on_workflow. destruct (workflow self) as [w|]; [|exact I].
  destruct (run_complete_workflow_completes json_loads lower client
              client_call_tool MCPServerStdio.responsive
              (fun tool_name arguments server =>
                 call_tool_completes json_loads py_str tool_name arguments
                   server)
              company_name official_website w (Hshared w eq_refl)) as [Hc _].
  unfold completes in *.
  destruct (CompanyVerificationWorkflow.run_complete_workflow json_loads lower
              client_call_tool company_name official_website w) as [r w'].
  exact Hc.
Qed.

Lemma close_has_client (self : t) :
  has_client self ->
  exists closed,
    close self = (Ok tt, closed) /\
    option_map MCPServerStdio.process (client_of closed) = Some None.
Proof.
  destruct self as [[|c|] [w|]]; unfold has_client; cbn [mcp_server workflow];
    intro Hclient; try contradiction;
    eexists; (split; [reflexivity|]); reflexivity.
Qed.

(** What the test prints of a result touches no field and comes to an end. *)
Lemma summary_frame (result : value) (self : t) :
  let printed :=
    bind (TestMcpAgent.print_summary result)
      (fun _ => bind (TestMcpAgent.print_count result "search" "search_results")
      (fun _ => bind (TestMcpAgent.print_count result "crawl" "crawl_results")
      (fun _ => bind (TestMcpAgent.print_count result "verify" "verify_results")
      (fun _ => lift (py_get result "success" (VBool false)))))) self in
  snd printed = self /\ completes printed.
Proof.
  cbv zeta. unfold completes.
  unfold TestMcpAgent.print_summary, TestMcpAgent.print_count, bind, lift, step, ret.
  repeat match goal with
         | w : Empty_set |- _ => destruct w
         | |- context [match ?x with _ => _ end] =>
             lazymatch x with
             | context [match _ with _ => _ end] => fail
             | _ => destruct x; simpl
             end
         end;
    split; try reflexivity; exact I.
Qed.

(** The [try] of the test with its [except]: it returns a verdict or never
    completes, and leaves an agent that has a client. *)
Lemma test_body (company_name : string) (official_website : value)
  (spawning respawning : MCPServerStdio.spawn) :
  let tried :=
    try_except
      (bind (start spawning)
         (fun _ => bind (verify_directly company_name official_website respawning)
         (fun result => bind (TestMcpAgent.print_summary result)
         (fun _ => bind (TestMcpAgent.print_count result "search" "search_results")
         (fun _ => bind (TestMcpAgent.print_count result "crawl" "crawl_results")
         (fun _ => bind (TestMcpAgent.print_count result "verify" "verify_results")
         (fun _ => lift (py_get result "success" (VBool false)))))))))
      any_exception (fun _ => ret (VBool false)) init in
  has_client (snd tried) /\
  (forall e, fst tried <> Raise e) /\
  (MCPServerStdio.spawn_responsive spawning -> completes tried).
Proof.
  intro tried. assert (Htried : tried = tried) by reflexivity.
  unfold tried at 2 in Htried. clearbody tried.
  unfold try_except, any_exception in Htried. unfold bind at 1 in Htried.
  pose proof (start_has_client spawning init) as Hstarted.
  pose proof (start_mcp_server_completes spawning init) as Hstart.
  destruct (start spawning init) as [[tools|e|[]] started]; simpl in Hstarted, Hstart.
  2:{ subst tried. split; [exact Hstarted|].
      split; [intros ? H; discriminate H | intros _; exact I]. }
  2:{ subst tried. split; [exact Hstarted|]. split; [intros ? H; discriminate H|].
      intro Hspawn. destruct (Hstart Hspawn responsive_init) as [Hc _]. exact Hc. }
  unfold bind at 1 in Htried.
  pose proof (verify_directly_has_client company_name official_website respawning started
                Hstarted) as Hran.
  pose proof (verify_directly_completes company_name official_website respawning started
                Hstarted) as Hverify.
  destruct (verify_directly company_name official_website respawning started)
    as [[result|e|[]] ran]; simpl in Hran.
  2:{ subst tried. split; [exact Hran|].
      split; [intros ? H; discriminate H | intros _; exact I]. }
  2:{ subst tried. split; [exact Hran|]. split; [intros ? H; discriminate H|].
      intro Hspawn. apply Hverify.
      destruct (Hstart Hspawn responsive_init) as [_ Hr]. exact Hr. }
  destruct (summary_frame result ran) as [Hstate Hc].
  cbv zeta in Hstate, Hc. unfold completes in Hc.
  match type of Hstate with
  | snd ?printed = _ => destruct printed as [[verdict|e|w] s]
  end; simpl in Hstate, Hc; subst s; subst tried.
  - split; [exact Hran|]. split; [intros ? H; discriminate H | intros _; exact I].
  - split; [exact Hran|]. split; [intros ? H; discriminate H | intros _; exact I].
  - contradiction.
Qed.


(** X26.  A run that succeeds with a best match that is no mapping (a url,
    say) makes [test_workflow] report a failure: the summary reads the best
    match with [get], the [AttributeError] is caught, and the verdict is
    [False]. *)
Theorem non_mapping_best_match_fails_the_test (company_name : string)
  (official_website : value) (spawning respawning : MCPServerStdio.spawn)
  (tools : value) (started ran : t) (r : list (string * value)) (best : value) :
  start spawning init = (Ok tools, started) ->
  verify_directly company_name official_website respawning started = (Ok (VDict r), ran) ->
  truthy (dict_get_default r "success" VNone) = true ->
  dict_get r "best_match" = Some best ->
  ~ is_mapping best ->
  fst (TestMcpAgent.test_workflow json_loads lower py_str company_name official_website
         spawning respawning init) = Ok (VBool false).
Proof.
  intros Hstart Hrun Hsuccess Hbest Hnot.
  pose proof (start_has_client spawning init) as Hstarted.
  rewrite Hstart in Hstarted. simpl in Hstarted.
  pose proof (verify_directly_has_client company_name official_website respawning started
                Hstarted) as Hran.
  rewrite Hrun in Hran. simpl in Hran.
  destruct (close_has_client ran Hran) as (closed & Hclose & _).
  unfold TestMcpAgent.test_workflow, TestMcpAgent.try_finally, try_except, any_exception.
  unfold bind at 1. rewrite Hstart. unfold bind at 1. rewrite Hrun.
  unfold bind at 1. unfold TestMcpAgent.print_summary at 1.
  unfold bind, lift, step, ret, py_get, py_in, py_getitem, dict_mem.
  rewrite Hsuccess, Hbest.
  destruct best as [| | | | | |d]; try (rewrite Hclose; reflexivity).
  exfalso. apply Hnot. exists d. reflexivity.
Qed.

End AgentFacts.

(** ** Closed scenarios of the further properties *)

Import Scenarios.

Lemma send_request_returns_result_entry_witness :
  MCPServerStdio._send_request Json.loads py_repr (MCPServerStdio.tools_list_request 2)
    (client_waiting [MCPServerStdio.Line listing_line])
  = (Ok (dict_get_default listing_frame "result" VNone),
     MCPServerStdio.set_process
       (Some {| MCPServerStdio.stdin := [] ++ [MCPServerStdio.tools_list_request 2];
                MCPServerStdio.stdout := [];
                MCPServerStdio.stderr := MCPServerStdio.Silent |})
       (client_waiting [MCPServerStdio.Line listing_line])) /\
  dict_get_default listing_frame "result" VNone = VDict [("tools", VList [])].
Proof.
  split; [|reflexivity].
  apply (send_request_returns_result_entry Json.loads py_repr
           (MCPServerStdio.tools_list_request 2)
           (client_waiting [MCPServerStdio.Line listing_line])
           {| MCPServerStdio.stdin := [];
              MCPServerStdio.stdout := [MCPServerStdio.Line listing_line];
              MCPServerStdio.stderr := MCPServerStdio.Silent |}
           listing_line [] listing_frame).
  - reflexivity.
  - reflexivity.
  - discriminate.
  - vm_compute; reflexivity.
  - reflexivity.
Defined.


Lemma aenter_sends_one_handshake_witness :
  MCPServerStdio.aenter Json.loads py_repr
    (Ok ([MCPServerStdio.Line handshake_line], MCPServerStdio.Silent))
    (MCPServerStdio.init true)
    = (Ok tt, MCPServerStdio.after_handshake true true [] MCPServerStdio.Silent) /\
  MCPServerStdio._initialize Json.loads py_repr
    (MCPServerStdio.after_handshake true true [] MCPServerStdio.Silent)
    = (Ok VNone, MCPServerStdio.after_handshake true true [] MCPServerStdio.Silent).
Proof.
  apply (aenter_sends_one_handshake Json.loads py_repr true handshake_line []
           MCPServerStdio.Silent handshake_frame).
  - discriminate.
  - vm_compute; reflexivity.
  - reflexivity.
Defined.



Lemma late_response_answers_next_call_witness :
  (fst (MCPServerStdio.call_tool Json.loads py_repr "search_company" (search_args "Acme")
          (client_on [MCPServerStdio.ReadTimeout; MCPServerStdio.Line late_line]))
     = Raise (Exception MCPServerStdio.timeout_message) /\
   fst (MCPServerStdio.call_tool Json.loads py_repr "crawl_multiple_pages"
          (VDict [("urls", VList [VStr acme_url])])
          (snd (MCPServerStdio.call_tool Json.loads py_repr "search_company"
                  (search_args "Acme")
                  (client_on [MCPServerStdio.ReadTimeout; MCPServerStdio.Line late_line]))))
     = Ok (MCPServerStdio.tool_payload Json.loads
             (dict_get_default late_frame "result" VNone))) /\
  fst (MCPServerStdio.call_tool Json.loads py_repr "search_company" (search_args "Acme")
         (client_waiting [MCPServerStdio.ReadTimeout; MCPServerStdio.Line late_line]))
    = Blocked tt.
Proof.
  split.
  - apply (proj1 (late_response_answers_next_call Json.loads py_repr
                    (client_on [MCPServerStdio.ReadTimeout; MCPServerStdio.Line late_line])
                    {| MCPServerStdio.stdin := [];
                       MCPServerStdio.stdout :=
                         [MCPServerStdio.ReadTimeout; MCPServerStdio.Line late_line];
                       MCPServerStdio.stderr := MCPServerStdio.Closed |}
                    late_line [] late_frame
                    "search_company" "crawl_multiple_pages" (search_args "Acme")
                    (VDict [("urls", VList [VStr acme_url])])
                    eq_refl eq_refl ltac:(discriminate) ltac:(vm_compute; reflexivity)
                    eq_refl)).
    reflexivity.
  - apply (proj2 (late_response_answers_next_call Json.loads py_repr
                    (client_waiting
                       [MCPServerStdio.ReadTimeout; MCPServerStdio.Line late_line])
                    {| MCPServerStdio.stdin := [];
                       MCPServerStdio.stdout :=
                         [MCPServerStdio.ReadTimeout; MCPServerStdio.Line late_line];
                       MCPServerStdio.stderr := MCPServerStdio.Silent |}
                    late_line [] late_frame
                    "search_company" "crawl_multiple_pages" (search_args "Acme")
                    (VDict [("urls", VList [VStr acme_url])])
                    eq_refl eq_refl ltac:(discriminate) ltac:(vm_compute; reflexivity)
                    eq_refl)).
    reflexivity.
Defined.

Lemma verify_forwards_usable_pages_witness :
  CompanyVerificationWorkflow.verify_pages sample_crawl fresh
    = (Ok [VDict [("url", VStr "u1"); ("content", VStr "c1")];
           VDict [("url", VStr "u4"); ("content", VStr "c4")]], fresh).
Proof.
  assert (Hmap : Forall is_mapping sample_crawl)
    by (repeat constructor; eexists; reflexivity).
  exact (proj1 (verify_forwards_usable_pages Json.loads MCPServerStdio.t client_call_tool
                  fresh sample_crawl Hmap)).
Defined.

Lemma extract_raises_on_malformed_entry_witness :
  CompanyVerificationWorkflow.extract_linkedin_urls lower_ascii searched
    = (Raise AttributeError, searched).
Proof.
  apply (extract_raises_on_malformed_entry lower_ascii MCPServerStdio.t searched
           good_results more_results bad_result).
  - reflexivity.
  - repeat constructor. eexists; eexists. split; reflexivity.
  - intros (d & u & Hd & Hu). injection Hd as <-. discriminate Hu.
Defined.

Lemma mapping_accepts_false_success_witness :
  CompanyVerificationWorkflow.parse_crawl Json.loads (VDict failure_response) fresh
    = (Ok tt, CompanyVerificationWorkflow.set_crawl_results (VList spec_pages) fresh) /\
  CompanyVerificationWorkflow.parse_crawl Json.loads (VStr failure_text) fresh
    = (Ok tt, fresh).
Proof.
  destruct (mapping_accepts_false_success Json.loads MCPServerStdio.t fresh
              failure_response (VBool false) spec_pages eq_refl eq_refl eq_refl)
    as (Hmapping & Hstring & _).
  split; [exact Hmapping|]. apply Hstring. vm_compute; reflexivity.
Defined.

Lemma results_take_precedence_witness :
  dict_get crawl_both_response "pages" = Some (VList legacy_pages) /\
  dict_get verify_both_response "verifications" = Some (VList legacy_pages) /\
  CompanyVerificationWorkflow.crawl_results
    (snd (CompanyVerificationWorkflow.parse_crawl Json.loads (VDict crawl_both_response)
            fresh))
    = VList spec_pages /\
  CompanyVerificationWorkflow.crawl_results
    (snd (CompanyVerificationWorkflow.parse_crawl Json.loads (VStr crawl_both_text) fresh))
    = VList spec_pages /\
  CompanyVerificationWorkflow.verify_results
    (snd (CompanyVerificationWorkflow.parse_verify Json.loads (VDict verify_both_response)
            fresh))
    = VList spec_pages /\
  CompanyVerificationWorkflow.verify_results
    (snd (CompanyVerificationWorkflow.parse_verify Json.loads (VStr verify_both_text) fresh))
    = VList spec_pages.
Proof.
  destruct (proj1 (results_take_precedence Json.loads MCPServerStdio.t fresh
                     crawl_both_response spec_pages eq_refl eq_refl)
              (VList legacy_pages) eq_refl) as [Hcrawl Hcrawl_text].
  destruct (proj2 (results_take_precedence Json.loads MCPServerStdio.t fresh
                     verify_both_response spec_pages eq_refl eq_refl)
              (VList legacy_pages) eq_refl) as [Hverify Hverify_text].
  split; [reflexivity|]. split; [reflexivity|].
  split; [exact Hcrawl|].
  split; [apply Hcrawl_text; vm_compute; reflexivity|].
  split; [exact Hverify|].
  apply Hverify_text. vm_compute; reflexivity.
Defined.

Lemma unsized_results_store_no_aggregates_witness :
  CompanyVerificationWorkflow.parse_verify Json.loads (VDict null_results_response) fresh
    = (Ok tt, CompanyVerificationWorkflow.set_verify_results VNone fresh).
Proof.
  apply (unsized_results_store_no_aggregates Json.loads MCPServerStdio.t fresh
           null_results_response VNone); reflexivity.
Defined.

Lemma search_stores_results_taken_witness :
  results_taken Json.loads number_response = None /\
  fst (CompanyVerificationWorkflow.execute_search Json.loads client_call_tool "Other"
         searched_before)
    = Ok (VDict [("search_results",
                  CompanyVerificationWorkflow.search_results searched_before)]).
Proof.
  split; [reflexivity|].
  rewrite (search_stores_results_taken Json.loads MCPServerStdio.t client_call_tool "Other"
             searched_before number_response number_answered).
  - reflexivity.
  - vm_compute; reflexivity.
Defined.

Lemma result_keys_follow_the_aggregates_witness :
  exists d,
    matching_result = VDict d /\
    dict_get d "company_name" = Some (VStr "Acme") /\
    dict_get d "search"
      = Some (VDict [("search_results",
                      CompanyVerificationWorkflow.search_results matching_after)]) /\
    dict_get d "official_website" = (if truthy VNone then Some VNone else None) /\
    dict_get d "linkedin_found"
      = (if truthy (CompanyVerificationWorkflow.linkedin_found matching_after)
         then Some (VBool true) else None) /\
    dict_get d "linkedin_url"
      = (if truthy (CompanyVerificationWorkflow.linkedin_found matching_after)
         then Some (CompanyVerificationWorkflow.linkedin_url matching_after) else None) /\
    dict_get d "match_count"
      = (if truthy (CompanyVerificationWorkflow.linkedin_found matching_after)
         then Some (CompanyVerificationWorkflow.match_count matching_after) else None) /\
    dict_get d "best_match"
      = (if truthy (CompanyVerificationWorkflow.best_match matching_after)
         then Some (CompanyVerificationWorkflow.best_match matching_after) else None).
Proof.
  apply (result_keys_follow_the_aggregates Json.loads lower_ascii MCPServerStdio.t
           client_call_tool
           "Acme" VNone (started matching_lines) matching_after matching_result).
  vm_compute; reflexivity.
Defined.



Lemma unknown_tool_is_answered_locally_witness :
  OpenAIAgentWithMCP.tool_output Json.loads py_repr py_repr MCPServerStdio.exn_str
    [] unknown_call started_idle
  = (Ok ([] ++ [OpenAIAgentWithMCP.answer unknown_call
                  (py_repr
                     (VDict [("error",
                              VStr (OpenAIAgentWithMCP.unknown_tool_prefix
                                      ++ OpenAIAgentWithMCP.function_name unknown_call))]))])%list,
     started_idle).
Proof.
  apply (unknown_tool_is_answered_locally Json.loads py_repr py_repr MCPServerStdio.exn_str
           [] unknown_call started_idle).
  - eexists. vm_compute; reflexivity.
  - reflexivity.
Defined.


Lemma closed_agent_is_not_restarted_witness :
  exists closed,
    OpenAIAgentWithMCP.close started_idle = (Ok tt, closed) /\
    OpenAIAgentWithMCP.mcp_server closed = OpenAIAgentWithMCP.Shared /\
    option_map MCPServerStdio.process (OpenAIAgentWithMCP.client_of closed) = Some None /\
    forall company_name official_website respawning,
      fst (OpenAIAgentWithMCP.direct_verify_company Json.loads lower_ascii py_repr
             company_name official_website respawning closed)
        = Raise (RuntimeError MCPServerStdio.not_started_message).
Proof.
  apply (closed_agent_is_not_restarted Json.loads lower_ascii py_repr (agent_child [])
           OpenAIAgentWithMCP.init started_idle started_tools).
  vm_compute; reflexivity.
Defined.

Lemma failed_start_leaves_no_workflow_witness :
  (OpenAIAgentWithMCP.start_mcp_server Json.loads py_repr garbage_spawn
     OpenAIAgentWithMCP.init
   = (Raise failed_enter_error,
      {| OpenAIAgentWithMCP.mcp_server := OpenAIAgentWithMCP.Own (snd failed_enter);
         OpenAIAgentWithMCP.workflow :=
           OpenAIAgentWithMCP.workflow OpenAIAgentWithMCP.init |}) /\
   OpenAIAgentWithMCP.direct_verify_company Json.loads lower_ascii py_repr "Acme" VNone
     (agent_child [])
     {| OpenAIAgentWithMCP.mcp_server := OpenAIAgentWithMCP.Own (snd failed_enter);
        OpenAIAgentWithMCP.workflow := OpenAIAgentWithMCP.workflow OpenAIAgentWithMCP.init |}
   = (Raise AttributeError,
      {| OpenAIAgentWithMCP.mcp_server := OpenAIAgentWithMCP.Own (snd failed_enter);
         OpenAIAgentWithMCP.workflow :=
           OpenAIAgentWithMCP.workflow OpenAIAgentWithMCP.init |})) /\
  OpenAIAgentWithMCP.start_mcp_server Json.loads py_repr failed_spawn
    OpenAIAgentWithMCP.init
  = (Raise FileNotFoundError,
     {| OpenAIAgentWithMCP.mcp_server :=
          OpenAIAgentWithMCP.Own (MCPServerStdio.init true);
        OpenAIAgentWithMCP.workflow :=
          OpenAIAgentWithMCP.workflow OpenAIAgentWithMCP.init |}).
Proof.
  assert (Henter : MCPServerStdio.aenter Json.loads py_repr garbage_spawn
                     (MCPServerStdio.init true) = (Raise failed_enter_error, snd failed_enter))
    by (vm_compute; reflexivity).
  destruct (failed_start_leaves_no_workflow Json.loads lower_ascii py_repr
              garbage_spawn OpenAIAgentWithMCP.init
              failed_enter_error (snd failed_enter) Henter) as [Hstart Hverify].
  split; [split; [exact Hstart|]; apply Hverify; reflexivity|].
  exact (proj1 (failed_start_leaves_no_workflow Json.loads lower_ascii py_repr
                  failed_spawn OpenAIAgentWithMCP.init FileNotFoundError
                  (MCPServerStdio.init true) eq_refl)).
Defined.

Lemma non_mapping_best_match_fails_the_test_witness :
  dict_get url_best_result "success" = Some (VBool true) /\
  fst (TestMcpAgent.test_workflow Json.loads lower_ascii py_repr "Acme" VNone
         (agent_child url_best_lines) failed_spawn OpenAIAgentWithMCP.init)
    = Ok (VBool false).
Proof.
  split; [reflexivity|].
  apply (non_mapping_best_match_fails_the_test Json.loads lower_ascii py_repr "Acme" VNone
           (agent_child url_best_lines) failed_spawn started_tools url_best_started
           (snd url_best_run) url_best_result (VStr acme_url)).
  - vm_compute; reflexivity.
  - vm_compute; reflexivity.
  - reflexivity.
  - reflexivity.
  - intros [d Hd]. discriminate Hd.
Defined.

Lemma tools_for_assistant_edge_cases_witness :
  fst (OpenAIAgentWithMCP.tools_for_assistant Json.loads py_repr keyless_child
         OpenAIAgentWithMCP.init) = Raise (KeyError "tools") /\
  fst (OpenAIAgentWithMCP.tools_for_assistant Json.loads py_repr list_child
         OpenAIAgentWithMCP.init) = Raise TypeError /\
  fst (OpenAIAgentWithMCP.tools_for_assistant Json.loads py_repr string_tool_child
         OpenAIAgentWithMCP.init) = Raise AttributeError /\
  OpenAIAgentWithMCP.workflow
    (snd (OpenAIAgentWithMCP.tools_for_assistant Json.loads py_repr keyless_child
            OpenAIAgentWithMCP.init)) = None.
Proof.
  destruct (tools_for_assistant_edge_cases Json.loads py_repr keyless_child
              OpenAIAgentWithMCP.init) as (_ & Hkeyless & _ & _).
  destruct (tools_for_assistant_edge_cases Json.loads py_repr list_child
              OpenAIAgentWithMCP.init) as (_ & _ & Hlist & _).
  destruct (tools_for_assistant_edge_cases Json.loads py_repr string_tool_child
              OpenAIAgentWithMCP.init) as (_ & _ & _ & Hstring).
  assert (Hk : OpenAIAgentWithMCP.tools_for_assistant Json.loads py_repr keyless_child
                 OpenAIAgentWithMCP.init
               = (Raise (KeyError "tools"),
                  {| OpenAIAgentWithMCP.mcp_server :=
                       OpenAIAgentWithMCP.Own (snd (listed_of keyless_child));
                     OpenAIAgentWithMCP.workflow :=
                       OpenAIAgentWithMCP.workflow OpenAIAgentWithMCP.init |})).
  { apply (Hkeyless (entered_of keyless_child) [("other", VInt 1)]);
      vm_compute; reflexivity. }
  split; [rewrite Hk; reflexivity|].
  split.
  - rewrite (Hlist (entered_of list_child) (VList [VInt 1])
               (snd (listed_of list_child))).
    + reflexivity.
    + vm_compute; reflexivity.
    + vm_compute; reflexivity.
    + intros [d Hd]. discriminate Hd.
  - split; [|rewrite Hk; reflexivity].
    rewrite (Hstring [("tools", VList ([VDict [("name", VStr "search_company")]]
                                         ++ VStr "ping" :: [])%list)]
               [VDict [("name", VStr "search_company")]] (VStr "ping") []
               (snd (agent_start string_tool_child))).
    + reflexivity.
    + vm_compute; reflexivity.
    + reflexivity.
    + repeat constructor. eexists; reflexivity.
    + intros [d Hd]. discriminate Hd.
Defined.

